(** * cloudx: the authentication bootstrap of the Ory Cloud CLI

    A shallow embedding of [cmd/cloudx] (config store, session resolver,
    registration / login flow loops, top-level orchestration) together with
    the properties stated about it.

    Conventions.
    - Go strings are byte strings: [string] of [ascii].
    - A Go result pair (pointer, error) is a pair of options; [None] is
      [nil].
    - Everything outside the process (file system, identity API, terminal)
      lives in a [World]; every call to the outside is logged in its trace. *)

From Stdlib Require Import String Ascii List Bool Arith NArith ZArith Lia.
Import ListNotations.
Open Scope string_scope.

(* ------------------------------------------------------------------ *)
(** ** Constants *)

Definition fileName : string := ".ory-cloud.json".
Definition configFlag : string := "cloud-config".
Definition quietFlag : string := "quiet".
Definition yesFlag : string := "yes".
Definition osEnvVar : string := "ORY_CLOUD_CONFIG_PATH".
Definition cloudUrl : string := "ORY_CLOUD_URL".
Definition version : string := "v0alpha0".

(** [len(s) > 0] *)
Definition nonEmpty (s : string) : bool :=
  match s with EmptyString => false | String _ _ => true end.

(** [stringsx.Coalesce]: the first non-empty string, or the empty string. *)
Fixpoint Coalesce (str : list string) : string :=
  match str with
  | [] => ""
  | s :: rest => if nonEmpty s then s else Coalesce rest
  end.

(* ------------------------------------------------------------------ *)
(** ** UUIDs ([github.com/gofrs/uuid/v3]): sixteen bytes *)

Module uuid.

Record UUID : Type := mk {
  b0 : ascii; b1 : ascii; b2 : ascii; b3 : ascii;
  b4 : ascii; b5 : ascii; b6 : ascii; b7 : ascii;
  b8 : ascii; b9 : ascii; b10 : ascii; b11 : ascii;
  b12 : ascii; b13 : ascii; b14 : ascii; b15 : ascii }.

Definition Nil : UUID :=
  mk zero zero zero zero zero zero zero zero
     zero zero zero zero zero zero zero zero.

Definition hexDigit (n : N) : ascii :=
  match String.get (N.to_nat n) "0123456789abcdef" with
  | Some c => c
  | None => "0"%char
  end.

Definition hexHi (b : ascii) : ascii := hexDigit (N_of_ascii b / 16).
Definition hexLo (b : ascii) : ascii := hexDigit (N_of_ascii b mod 16).

Definition inRange (lo hi c : ascii) : bool :=
  ((N_of_ascii lo <=? N_of_ascii c) && (N_of_ascii c <=? N_of_ascii hi))%N.

(** [encoding/hex]: both cases of the letters are accepted. *)
Definition unhexDigit (c : ascii) : option N :=
  if inRange "0" "9" c then Some (N_of_ascii c - 48)%N
  else if inRange "a" "f" c then Some (N_of_ascii c - 87)%N
  else if inRange "A" "F" c then Some (N_of_ascii c - 55)%N
  else None.

Definition unhex2 (h l : ascii) : option ascii :=
  match unhexDigit h, unhexDigit l with
  | Some a, Some b => Some (ascii_of_N (a * 16 + b))
  | _, _ => None
  end.

(** [hex.Decode] *)
Fixpoint hexDecode (s : string) : option (list ascii) :=
  match s with
  | EmptyString => Some []
  | String h (String l rest) =>
      match unhex2 h l, hexDecode rest with
      | Some b, Some bs => Some (b :: bs)
      | _, _ => None
      end
  | String _ EmptyString => None
  end.

Definition fromBytes (l : list ascii) : option UUID :=
  match l with
  | [a0; a1; a2; a3; a4; a5; a6; a7; a8; a9; a10; a11; a12; a13; a14; a15] =>
      Some (mk a0 a1 a2 a3 a4 a5 a6 a7 a8 a9 a10 a11 a12 a13 a14 a15)
  | _ => None
  end.

Definition hx (b : ascii) (k : string) : string :=
  String (hexHi b) (String (hexLo b) k).

(** [UUID.String]: the canonical form xxxxxxxx-xxxx-xxxx-xxxx-xxxxxxxxxxxx. *)
Definition String_ (u : UUID) : string :=
  hx (b0 u) (hx (b1 u) (hx (b2 u) (hx (b3 u) (String "-"
  (hx (b4 u) (hx (b5 u) (String "-"
  (hx (b6 u) (hx (b7 u) (String "-"
  (hx (b8 u) (hx (b9 u) (String "-"
  (hx (b10 u) (hx (b11 u) (hx (b12 u) (hx (b13 u) (hx (b14 u) (hx (b15 u)
    EmptyString))))))))))))))))))).

Definition isDash (t : string) (i : nat) : bool :=
  match String.get i t with
  | Some c => Ascii.eqb c "-"
  | None => false
  end.

Definition decodeHashLike (t : string) : option UUID :=
  match hexDecode t with
  | Some l => fromBytes l
  | None => None
  end.

Definition decodeCanonical (t : string) : option UUID :=
  if isDash t 8 && isDash t 13 && isDash t 18 && isDash t 23
  then decodeHashLike
         (substring 0 8 t ++ substring 9 4 t ++ substring 14 4 t
            ++ substring 19 4 t ++ substring 24 12 t)
  else None.

Definition decodePlain (t : string) : option UUID :=
  match String.length t with
  | 32 => decodeHashLike t
  | 36 => decodeCanonical t
  | _ => None
  end.

Definition decodeBraced (t : string) : option UUID :=
  match String.get 0 t, String.get (String.length t - 1) t with
  | Some "{"%char, Some "}"%char =>
      decodePlain (substring 1 (String.length t - 2) t)
  | _, _ => None
  end.

Definition decodeURN (t : string) : option UUID :=
  if String.eqb (substring 0 9 t) "urn:uuid:"
  then decodePlain (substring 9 (String.length t - 9) t)
  else None.

(** [UUID.UnmarshalText] / [uuid.FromString]: dispatch on the length. *)
Definition FromString (t : string) : option UUID :=
  match String.length t with
  | 32 => decodeHashLike t
  | 34 | 38 => decodeBraced t
  | 36 => decodeCanonical t
  | 41 | 45 => decodeURN t
  | _ => None
  end.

Definition FromStringOrNil (t : string) : UUID :=
  match FromString t with
  | Some u => u
  | None => Nil
  end.

End uuid.

(* ------------------------------------------------------------------ *)
(** ** Strings as UTF-8 ([unicode/utf8])

    [encoding/json] writes a string coerced to valid UTF-8: every byte
    that does not start a well-formed sequence becomes U+FFFD. *)

Module utf8.

Definition between (lo hi : N) (c : ascii) : bool :=
  ((lo <=? N_of_ascii c) && (N_of_ascii c <=? hi))%N.

Definition cont (c : ascii) : bool := between 128 191 c.

(** The length of the well-formed sequence at the head of [s]; 0 when
    there is none ([utf8.DecodeRuneInString] answering RuneError, 1). *)
Definition runeLen (s : string) : nat :=
  match s with
  | EmptyString => 0
  | String c0 s1 =>
      if between 0 127 c0 then 1
      else
        match s1 with
        | EmptyString => 0
        | String c1 s2 =>
            if between 194 223 c0 then (if cont c1 then 2 else 0)
            else
              match s2 with
              | EmptyString => 0
              | String c2 s3 =>
                  let second3 :=
                    (between 224 224 c0 && between 160 191 c1)
                    || (between 225 236 c0 && cont c1)
                    || (between 237 237 c0 && between 128 159 c1)
                    || (between 238 239 c0 && cont c1) in
                  if between 224 239 c0
                  then (if second3 && cont c2 then 3 else 0)
                  else
                    match s3 with
                    | EmptyString => 0
                    | String c3 _ =>
                        let second4 :=
                          (between 240 240 c0 && between 144 191 c1)
                          || (between 241 243 c0 && cont c1)
                          || (between 244 244 c0 && between 128 143 c1) in
                        if second4 && cont c2 && cont c3 then 4 else 0
                    end
              end
        end
  end.

(** U+FFFD in UTF-8 *)
Definition replacement (k : string) : string :=
  String (ascii_of_nat 239) (String (ascii_of_nat 191) (String (ascii_of_nat 189) k)).

Fixpoint ToValid (s : string) : string :=
  match s with
  | EmptyString => EmptyString
  | String c0 s1 =>
      match runeLen s, s1 with
      | 1, _ => String c0 (ToValid s1)
      | 2, String c1 s2 => String c0 (String c1 (ToValid s2))
      | 3, String c1 (String c2 s3) =>
          String c0 (String c1 (String c2 (ToValid s3)))
      | 4, String c1 (String c2 (String c3 s4)) =>
          String c0 (String c1 (String c2 (String c3 (ToValid s4))))
      | _, _ => replacement (ToValid s1)
      end
  end.

(** A string the encoder leaves as it is. *)
Definition Valid (s : string) : bool := String.eqb (ToValid s) s.

End utf8.

(* ------------------------------------------------------------------ *)
(** ** Numbers as float64 ([strconv])

    [encoding/json] decodes a number into a float64 and writes a float64
    with the fewest digits that read back as it; [gjson] does the same
    with a number that is no plain integer. *)

Module strconv.

(** A float64 that is no NaN: [mant * 2^exp] with [0 <= mant < 2^53] and
    [-1074 <= exp <= 971], or an infinity. *)
Inductive Float : Type :=
| Finite (neg : bool) (mant exp : Z)
| Inf (neg : bool).

Definition isDigit (c : ascii) : bool :=
  ((48 <=? N_of_ascii c) && (N_of_ascii c <=? 57))%N.

Definition digitChar (d : Z) : ascii :=
  match d with
  | 0%Z => "0" | 1%Z => "1" | 2%Z => "2" | 3%Z => "3" | 4%Z => "4"
  | 5%Z => "5" | 6%Z => "6" | 7%Z => "7" | 8%Z => "8" | _ => "9"
  end%char.

(** The digits at the head of [s]: their value on top of [acc], their
    number, and what follows them. *)
Fixpoint readDigits (s : string) (acc : Z) (n : Z) : Z * Z * string :=
  match s with
  | String c rest =>
      if isDigit c
      then readDigits rest (10 * acc + (Z.of_N (N_of_ascii c) - 48)) (n + 1)
      else (acc, n, s)
  | EmptyString => (acc, n, s)
  end.

(** A decimal literal: sign, digits with at most one point, exponent.
    [Some (neg, m, e)] stands for [m * 10^e]. *)
Definition readFloat (s : string) : option (bool * Z * Z) :=
  let (neg, s) :=
    match s with
    | String "-" r => (true, r)
    | String "+" r => (false, r)
    | _ => (false, s)
    end in
  let '(int, ni, s) := readDigits s 0 0 in
  let '(m, nf, s) :=
    match s with
    | String "." r => readDigits r int 0
    | _ => (int, 0%Z, s)
    end in
  if (ni + nf =? 0)%Z then None
  else
    match s with
    | EmptyString => Some (neg, m, (- nf)%Z)
    | String c r =>
        if Ascii.eqb c "e" || Ascii.eqb c "E" then
          let (eneg, r) :=
            match r with
            | String "-" r' => (true, r')
            | String "+" r' => (false, r')
            | _ => (false, r)
            end in
          let '(e, ne, r) := readDigits r 0 0 in
          if (ne =? 0)%Z then None
          else
            match r with
            | EmptyString => Some (neg, m, ((if eneg then - e else e) - nf)%Z)
            | _ => None
            end
        else None
    end.

Local Open Scope Z_scope.

(** The float64 nearest to [m * 10^e], ties to the even mantissa; beyond
    the largest float64 it is an infinity. *)
Definition nearest (neg : bool) (m e : Z) : Float :=
  if m =? 0 then Finite neg 0 0
  else if 310 <? e then Inf neg
  else if Z.log2 m / 3 + 1 + e <? -330 then Finite neg 0 0
  else
    let n := if 0 <=? e then m * 10 ^ e else m in
    let d := if 0 <=? e then 1 else 10 ^ (- e) in
    let at_ (x : Z) := if 0 <=? x then n / (d * 2 ^ x) else (n * 2 ^ (- x)) / d in
    let x0 := Z.log2 n - Z.log2 d - 52 in
    let x1 := if at_ x0 <? 2 ^ 52 then x0 - 1 else x0 in
    let x := Z.max x1 (-1074) in
    let num := if 0 <=? x then n else n * 2 ^ (- x) in
    let den := if 0 <=? x then d * 2 ^ x else d in
    let q := num / den in
    let r := num mod den in
    let q := if (den <? 2 * r) || ((den =? 2 * r) && Z.odd q) then q + 1 else q in
    let (q, x) := if q =? 2 ^ 53 then (2 ^ 52, x + 1) else (q, x) in
    if 971 <? x then Inf neg else Finite neg q x.

(** [strconv.ParseFloat(s, 64)] on a decimal literal, its error dropped:
    0 for a text that is no such literal. *)
Definition ParseFloat (s : string) : Float :=
  match readFloat s with
  | Some (neg, m, e) => nearest neg m e
  | None => Finite false 0 0
  end.

(** The decimal digits of [z > 0], the last first. *)
Fixpoint digitsRev (fuel : nat) (z : Z) : list Z :=
  match fuel with
  | O => []
  | S fuel' => if z <=? 0 then [] else (z mod 10) :: digitsRev fuel' (z / 10)
  end.

Definition digits (z : Z) : list Z :=
  rev (digitsRev (S (Z.to_nat (Z.log2 z))) z).

Fixpoint dropZeros (l : list Z) : list Z :=
  match l with
  | 0 :: rest => dropZeros rest
  | _ => l
  end.

(** The shortest decimal that reads back as [mant * 2^exp], [mant > 0]:
    its digits and the place of the point ([0.d1d2... * 10^dp]). Of the
    decimals with [n] digits only the two around the value can do; of two
    that do, the nearer one is taken, the even one in a tie. *)
Section Shortest.
Variables mant exp : Z.

Let scale2 := Z.max 0 (2 - exp).
Let v := 4 * mant * 2 ^ (exp - 2 + scale2).
Let upper := (4 * mant + 2) * 2 ^ (exp - 2 + scale2).
Let lower :=
  (if (2 ^ 52 <? mant) || (exp =? -1074) then 4 * mant - 2 else 4 * mant - 1)
  * 2 ^ (exp - 2 + scale2).
Let den := 2 ^ scale2.
Let inclusive := Z.even mant.

(** [10^(dexp-1) <= value < 10^dexp] *)
Definition dexp : Z :=
  let est := (Z.log2 v - Z.log2 den) * 30103 / 100000 in
  let ge (k : Z) := (* 10^k <= value *)
    if 0 <=? k then den * 10 ^ k <=? v else den <=? v * 10 ^ (- k) in
  if ge (est + 2) then est + 3
  else if ge (est + 1) then est + 2
  else if ge est then est + 1
  else if ge (est - 1) then est
  else est - 1.

Definition candidate (n : Z) : option (Z * Z) :=
  let k := dexp - n in
  let p := 10 ^ (Z.max 0 (- k)) in
  let unit := den * 10 ^ (Z.max 0 k) in
  let v' := v * p in
  let q := v' / unit in
  let lo := q * unit in
  let hi := lo + unit in
  let okdown := (lower * p <? lo) || (inclusive && (lower * p =? lo)) in
  let okup := (hi <? upper * p) || (inclusive && (hi =? upper * p)) in
  let up := (unit <? 2 * (v' - lo)) || ((unit =? 2 * (v' - lo)) && Z.odd q) in
  match okdown, okup with
  | true, true => Some (if up then q + 1 else q, k)
  | true, false => Some (q, k)
  | false, true => Some (q + 1, k)
  | false, false => None
  end.

Fixpoint search (fuel : nat) (n : Z) : Z * Z :=
  match candidate n, fuel with
  | Some r, _ => r
  | None, S fuel' => search fuel' (n + 1)
  | None, O => (v / den, 0)
  end.

Definition shortest : list Z * Z :=
  let (d, k) := search 20 1 in
  let ds := digits d in
  (rev (dropZeros (rev ds)), Z.of_nat (length ds) + k).

End Shortest.

Local Close Scope Z_scope.

Fixpoint text (ds : list Z) : string :=
  match ds with
  | [] => ""
  | d :: rest => String (digitChar d) (text rest)
  end.

Fixpoint zeros (n : nat) : string :=
  match n with
  | O => ""
  | S n' => String "0" (zeros n')
  end.

Definition sign (neg : bool) (s : string) : string :=
  if neg then String "-" s else s.

(** The format [%f] with the fewest digits. *)
Definition fixed (ds : list Z) (dp : Z) : string :=
  match ds with
  | [] => "0"
  | d :: rest =>
      let nd := Z.of_nat (length ds) in
      if (dp <=? 0)%Z then String "0" ("." ++ zeros (Z.to_nat (- dp)) ++ text ds)
      else if (nd <=? dp)%Z
      then String (digitChar d) (text rest ++ zeros (Z.to_nat (dp - nd)))
      else String (digitChar d)
             (text (firstn (Z.to_nat dp - 1) rest) ++ "."
                ++ text (skipn (Z.to_nat dp - 1) rest))
  end.

(** The format [%e] with the fewest digits: at least two digits of
    exponent. *)
Definition scientific (ds : list Z) (dp : Z) : string :=
  let x := (dp - 1)%Z in
  let xs := text (digits (Z.abs x)) in
  let xs := match xs with
            | "" => "00"
            | String c "" => String "0" (String c "")
            | _ => xs
            end in
  match ds with
  | [] => "0e+00"
  | d :: rest =>
      String (digitChar d) (match rest with [] => "" | _ => "." ++ text rest end
                              ++ "e" ++ (if (x <? 0)%Z then "-" else "+") ++ xs)
  end.

(** [strconv.FormatFloat(f, 'f', -1, 64)] *)
Definition FormatFloat_f (f : Float) : string :=
  match f with
  | Inf neg => if neg then "-Inf" else "+Inf"
  | Finite neg m e =>
      sign neg (if (m =? 0)%Z then "0" else let (ds, dp) := shortest m e in fixed ds dp)
  end.

(** [strconv.FormatFloat(f, 'e', -1, 64)] *)
Definition FormatFloat_e (f : Float) : string :=
  match f with
  | Inf neg => if neg then "-Inf" else "+Inf"
  | Finite neg m e =>
      sign neg (if (m =? 0)%Z then "0e+00"
                else let (ds, dp) := shortest m e in scientific ds dp)
  end.

(** [|f| < |g|] *)
Definition ltAbs (f g : Float) : bool :=
  match f, g with
  | Finite _ m e, Finite _ m' e' =>
      (m * 2 ^ (e - Z.min e e') <? m' * 2 ^ (e' - Z.min e e'))%Z
  | Finite _ _ _, Inf _ => true
  | Inf _, _ => false
  end.

End strconv.

(* ------------------------------------------------------------------ *)
(** ** JSON documents ([encoding/json], [github.com/tidwall/gjson])

    Documents are kept as trees; a number keeps its source text, a string
    is the string it stands for. *)

#[local] Set Warnings "-register-all".

Inductive Json : Type :=
| JNull
| JBool (b : bool)
| JNumber (raw : string)
| JString (s : string)
| JArray (items : list Json)
| JObject (members : list (string * Json)).

Fixpoint joinWith (sep : string) (l : list string) : string :=
  match l with
  | [] => ""
  | [x] => x
  | x :: rest => x ++ sep ++ joinWith sep rest
  end.

Definition dquote : ascii := ascii_of_nat 34.
Definition backslash : ascii := ascii_of_nat 92.

Fixpoint assoc {A : Type} (k : string) (l : list (string * A)) : option A :=
  match l with
  | [] => None
  | (k', v) :: rest => if String.eqb k' k then Some v else assoc k rest
  end.

Module json.

Definition hex (n : N) : ascii :=
  match String.get (N.to_nat n) "0123456789abcdef" with
  | Some c => c
  | None => "0"%char
  end.

(** One byte below 0x80 as the string writer puts it, with [escapeHTML]
    set. *)
Definition escapeByte (c : ascii) : string :=
  let n := N_of_ascii c in
  if Ascii.eqb c dquote || Ascii.eqb c backslash then String backslash (String c "")
  else if (n =? 8)%N then String backslash "b"
  else if (n =? 12)%N then String backslash "f"
  else if (n =? 10)%N then String backslash "n"
  else if (n =? 13)%N then String backslash "r"
  else if (n =? 9)%N then String backslash "t"
  else if (n <? 32)%N || Ascii.eqb c "<" || Ascii.eqb c ">" || Ascii.eqb c "&"
  then String backslash ("u00" ++ String (hex (n / 16)) (String (hex (n mod 16)) ""))
  else String c "".

(** U+2028 and U+2029 are E2 80 A8 and E2 80 A9. *)
Definition separator (c0 c1 c2 : ascii) : bool :=
  (N_of_ascii c0 =? 226)%N && (N_of_ascii c1 =? 128)%N
  && ((N_of_ascii c2 =? 168)%N || (N_of_ascii c2 =? 169)%N).

(** The body of a string as the encoder writes it: quote, backslash,
    control characters and [<], [>], [&] escaped, U+2028 and U+2029
    escaped, every byte that is no UTF-8 written as the escape of U+FFFD. *)
Fixpoint escape (s : string) : string :=
  match s with
  | EmptyString => EmptyString
  | String c0 s1 =>
      match utf8.runeLen s, s1 with
      | 1, _ => escapeByte c0 ++ escape s1
      | 2, String c1 s2 => String c0 (String c1 (escape s2))
      | 3, String c1 (String c2 s3) =>
          (if separator c0 c1 c2
           then String backslash ("u202" ++ String (hex (N_of_ascii c2 mod 16)) "")
           else String c0 (String c1 (String c2 "")))
            ++ escape s3
      | 4, String c1 (String c2 (String c3 s4)) =>
          String c0 (String c1 (String c2 (String c3 (escape s4))))
      | _, _ => String backslash "ufffd" ++ escape s1
      end
  end.

(** [floatEncoder]: as ES6 writes a number. The exponent form is used
    below 1e-6 and from 1e21 on, and its exponent loses a leading zero. *)
Definition cleanExponent (s : string) : string :=
  match rev (list_ascii_of_string s) with
  | d :: z :: sgn :: e :: more =>
      if Ascii.eqb e "e" && (Ascii.eqb sgn "-" || Ascii.eqb sgn "+") && Ascii.eqb z "0"
      then string_of_list_ascii (rev (d :: sgn :: e :: more))
      else s
  | _ => s
  end.

Definition encodeFloat (f : strconv.Float) : string :=
  match f with
  | strconv.Finite _ 0%Z _ => strconv.FormatFloat_f f
  | _ =>
      if strconv.ltAbs f (strconv.ParseFloat "1e-6")
         || negb (strconv.ltAbs f (strconv.ParseFloat "1e21"))
      then cleanExponent (strconv.FormatFloat_e f)
      else strconv.FormatFloat_f f
  end.

(** A map has one value for a key: of the members of one name the last
    was kept by the decoder; the encoder writes the keys in order. *)
Fixpoint lastWins {A : Type} (l : list (string * A)) : list (string * A) :=
  match l with
  | [] => []
  | (k, v) :: rest =>
      match assoc k rest with
      | Some _ => lastWins rest
      | None => (k, v) :: lastWins rest
      end
  end.

Fixpoint insertKey {A : Type} (kv : string * A) (l : list (string * A))
  : list (string * A) :=
  match l with
  | [] => [kv]
  | kv' :: rest =>
      if String.leb (fst kv) (fst kv') then kv :: kv' :: rest
      else kv' :: insertKey kv rest
  end.

Definition sortKeys {A : Type} (l : list (string * A)) : list (string * A) :=
  fold_right insertKey [] l.

(** [json.NewEncoder(&b).Encode(i)] for a value [i] that the API client
    decoded into an [interface{}], as the tree of what is written: a
    number is a float64 (one beyond its range does not come out of the
    decoder), an object is a map, with one value for a key and the keys in
    order. The strings are those of the value; [escape] is how they are
    written. *)
Fixpoint Encode (j : Json) : Json :=
  match j with
  | JNull => JNull
  | JBool b => JBool b
  | JNumber raw => JNumber (encodeFloat (strconv.ParseFloat raw))
  | JString s => JString s
  | JArray items => JArray (map Encode items)
  | JObject members =>
      JObject (sortKeys (lastWins (map (fun kv => (fst kv, Encode (snd kv))) members)))
  end.

End json.

Definition quote (s : string) : string :=
  String dquote (json.escape s ++ String dquote EmptyString).

(** The text of a value in compact form, strings as the encoder writes
    them: what [gjson.Result.Raw] holds for an array or an object of the
    encoder's. *)
Fixpoint Json_raw (j : Json) : string :=
  match j with
  | JNull => "null"
  | JBool true => "true"
  | JBool false => "false"
  | JNumber raw => raw
  | JString s => quote s
  | JArray items => "[" ++ joinWith "," (map Json_raw items) ++ "]"
  | JObject members =>
      "{" ++ joinWith ","
               (map (fun kv => quote (fst kv) ++ ":" ++ Json_raw (snd kv)) members)
          ++ "}"
  end.

Module gjson.

(** [gjson.Get] along a dotted path of plain object keys. An object is
    gone through member by member, and the first member of the name that
    leads to a result gives it; an array has no member of such a name.
    [None] is the result that does not exist. *)
Fixpoint Get (j : Json) (path : list string) {struct path} : option Json :=
  match path with
  | [] => Some j
  | k :: rest =>
      match j with
      | JObject members =>
          (fix scan (ms : list (string * Json)) : option Json :=
             match ms with
             | [] => None
             | (k', v) :: ms' =>
                 if String.eqb k' k
                 then match Get v rest with
                      | Some r => Some r
                      | None => scan ms'
                      end
                 else scan ms'
             end) members
      | _ => None
      end
  end.

(** A string read back from the text the encoder wrote for it: the escape
    of U+FFFD reads as U+FFFD, every other escape as the character it
    stands for, so what comes back is the string coerced to valid UTF-8. *)
Definition readBack (j : Json) : Json :=
  match j with
  | JString s => JString (utf8.ToValid s)
  | _ => j
  end.

(** [gjson.GetBytes] on the text the encoder wrote for the value [j]. The
    search is that of [Get]; a key is read back before it is compared with
    the part of the path, and so is a string that is the result. Of an
    array or an object the result keeps the text. *)
Fixpoint GetBytes (j : Json) (path : list string) {struct path} : option Json :=
  match path with
  | [] => Some (readBack j)
  | k :: rest =>
      match j with
      | JObject members =>
          (fix scan (ms : list (string * Json)) : option Json :=
             match ms with
             | [] => None
             | (k', v) :: ms' =>
                 if String.eqb (utf8.ToValid k') k
                 then match GetBytes v rest with
                      | Some r => Some r
                      | None => scan ms'
                      end
                 else scan ms'
             end) members
      | _ => None
      end
  end.

(** A number written with digits only, after a sign or not. *)
Definition plainInteger (raw : string) : bool :=
  forallb strconv.isDigit
    (list_ascii_of_string match raw with String "-" r => r | _ => raw end).

(** [Result.String]: a number that is no plain integer is written anew
    from its float64. *)
Definition String_ (r : option Json) : string :=
  match r with
  | None => ""
  | Some JNull => ""
  | Some (JBool true) => "true"
  | Some (JBool false) => "false"
  | Some (JNumber raw) =>
      if plainInteger raw then raw
      else strconv.FormatFloat_f (strconv.ParseFloat raw)
  | Some (JString s) => s
  | Some j => Json_raw j
  end.

End gjson.

(* ------------------------------------------------------------------ *)
(** ** The data model *)

Record AuthIdentity : Type := mkAuthIdentity {
  ID : uuid.UUID;
  Email : string }.

Record AuthContext : Type := mkAuthContext {
  Version : string;
  SessionToken : string;
  SelectedProject : uuid.UUID;
  IdentityTraits : AuthIdentity }.

Record AuthProject : Type := mkAuthProject {
  project_ID : uuid.UUID;
  Slug : string }.

(** [new(AuthContext)]: the zero value. *)
Definition zeroAuthIdentity : AuthIdentity := mkAuthIdentity uuid.Nil "".
Definition zeroAuthContext : AuthContext :=
  mkAuthContext "" "" uuid.Nil zeroAuthIdentity.

Definition setVersion (v : string) (c : AuthContext) : AuthContext :=
  mkAuthContext v (SessionToken c) (SelectedProject c) (IdentityTraits c).
Definition setSessionToken (v : string) (c : AuthContext) : AuthContext :=
  mkAuthContext (Version c) v (SelectedProject c) (IdentityTraits c).
Definition setSelectedProject (v : uuid.UUID) (c : AuthContext) : AuthContext :=
  mkAuthContext (Version c) (SessionToken c) v (IdentityTraits c).
Definition setIdentityTraits (v : AuthIdentity) (c : AuthContext) : AuthContext :=
  mkAuthContext (Version c) (SessionToken c) (SelectedProject c) v.
Definition setID (v : uuid.UUID) (i : AuthIdentity) : AuthIdentity :=
  mkAuthIdentity v (Email i).
Definition setEmail (v : string) (i : AuthIdentity) : AuthIdentity :=
  mkAuthIdentity (ID i) v.

(* ------------------------------------------------------------------ *)
(** ** Errors *)

Inductive Errno : Type := ENOENT | EACCES | EISDIR | ENOSPC.

(** A flow of the identity API: its identifier and the nodes of its UI
    description. One record serves registration and login flows, which have
    the same shape; the two Go types are told apart where it matters, in
    [Model]. *)
Record UiNode : Type := mkUiNode {
  Group : string;
  NodeName : string }.

Record UiContainer : Type := mkUiContainer {
  Nodes : list UiNode }.

Record Flow : Type := mkFlow {
  Id : string;
  Ui : UiContainer }.

(** What [GenericOpenAPIError.Model] may hold. *)

Inductive Model : Type :=
| ModelNil
| ModelLoginFlowPtr (m : Flow)          (* *kratos.SelfServiceLoginFlow *)
| ModelLoginFlow (m : Flow)             (* kratos.SelfServiceLoginFlow *)
| ModelRegistrationFlowPtr (m : Flow)   (* *kratos.SelfServiceRegistrationFlow *)
| ModelRegistrationFlow (m : Flow)      (* kratos.SelfServiceRegistrationFlow *)
| ModelJsonError (j : Json).            (* kratos.JsonError and the like *)

Record GenericOpenAPIError : Type := mkGenericOpenAPIError {
  Body : Json;
  model : Model }.

Inductive error : Type :=
| ErrNoConfig                               (* the package's sentinel *)
| New (msg : string)                        (* errors.New *)
| Wrapf (cause : error) (msg : string)      (* errors.Wrapf *)
| WithStack (cause : error)                 (* errors.WithStack *)
| PathError (op : string) (path : string) (e : Errno)   (* *fs.PathError *)
| SyntaxError                               (* json: malformed or empty input *)
| UnmarshalTypeError (field : string)       (* json: value of the wrong kind *)
| UUIDError (text : string)                 (* uuid: incorrect UUID format *)
| OpenAPIError (e : GenericOpenAPIError)    (* *kratos.GenericOpenAPIError *)
| TransportError (msg : string).            (* any other error of the client *)

(** [errors.Is(err, ErrNoConfig)]: identity along the chain of causes. *)
Fixpoint Is_ErrNoConfig (err : error) : bool :=
  match err with
  | ErrNoConfig => true
  | Wrapf cause _ => Is_ErrNoConfig cause
  | WithStack cause => Is_ErrNoConfig cause
  | _ => false
  end.

(** [errors.Is(err, fs.ErrNotExist)] *)
Fixpoint Is_ErrNotExist (err : error) : bool :=
  match err with
  | PathError _ _ ENOENT => true
  | Wrapf cause _ => Is_ErrNotExist cause
  | WithStack cause => Is_ErrNotExist cause
  | _ => false
  end.

(* ------------------------------------------------------------------ *)
(** ** The config document: [AuthContext] to JSON and back *)

Definition encodeAuthIdentity (i : AuthIdentity) : Json :=
  JObject [ ("ID", JString (uuid.String_ (ID i)));
            ("email", JString (utf8.ToValid (Email i))) ].

(** [json.Encoder.Encode(c)]: the struct tags give the keys; the untagged
    field [ID] goes under its own name. *)
Definition encodeAuthContext (c : AuthContext) : Json :=
  JObject [ ("version", JString (utf8.ToValid (Version c)));
            ("session_token", JString (utf8.ToValid (SessionToken c)));
            ("selected_project", JString (uuid.String_ (SelectedProject c)));
            ("session_identity_traits", encodeAuthIdentity (IdentityTraits c)) ].

Inductive IdentityField : Type := F_ID | F_Email.
Inductive ContextField : Type :=
  F_Version | F_SessionToken | F_SelectedProject | F_IdentityTraits.

Definition identityFields : list (string * IdentityField) :=
  [ ("ID", F_ID); ("email", F_Email) ].
Definition contextFields : list (string * ContextField) :=
  [ ("version", F_Version); ("session_token", F_SessionToken);
    ("selected_project", F_SelectedProject);
    ("session_identity_traits", F_IdentityTraits) ].

Definition lower (c : ascii) : ascii :=
  if utf8.between 65 90 c then ascii_of_N (N_of_ascii c + 32) else c.

(** [bytes.EqualFold(name, key)] for a field name of ASCII characters:
    rune by rune under Unicode's simple case folding. A letter is met by
    its two cases, and [k] also by the Kelvin sign U+212A (E2 84 AA), [s]
    also by the long s U+017F (C5 BF). *)
Fixpoint equalFold (name key : string) : bool :=
  match name, key with
  | EmptyString, EmptyString => true
  | String c name', String k key' =>
      if Ascii.eqb (lower k) (lower c) && utf8.between 0 127 k
      then equalFold name' key'
      else
        match key' with
        | String k1 key'' =>
            if Ascii.eqb (lower c) "s"
               && (N_of_ascii k =? 197)%N && (N_of_ascii k1 =? 191)%N
            then equalFold name' key''
            else
              match key'' with
              | String k2 key''' =>
                  if Ascii.eqb (lower c) "k"
                     && (N_of_ascii k =? 226)%N && (N_of_ascii k1 =? 132)%N
                     && (N_of_ascii k2 =? 170)%N
                  then equalFold name' key'''
                  else false
              | EmptyString => false
              end
        | EmptyString => false
        end
  | _, _ => false
  end.

(** The field a key of the document goes to: the one of that name, else the
    one equal to it under case folding, else none (the member is
    skipped). *)
Definition findField {F : Type} (fields : list (string * F)) (key : string)
  : option F :=
  match assoc key fields with
  | Some f => Some f
  | None =>
      match find (fun kf => equalFold (fst kf) key) fields with
      | Some kf => Some (snd kf)
      | None => None
      end
  end.

(** The decoder keeps the first [UnmarshalTypeError] and goes on; any other
    error stops it. *)
Definition saveError (saved : option error) (e : error) : option error :=
  match saved with
  | Some _ => saved
  | None => Some e
  end.

Definition decodeString (field : string) (v : Json) (old : string)
    (saved : option error) : string * option error :=
  match v with
  | JString s => (s, saved)
  | JNull => (old, saved)
  | _ => (old, saveError saved (UnmarshalTypeError field))
  end.

Definition decodeUUID (field : string) (v : Json) (old : uuid.UUID)
    (saved : option error) : error + (uuid.UUID * option error) :=
  match v with
  | JString s =>
      match uuid.FromString s with
      | Some u => inr (u, saved)
      | None => inl (UUIDError s)
      end
  | JNull => inr (old, saved)
  | _ => inr (old, saveError saved (UnmarshalTypeError field))
  end.

Section DecodeStruct.
Context {T : Type}.
Variable step : string -> Json -> T -> option error -> error + (T * option error).

Fixpoint decodeMembers (ms : list (string * Json)) (t : T) (saved : option error)
  : error + (T * option error) :=
  match ms with
  | [] => inr (t, saved)
  | (k, v) :: rest =>
      match step k v t saved with
      | inl e => inl e
      | inr (t', saved') => decodeMembers rest t' saved'
      end
  end.

Definition decodeStruct (field : string) (v : Json) (t : T) (saved : option error)
  : error + (T * option error) :=
  match v with
  | JObject ms => decodeMembers ms t saved
  | JNull => inr (t, saved)
  | _ => inr (t, saveError saved (UnmarshalTypeError field))
  end.
End DecodeStruct.

Definition decodeIdentityMember (k : string) (v : Json) (i : AuthIdentity)
    (saved : option error) : error + (AuthIdentity * option error) :=
  match findField identityFields k with
  | Some F_ID =>
      match decodeUUID "ID" v (ID i) saved with
      | inl e => inl e
      | inr (u, saved') => inr (setID u i, saved')
      end
  | Some F_Email =>
      let (s, saved') := decodeString "email" v (Email i) saved in
      inr (setEmail s i, saved')
  | None => inr (i, saved)
  end.

Definition decodeContextMember (k : string) (v : Json) (c : AuthContext)
    (saved : option error) : error + (AuthContext * option error) :=
  match findField contextFields k with
  | Some F_Version =>
      let (s, saved') := decodeString "version" v (Version c) saved in
      inr (setVersion s c, saved')
  | Some F_SessionToken =>
      let (s, saved') := decodeString "session_token" v (SessionToken c) saved in
      inr (setSessionToken s c, saved')
  | Some F_SelectedProject =>
      match decodeUUID "selected_project" v (SelectedProject c) saved with
      | inl e => inl e
      | inr (u, saved') => inr (setSelectedProject u c, saved')
      end
  | Some F_IdentityTraits =>
      match decodeStruct decodeIdentityMember "session_identity_traits" v
              (IdentityTraits c) saved with
      | inl e => inl e
      | inr (i, saved') => inr (setIdentityTraits i c, saved')
      end
  | None => inr (c, saved)
  end.

(** What sits in a file: nothing, bytes that are no JSON value, or a
    document. *)
Inductive FileData : Type := Blank | Malformed | Document (j : Json).

(** [json.NewDecoder(file).Decode(&c)] on a zero [c]. *)
Definition decodeAuthContext (d : FileData) : error + AuthContext :=
  match d with
  | Blank => inl (New "EOF")
  | Malformed => inl SyntaxError
  | Document j =>
      match decodeStruct decodeContextMember "AuthContext" j zeroAuthContext None with
      | inl e => inl e
      | inr (_, Some e) => inl e
      | inr (c, None) => inr c
      end
  end.

(* ------------------------------------------------------------------ *)
(** ** The identity API's values ([kratos-client-go]) *)

Record Identity : Type := mkIdentity {
  identity_Id : string;
  Traits : Json }.

Record Session : Type := mkSession {
  session_Identity : Identity }.

(** The answer to a submission; [SessionToken] is a [*string]. *)
Record Successful : Type := mkSuccessful {
  successful_SessionToken : option string }.

(** The fields of a method body, by their JSON names. *)
Definition Values : Type := list (string * string).

(** What the [interface{}] handed to [renderForm] may point to. *)
Inductive Form : Type :=
| RegistrationPasswordBody (v : Values)
    (* *SubmitSelfServiceRegistrationFlowWithPasswordMethodBody *)
| LoginPasswordBody (v : Values)
    (* *SubmitSelfServiceLoginFlowWithPasswordMethodBody *)
| LoginTotpBody (v : Values)
    (* *SubmitSelfServiceLoginFlowWithTotpMethodBody *)
| LoginLookupSecretBody (v : Values)
    (* *SubmitSelfServiceLoginFlowWithLookupSecretMethodBody *)
| OtherValue (typ : string).

(** [kratos.SubmitSelfServiceLoginFlowBody]: one pointer per method. *)
Record LoginFlowBody : Type := mkLoginFlowBody {
  WithPasswordMethodBody : option Values;
  WithTotpMethodBody : option Values }.

Record RegistrationFlowBody : Type := mkRegistrationFlowBody {
  registration_WithPasswordMethodBody : option Values }.

Record APIClient : Type := mkAPIClient { clientName : string }.

(* ------------------------------------------------------------------ *)
(** ** The world outside the process *)

Inductive Node : Type :=
| Absent                 (* no such file *)
| Denied                 (* a file that may not be opened *)
| Directory
| File (d : FileData).

Inductive Event : Type :=
| EvOpen (path : string)
| EvOpenFile (path : string)
| EvEncode (path : string) (doc : Json)
| EvPrint (text : string)
| EvAsk (question : string)
| EvNewClient (name : string)
| EvRender (ui : UiContainer) (method : string) (form : Form)
| EvInitRegistration
| EvSubmitRegistration (flow : string) (body : RegistrationFlowBody)
| EvInitLogin (token : string) (aal : string)
| EvSubmitLogin (token : string) (flow : string) (body : LoginFlowBody)
| EvToSession (token : string).

(** The calls that go to the identity API. *)
Definition isNetwork (e : Event) : bool :=
  match e with
  | EvInitRegistration | EvSubmitRegistration _ _
  | EvInitLogin _ _ | EvSubmitLogin _ _ _ | EvToSession _ => true
  | _ => false
  end.

(** The file system, the scripted behaviour of the user and of the identity
    API (each list holds the answers to the successive calls of one kind),
    and the calls made so far. *)
Record World : Type := mkWorld {
  files : string -> Node;
  diskFull : bool;                         (* writes fail with ENOSPC *)
  clientError : option error;              (* what newConsoleClient answers *)
  answers : list bool;                     (* to AskForConfirmation *)
  forms : list (error + Values);           (* to renderForm *)
  registrationFlows : list (error + Flow);
  loginFlows : list (error + Flow);
  registrations : list (error + Successful);
  logins : list (error + Successful);
  sessions : list (error + Session);
  trace : list Event }.

Definition withFiles (f : string -> Node) (w : World) : World :=
  mkWorld f (diskFull w) (clientError w) (answers w) (forms w)
    (registrationFlows w) (loginFlows w) (registrations w) (logins w)
    (sessions w) (trace w).
Definition withAnswers (l : list bool) (w : World) : World :=
  mkWorld (files w) (diskFull w) (clientError w) l (forms w)
    (registrationFlows w) (loginFlows w) (registrations w) (logins w)
    (sessions w) (trace w).
Definition withForms (l : list (error + Values)) (w : World) : World :=
  mkWorld (files w) (diskFull w) (clientError w) (answers w) l
    (registrationFlows w) (loginFlows w) (registrations w) (logins w)
    (sessions w) (trace w).
Definition withRegistrationFlows (l : list (error + Flow)) (w : World) : World :=
  mkWorld (files w) (diskFull w) (clientError w) (answers w) (forms w)
    l (loginFlows w) (registrations w) (logins w) (sessions w) (trace w).
Definition withLoginFlows (l : list (error + Flow)) (w : World) : World :=
  mkWorld (files w) (diskFull w) (clientError w) (answers w) (forms w)
    (registrationFlows w) l (registrations w) (logins w) (sessions w) (trace w).
Definition withRegistrations (l : list (error + Successful)) (w : World) : World :=
  mkWorld (files w) (diskFull w) (clientError w) (answers w) (forms w)
    (registrationFlows w) (loginFlows w) l (logins w) (sessions w) (trace w).
Definition withLogins (l : list (error + Successful)) (w : World) : World :=
  mkWorld (files w) (diskFull w) (clientError w) (answers w) (forms w)
    (registrationFlows w) (loginFlows w) (registrations w) l (sessions w) (trace w).
Definition withSessions (l : list (error + Session)) (w : World) : World :=
  mkWorld (files w) (diskFull w) (clientError w) (answers w) (forms w)
    (registrationFlows w) (loginFlows w) (registrations w) (logins w) l (trace w).
Definition withTrace (t : list Event) (w : World) : World :=
  mkWorld (files w) (diskFull w) (clientError w) (answers w) (forms w)
    (registrationFlows w) (loginFlows w) (registrations w) (logins w)
    (sessions w) t.

Definition writeNode (path : string) (n : Node) (f : string -> Node)
  : string -> Node :=
  fun q => if String.eqb q path then n else f q.

(* ------------------------------------------------------------------ *)
(** ** Computations: state over the world, and the ways a run stops *)

Inductive Abort : Type :=
| Panicked (msg : string)
| Exited (code : nat)
| OutOfFuel.

Inductive Res (A : Type) : Type :=
| Ret (a : A)
| Stop (why : Abort).
Arguments Ret {A} a.
Arguments Stop {A} why.

Definition M (A : Type) : Type := World -> Res A * World.

Definition ret {A : Type} (a : A) : M A := fun w => (Ret a, w).
Definition stop {A : Type} (why : Abort) : M A := fun w => (Stop why, w).
Definition bind {A B : Type} (m : M A) (k : A -> M B) : M B :=
  fun w =>
    match m w with
    | (Ret a, w') => k a w'
    | (Stop why, w') => (Stop why, w')
    end.

Declare Scope go_scope.
Delimit Scope go_scope with go.
Notation "x <- m ;; k" := (bind m (fun x => k))
  (at level 61, m at next level, right associativity) : go_scope.
Notation "m ;; k" := (bind m (fun _ => k))
  (at level 61, right associativity) : go_scope.
Open Scope go_scope.

Definition log (e : Event) : M unit :=
  fun w => (Ret tt, withTrace (trace w ++ [e]) w).

Definition nilDereference : Abort :=
  Panicked "runtime error: invalid memory address or nil pointer dereference".

(** A Go result pair. *)
Definition Result : Type := (option AuthContext * option error)%type.

(* ------------------------------------------------------------------ *)
(** ** Collaborators: [os], [fmt], [cmdx], the API client *)

Inductive Handle : Type := HDirectory | HFile (d : FileData).

(** [os.Open] *)
Definition os_Open (path : string) : M (error + Handle) :=
  log (EvOpen path) ;;
  fun w =>
    match files w path with
    | Absent => (Ret (inl (PathError "open" path ENOENT)), w)
    | Denied => (Ret (inl (PathError "open" path EACCES)), w)
    | Directory => (Ret (inr HDirectory), w)
    | File d => (Ret (inr (HFile d)), w)
    end.

(** [os.OpenFile(path, O_RDWR|O_CREATE|O_TRUNC, 0755)]: the file is created
    or emptied. *)
Definition os_OpenFile (path : string) : M (option error) :=
  log (EvOpenFile path) ;;
  fun w =>
    match files w path with
    | Denied => (Ret (Some (PathError "open" path EACCES)), w)
    | Directory => (Ret (Some (PathError "open" path EISDIR)), w)
    | Absent | File _ =>
        (Ret None, withFiles (writeNode path (File Blank) (files w)) w)
    end.

(** [json.NewEncoder(file).Encode(c)] on the file just opened. *)
Definition json_Encode (path : string) (c : AuthContext) : M (option error) :=
  log (EvEncode path (encodeAuthContext c)) ;;
  fun w =>
    if diskFull w then (Ret (Some (PathError "write" path ENOSPC)), w)
    else (Ret None,
          withFiles (writeNode path (File (Document (encodeAuthContext c))) (files w)) w).

(** [json.NewDecoder(file).Decode(&c)] *)
Definition json_Decode (path : string) (file : Handle) : error + AuthContext :=
  match file with
  | HDirectory => inl (PathError "read" path EISDIR)
  | HFile d => decodeAuthContext d
  end.

(** [fmt.Fprintf(h.verboseWriter, ...)] *)
Definition Fprintf (text : string) : M unit := log (EvPrint text).

(** [cmdx.AskForConfirmation]: the next answer of the user; the process
    exits when the terminal has no more input. *)
Definition AskForConfirmation (question : string) : M bool :=
  log (EvAsk question) ;;
  fun w =>
    match answers w with
    | a :: rest => (Ret a, withAnswers rest w)
    | [] => (Stop (Exited 1), w)
    end.

Definition unreachable : error := TransportError "connection refused".

Definition InitializeSelfServiceRegistrationFlowWithoutBrowser : M (error + Flow) :=
  log EvInitRegistration ;;
  fun w =>
    match registrationFlows w with
    | r :: rest => (Ret r, withRegistrationFlows rest w)
    | [] => (Ret (inl unreachable), w)
    end.

Definition InitializeSelfServiceLoginFlowWithoutBrowser (token aal : string)
  : M (error + Flow) :=
  log (EvInitLogin token aal) ;;
  fun w =>
    match loginFlows w with
    | r :: rest => (Ret r, withLoginFlows rest w)
    | [] => (Ret (inl unreachable), w)
    end.

Definition SubmitSelfServiceRegistrationFlow (flow : string)
    (body : RegistrationFlowBody) : M (error + Successful) :=
  log (EvSubmitRegistration flow body) ;;
  fun w =>
    match registrations w with
    | r :: rest => (Ret r, withRegistrations rest w)
    | [] => (Ret (inl unreachable), w)
    end.

Definition SubmitSelfServiceLoginFlow (token flow : string) (body : LoginFlowBody)
  : M (error + Successful) :=
  log (EvSubmitLogin token flow body) ;;
  fun w =>
    match logins w with
    | r :: rest => (Ret r, withLogins rest w)
    | [] => (Ret (inl unreachable), w)
    end.

Definition ToSession (token : string) : M (error + Session) :=
  log (EvToSession token) ;;
  fun w =>
    match sessions w with
    | r :: rest => (Ret r, withSessions rest w)
    | [] => (Ret (inl unreachable), w)
    end.

(** Modelled from the spec: [newConsoleClient], which builds the API client
    for the console and reports an endpoint it cannot use. *)
Definition newConsoleClient (name : string) : M (error + APIClient) :=
  log (EvNewClient name) ;;
  fun w =>
    match clientError w with
    | Some e => (Ret (inl e), w)
    | None => (Ret (inr (mkAPIClient name)), w)
    end.

(** The pointee of [form] with its fields set; the dynamic type stays. *)
Definition fill (form : Form) (v : Values) : Form :=
  match form with
  | RegistrationPasswordBody _ => RegistrationPasswordBody v
  | LoginPasswordBody _ => LoginPasswordBody v
  | LoginTotpBody _ => LoginTotpBody v
  | LoginLookupSecretBody _ => LoginLookupSecretBody v
  | OtherValue t => OtherValue t
  end.

Definition values (form : Form) : Values :=
  match form with
  | RegistrationPasswordBody v | LoginPasswordBody v
  | LoginTotpBody v | LoginLookupSecretBody v => v
  | OtherValue _ => []
  end.

(** Modelled from the spec: [renderForm], the FormRenderer. It walks the UI
    description, prompts for the inputs of the method's group and writes
    the values into the submission it was handed, or fails on the
    terminal. The caller's [form] keeps pointing to the same value. *)
Definition renderForm (ui : UiContainer) (method : string) (form : Form)
  : M (Form * option error) :=
  log (EvRender ui method form) ;;
  fun w =>
    match forms w with
    | inr v :: rest => (Ret (fill form v, None), withForms rest w)
    | inl e :: rest => (Ret (form, Some e), withForms rest w)
    | [] => (Ret (form, Some (New "EOF")), w)
    end.

(* ------------------------------------------------------------------ *)
(** ** The handler *)

(** [Auth]: the fields the flow depends on. [ctx] and [apiDomain] go with
    the API client; whatever [verboseWriter] receives is in the trace. *)
Record Auth : Type := mkAuth {
  configLocation : string;
  noConfirm : bool }.

(** [WriteConfig] sets the version in the caller's value before it opens
    the file; the value as it then stands is returned with the error. *)
Definition WriteConfig (h : Auth) (c : AuthContext) : M (AuthContext * option error) :=
  let c := setVersion version c in
  err <- os_OpenFile (configLocation h) ;;
  match err with
  | Some err =>
      ret (c, Some (Wrapf err
             "unable to open file for writing at location: %!s(*os.File=<nil>)"))
  | None =>
      err <- json_Encode (configLocation h) c ;;
      match err with
      | Some err =>
          ret (c, Some (Wrapf err
                 ("unable to write configuration to file: " ++ configLocation h)))
      | None => ret (c, None)
      end
  end.

Definition readConfig (h : Auth) : M Result :=
  file <- os_Open (configLocation h) ;;
  match file with
  | inl err =>
      if Is_ErrNotExist err then ret (Some zeroAuthContext, Some ErrNoConfig)
      else ret (None, Some (Wrapf err
                  ("unable to open ory config file location: " ++ configLocation h)))
  | inr file =>
      match json_Decode (configLocation h) file with
      | inl err =>
          ret (None, Some (Wrapf err
                 ("unable to JSON decode the ory config file: " ++ configLocation h)))
      | inr c => ret (Some c, None)
      end
  end.

Definition SignOut (h : Auth) : M (option error) :=
  r <- WriteConfig h zeroAuthContext ;;
  ret (snd r).

(** [getField]: the value is encoded and the path is looked up in the text
    the encoder wrote. What the API client decoded always encodes again,
    so the encoder's error does not arise. *)
Definition getField (i : Json) (path : list string) : error + option Json :=
  inr (gjson.GetBytes (json.Encode i) path).

Definition sessionToContext (session : Session) (token : string) : Result :=
  match getField (Traits (session_Identity session)) ["email"] with
  | inl err => (None, Some err)
  | inr email =>
      (Some {| Version := version;
               SessionToken := token;
               SelectedProject := uuid.Nil;
               IdentityTraits :=
                 {| Email := gjson.String_ email;
                    ID := uuid.FromStringOrNil
                            (identity_Id (session_Identity session)) |} |},
       None)
  end.

(** The replacement flow a failed registration carries, if any. *)
Definition registrationModel (err : error) : option Flow :=
  match err with
  | OpenAPIError e =>
      match model e with
      | ModelRegistrationFlowPtr m => Some m
      | ModelRegistrationFlow m => Some m
      | _ => None
      end
  | _ => None
  end.

(** From the label [retryRegistration] to the end of the submission: either
    [signup] returns with an error, or the submission succeeded. *)
Fixpoint retryRegistration (fuel : nat) (flow : Flow) (isRetry : bool)
  : M (error + Successful) :=
  match fuel with
  | 0 => stop OutOfFuel
  | S fuel' =>
      (if isRetry
       then Fprintf (String "010" "Your account creation attempt failed. Please try again!"
                       ++ String "010" (String "010" ""))
       else ret tt) ;;
      r <- renderForm (Ui flow) "password" (RegistrationPasswordBody []) ;;
      match r with
      | (_, Some err) => ret (inl err)
      | (form, None) =>
          signup <- SubmitSelfServiceRegistrationFlow (Id flow)
                      (mkRegistrationFlowBody (Some (values form))) ;;
          match signup with
          | inl err =>
              match registrationModel err with
              | Some m => retryRegistration fuel' m true
              | None => ret (inl (WithStack err))
              end
          | inr signup => ret (inr signup)
          end
      end
  end.

Definition signup (fuel : nat) (h : Auth) (c : APIClient) : M Result :=
  flow <- InitializeSelfServiceRegistrationFlowWithoutBrowser ;;
  match flow with
  | inl err => ret (None, Some err)
  | inr flow =>
      signup <- retryRegistration fuel flow false ;;
      match signup with
      | inl err => ret (None, Some err)
      | inr signup =>
          match successful_SessionToken signup with
          | None => stop nilDereference
          | Some sessionToken =>
              sess <- ToSession sessionToken ;;
              match sess with
              | inl err => ret (None, Some err)
              | inr sess => ret (sessionToContext sess sessionToken)
              end
          end
      end
  end.

(** The loop over [flow.Ui.Nodes]. *)
Definition scanNodes (nodes : list UiNode) : bool * bool :=
  fold_left
    (fun (found : bool * bool) (n : UiNode) =>
       let (foundTOTP, foundLookup) := found in
       if String.eqb (Group n) "totp" then (true, foundLookup)
       else if String.eqb (Group n) "lookup_secret" then (foundTOTP, true)
       else (foundTOTP, foundLookup))
    nodes (false, false).

Definition unsupportedSecondFactor : error :=
  New "only TOTP and lookup secrets are supported for two-step verification in the CLI".

(** The choice of [method] and [form] at the head of every attempt. *)
Definition negotiate (sessionToken : string) (flow : Flow) : error + (string * Form) :=
  let form := LoginPasswordBody [] in
  let method := "password" in
  if nonEmpty sessionToken then
    let (foundTOTP, foundLookup) := scanNodes (Nodes (Ui flow)) in
    if negb foundLookup && negb foundTOTP then inl unsupportedSecondFactor
    else
      let method := "lookup_secret" in
      if foundTOTP then inr ("totp", LoginTotpBody [])
      else inr (method, form)
  else inr (method, form).

(** The replacement flow a failed login carries, if any. *)
Definition loginModel (err : error) : option Flow :=
  match err with
  | OpenAPIError e =>
      match model e with
      | ModelLoginFlowPtr m => Some m
      | ModelLoginFlow m => Some m
      | _ => None
      end
  | _ => None
  end.

(** From the label [retryLogin] to the end of the submission. *)
Fixpoint retryLogin (fuel : nat) (flow : Flow) (isRetry : bool) (sessionToken : string)
  : M (error + Successful) :=
  match fuel with
  | 0 => stop OutOfFuel
  | S fuel' =>
      (if isRetry
       then Fprintf (String "010" "Your sign in attempt failed. Please try again!"
                       ++ String "010" (String "010" ""))
       else ret tt) ;;
      match negotiate sessionToken flow with
      | inl err => ret (inl err)
      | inr (method, form) =>
          r <- renderForm (Ui flow) method form ;;
          match r with
          | (_, Some err) => ret (inl err)
          | (form, None) =>
              body <- match form with
                      | LoginTotpBody e => ret (mkLoginFlowBody None (Some e))
                      | LoginPasswordBody e => ret (mkLoginFlowBody (Some e) None)
                      | _ => stop (Panicked "unexpected type")
                      end ;;
              login <- SubmitSelfServiceLoginFlow sessionToken (Id flow) body ;;
              match login with
              | inl err =>
                  match loginModel err with
                  | Some m => retryLogin fuel' m true sessionToken
                  | None => ret (inl (WithStack err))
                  end
              | inr login => ret (inr login)
              end
          end
      end
  end.

(** [gjson.GetBytes(e.Body(), "error.id").String()] for an error of the
    API's own type. *)
Definition errorId (err : error) : option string :=
  match err with
  | OpenAPIError e => Some (gjson.String_ (gjson.Get (Body e) ["error"; "id"]))
  | _ => None
  end.

Fixpoint signin (fuel : nat) (h : Auth) (c : APIClient) (sessionToken : string)
  : M Result :=
  match fuel with
  | 0 => stop OutOfFuel
  | S fuel' =>
      flow <- InitializeSelfServiceLoginFlowWithoutBrowser sessionToken
                (if nonEmpty sessionToken then "aal2" else "") ;;
      match flow with
      | inl err => ret (None, Some err)
      | inr flow =>
          login <- retryLogin fuel flow false sessionToken ;;
          match login with
          | inl err => ret (None, Some err)
          | inr login =>
              match successful_SessionToken login with
              | None => stop nilDereference
              | Some token =>
                  let sessionToken := Coalesce [token; sessionToken] in
                  sess <- ToSession sessionToken ;;
                  match sess with
                  | inr sess => ret (sessionToContext sess sessionToken)
                  | inl err =>
                      match errorId err with
                      | Some id =>
                          if String.eqb id "session_aal2_required"
                          then signin fuel' h c sessionToken
                          else ret (None, Some err)
                      | None => ret (None, Some err)
                      end
                  end
              end
          end
      end
  end.

Definition formatIdentity (i : AuthIdentity) : string :=
  "{" ++ uuid.String_ (ID i) ++ " " ++ Email i ++ "}".

Definition Authenticate (fuel : nat) (h : Auth) : M Result :=
  if noConfirm h
  then ret (None, Some (New "can not sign in or sign up when flag --yes is set."))
  else
    r <- readConfig h ;;
    match r with
    | (_, Some err) =>
        if Is_ErrNoConfig err then ret (None, None) else ret (None, Some err)
    | (None, None) => stop nilDereference
    | (Some ac, None) =>
        early <-
          (if nonEmpty (SessionToken ac) then
             keep <- AskForConfirmation
                       ("You are signed in as " ++ String dquote (Email (IdentityTraits ac))
                          ++ String dquote " already. Do you wish to authenticate with another account?") ;;
             if negb keep then ret (Some (Some ac, None))
             else
               Fprintf (String.append "Ok, signing you out!" (String "010" "")) ;;
               err <- SignOut h ;;
               match err with
               | Some err => ret (Some (None, Some err))
               | None => ret None
               end
           else ret None) ;;
        match early with
        | Some result => ret result
        | None =>
            c <- newConsoleClient "public" ;;
            match c with
            | inl err => ret (None, Some err)
            | inr c =>
                signIn <- AskForConfirmation
                            "Do you already have an Ory Console account you wish to use?" ;;
                r <- (if signIn then signin fuel h c "" else signup fuel h c) ;;
                match r with
                | (_, Some err) => ret (None, Some err)
                | (None, None) => stop nilDereference
                | (Some ac, None) =>
                    w <- WriteConfig h ac ;;
                    match w with
                    | (_, Some err) => ret (None, Some err)
                    | (ac, None) =>
                        Fprintf ("You are now signed in as: "
                                   ++ Email (IdentityTraits ac) ++ String "010" "") ;;
                        ret (Some ac, None)
                    end
                end
            end
        end
    end.

Definition EnsureContext (fuel : nat) (h : Auth) : M Result :=
  r <- readConfig h ;;
  match r with
  | (_, Some err) =>
      if Is_ErrNoConfig err then ret (None, None) else ret (None, Some err)
  | (None, None) => stop nilDereference
  | (Some c, None) =>
      if nonEmpty (SessionToken c) then
        Fprintf ("You are signed in as <" ++ formatIdentity (IdentityTraits c) ++ ">.") ;;
        another <-
          (if negb (noConfirm h)
           then keep <- AskForConfirmation
                  "Press [y] to continue as that user or [n] to sign into another account." ;;
                ret (negb keep)
           else ret false) ;;
        if another : bool then
          err <- SignOut h ;;
          match err with
          | Some err => ret (None, Some err)
          | None =>
              r <- Authenticate fuel h ;;
              match r with
              | (_, Some err) => ret (None, Some err)
              | (c, None) => ret (c, None)
              end
          end
        else ret (Some c, None)
      else
        r <- Authenticate fuel h ;;
        match r with
        | (_, Some err) => ret (None, Some err)
        | (None, None) => stop nilDereference   (* len(c.SessionToken) *)
        | (Some c, None) => ret (Some c, None)
        end
  end.

(* ------------------------------------------------------------------ *)
(** ** Start-up: the command line and the process ([pflag], [flagx], [os]) *)

Inductive FlagValue : Type :=
| StringFlag (s : string)
| BoolFlag (b : bool).

(** A flag set: its name and the flags defined in it, with their values. *)
Record FlagSet : Type := mkFlagSet {
  setName : string;
  formal : list (string * FlagValue) }.

Record Command : Type := mkCommand {
  Flags : FlagSet }.

(** The process: its environment and what [os.UserHomeDir] answers. *)
Record Process : Type := mkProcess {
  environ : list (string * string);
  UserHomeDir : error + string }.

(** [os.Getenv]: empty when the variable is not set. *)
Definition Getenv (p : Process) (key : string) : string :=
  match assoc key (environ p) with
  | Some v => v
  | None => ""
  end.

(** [FlagSet.String], [FlagSet.Bool]: defining a name twice panics. *)
Definition define (name : string) (value : FlagValue) (f : FlagSet) : Res FlagSet :=
  match assoc name (formal f) with
  | Some _ => Stop (Panicked (setName f ++ " flag redefined: " ++ name))
  | None => Ret (mkFlagSet (setName f) (formal f ++ [(name, value)]))
  end.

Definition RegisterFlags (f : FlagSet) : Res FlagSet :=
  match define configFlag (StringFlag "") f with
  | Stop why => Stop why
  | Ret f =>
      match define quietFlag (BoolFlag false) f with
      | Stop why => Stop why
      | Ret f => define yesFlag (BoolFlag false) f
      end
  end.

(** [flagx.MustGetString], [flagx.MustGetBool]: the process exits when the
    flag is not defined or has another type. *)
Definition MustGetString (cmd : Command) (name : string) : Res string :=
  match assoc name (formal (Flags cmd)) with
  | Some (StringFlag s) => Ret s
  | _ => Stop (Exited 1)
  end.

Definition MustGetBool (cmd : Command) (name : string) : Res bool :=
  match assoc name (formal (Flags cmd)) with
  | Some (BoolFlag b) => Ret b
  | _ => Stop (Exited 1)
  end.

Definition defaultEndpoint : string := "https://project.console.ory.sh".

Section Startup.

(** [filepath.Join] and [url.Parse], with the type of the URLs it makes. *)
Variable filepath_Join : string -> string -> string.
Variable URL : Type.
Variable url_Parse : string -> error + URL.

(** The arguments of [Coalesce] are all evaluated, in order, before it is
    called. *)
Definition getConfigPath (p : Process) (cmd : Command) : Res (string * option error) :=
  match UserHomeDir p with
  | inl err => Ret ("", Some (Wrapf err "unable to guess your home directory"))
  | inr path =>
      let env := Getenv p osEnvVar in
      match MustGetString cmd configFlag with
      | Stop why => Stop why
      | Ret flag => Ret (Coalesce [env; flag; filepath_Join path fileName], None)
      end
  end.

(** What [NewHandler] builds: the handler, whether its writer is
    [io.Discard], and the API domain. *)
Record Built : Type := mkBuilt {
  auth : Auth;
  discard : bool;
  apiDomain : URL }.

Definition NewHandler (p : Process) (cmd : Command) : Res (option Built * option error) :=
  match getConfigPath p cmd with
  | Stop why => Stop why
  | Ret (_, Some err) => Ret (None, Some err)
  | Ret (location, None) =>
      match MustGetBool cmd quietFlag with
      | Stop why => Stop why
      | Ret quiet =>
          let toParse := Coalesce [Getenv p cloudUrl; defaultEndpoint] in
          match url_Parse toParse with
          | inl err =>
              Ret (None, Some (Wrapf err ("invalid API endpoint provided: " ++ toParse)))
          | inr domain =>
              match MustGetBool cmd yesFlag with
              | Stop why => Stop why
              | Ret yes => Ret (Some (mkBuilt (mkAuth location yes) quiet domain), None)
              end
          end
      end
  end.

End Startup.

Arguments mkBuilt {URL}.
Arguments auth {URL}.
Arguments discard {URL}.
Arguments apiDomain {URL}.

(* ================================================================== *)
(** * Vocabulary of the properties *)

(** A machine with no files, a silent user and an unreachable API. *)
Definition emptyWorld : World :=
  mkWorld (fun _ => Absent) false None [] [] [] [] [] [] [] [].

(** A handler with the default location and no [--yes]. *)
Definition home : Auth := mkAuth "/home/ory/.ory-cloud.json" false.

(** What the encoder makes of a value: its strings coerced to valid UTF-8. *)
Definition coerced (c : AuthContext) : AuthContext :=
  {| Version := utf8.ToValid (Version c);
     SessionToken := utf8.ToValid (SessionToken c);
     SelectedProject := SelectedProject c;
     IdentityTraits :=
       {| ID := ID (IdentityTraits c);
          Email := utf8.ToValid (Email (IdentityTraits c)) |} |}.

(** The message of [WriteConfig] when the file cannot be opened: the format
    is given the nil file, not the location. *)
Definition openFailed : string :=
  "unable to open file for writing at location: %!s(*os.File=<nil>)".

(** The strings of a context that a save writes as they are. *)
Definition validStrings (c : AuthContext) : bool :=
  utf8.Valid (SessionToken c) && utf8.Valid (Email (IdentityTraits c)).

(** No event of the list is a call to the identity API. *)
Definition quiet (evs : list Event) : bool :=
  forallb (fun e => negb (isNetwork e)) evs.

(** A signed-in context that carries no version yet. *)
Definition tok1 : AuthContext :=
  {| Version := ""; SessionToken := "tok1"; SelectedProject := uuid.Nil;
     IdentityTraits := {| ID := uuid.Nil; Email := "a@example.com" |} |}.

(** No error of the decoder is the sentinel. *)
Definition goodSaved (saved : option error) : Prop :=
  match saved with
  | Some e => Is_ErrNoConfig e = false
  | None => True
  end.

(** ... whether it stops the decoder or is kept for its end. *)
Definition goodOut {T : Type} (r : error + (T * option error)) : Prop :=
  match r with
  | inl e => Is_ErrNoConfig e = false
  | inr (_, saved) => goodSaved saved
  end.

(** Some node of the flow has the group [g]. *)
Definition hasGroup (g : string) (flow : Flow) : bool :=
  existsb (fun n => String.eqb (Group n) g) (Nodes (Ui flow)).

(** The notices printed before a retry. *)
Definition registrationNotice : string :=
  String "010" "Your account creation attempt failed. Please try again!"
    ++ String "010" (String "010" "").

Definition loginNotice : string :=
  String "010" "Your sign in attempt failed. Please try again!"
    ++ String "010" (String "010" "").

(** The world after a line was printed, after a call was logged. *)
Definition say (text : string) (w : World) : World :=
  withTrace (trace w ++ [EvPrint text])%list w.

Definition logged (e : Event) (w : World) : World :=
  withTrace (trace w ++ [e])%list w.

(** The body the type switch builds from a password or a TOTP form. *)
Definition bodyOf (form : Form) : LoginFlowBody :=
  match form with
  | LoginTotpBody e => mkLoginFlowBody None (Some e)
  | _ => mkLoginFlowBody (Some (values form)) None
  end.

(** The exchange failed with the API's own error whose [error.id] asks for
    the second factor. *)
Definition aal2Required (err : error) : bool :=
  match errorId err with
  | Some id => String.eqb id "session_aal2_required"
  | None => false
  end.

(** The flow identifiers submitted, and the UI descriptions rendered, in
    order. *)
Definition submissions (evs : list Event) : list string :=
  flat_map (fun e => match e with
                     | EvSubmitRegistration id _ | EvSubmitLogin _ id _ => [id]
                     | _ => []
                     end) evs.

Definition renderings (evs : list Event) : list UiContainer :=
  flat_map (fun e => match e with
                     | EvRender ui _ _ => [ui]
                     | _ => []
                     end) evs.

(** The login flows asked for: session token and assurance level. *)
Definition initLogins (evs : list Event) : list (string * string) :=
  flat_map (fun e => match e with
                     | EvInitLogin token aal => [(token, aal)]
                     | _ => []
                     end) evs.

(** The flow offers a method the login path can use with this token. *)
Definition supported (tok : string) (flow : Flow) : bool :=
  match negotiate tok flow with
  | inr _ => true
  | inl _ => false
  end.

(** The assurance level a login flow is asked for. *)
Definition aalFor (tok : string) : string := if nonEmpty tok then "aal2" else "".

(** The trace only grows. *)
Definition extends (w w' : World) : Prop :=
  exists evs, trace w' = (trace w ++ evs)%list.

Definition appending {A : Type} (m : M A) : Prop :=
  forall w, extends w (snd (m w)).

(** The question that picks the login or the registration path. *)
Definition haveAccount : string :=
  "Do you already have an Ory Console account you wish to use?".

(** [sessionToken] non-empty implies [identityTraits.email] non-empty. *)
Definition hasEmailIfSession (c : AuthContext) : bool :=
  implb (nonEmpty (SessionToken c)) (nonEmpty (Email (IdentityTraits c))).

(** Flows, sessions and errors for concrete runs. *)
Definition passwordUi : UiContainer :=
  mkUiContainer [mkUiNode "default" "csrf_token"; mkUiNode "password" "identifier";
                 mkUiNode "password" "password"].
Definition secondFactorUi : UiContainer :=
  mkUiContainer [mkUiNode "default" "csrf_token"; mkUiNode "lookup_secret" "lookup_secret";
                 mkUiNode "totp" "totp_code"].

Definition flowA : Flow := mkFlow "flow-a" passwordUi.
Definition flowB : Flow := mkFlow "flow-b" passwordUi.
Definition flowC : Flow := mkFlow "flow-c" secondFactorUi.

Definition invalid (j : Json) (m : Model) : error :=
  OpenAPIError (mkGenericOpenAPIError j m).

Definition aal2RequiredBody : Json :=
  JObject [("error", JObject [("id", JString "session_aal2_required");
                              ("code", JNumber "403")])].

Definition alice : Session :=
  mkSession (mkIdentity "6ba7b810-9dad-11d1-80b4-00c04fd430c8"
               (JObject [("email", JString "a@example.com")])).

Definition nameless : Session :=
  mkSession (mkIdentity "6ba7b810-9dad-11d1-80b4-00c04fd430c8"
               (JObject [("name", JString "Alice")])).

Definition client : APIClient := mkAPIClient "public".


(** One rejected password, then success. *)
Definition retryWorld : World :=
  mkWorld (fun _ => Absent) false None []
    [inr [("identifier", "a@example.com"); ("password", "wrong")];
     inr [("identifier", "a@example.com"); ("password", "right")]]
    []
    [inr flowA]
    []
    [inl (invalid JNull (ModelLoginFlowPtr flowB));
     inr (mkSuccessful (Some "tok1"))]
    [inr alice]
    [].

(** The part of [Authenticate] that follows the look at the stored
    session: build the client, ask, sign in or up, persist. *)
Definition authenticateAnew (fuel : nat) (h : Auth) : M Result :=
  c <- newConsoleClient "public" ;;
  match c with
  | inl err => ret (None, Some err)
  | inr c =>
      signIn <- AskForConfirmation
                  "Do you already have an Ory Console account you wish to use?" ;;
      r <- (if signIn then signin fuel h c "" else signup fuel h c) ;;
      match r with
      | (_, Some err) => ret (None, Some err)
      | (None, None) => stop nilDereference
      | (Some ac, None) =>
          w <- WriteConfig h ac ;;
          match w with
          | (_, Some err) => ret (None, Some err)
          | (ac, None) =>
              Fprintf ("You are now signed in as: "
                         ++ Email (IdentityTraits ac) ++ String "010" "") ;;
              ret (Some ac, None)
          end
      end
  end.

(** A file without a session; the user has an account; the API answers the
    exchange with a session whose traits hold no email. *)
Definition namelessWorld : World :=
  mkWorld (fun _ => File (Document (JObject []))) false None [true]
    [inr [("identifier", "alice"); ("password", "right")]]
    []
    [inr flowA]
    []
    [inr (mkSuccessful (Some "tok1"))]
    [inr nameless]
    [].

(* ------------------------------------------------------------------ *)
(** ** Vocabulary of the further properties *)

(** Everything of the world that is scripted: the answers still to come. *)
Definition scripts (w : World) :=
  (clientError w, answers w, forms w, registrationFlows w, loginFlows w,
   registrations w, logins w, sessions w).

(** The part of the world the API calls and the form renderer leave alone. *)
Definition desk (w : World) :=
  (files w, diskFull w, clientError w, answers w).

(** The tokens the session exchange was called with. *)
Definition exchanges (evs : list Event) : list string :=
  flat_map (fun e => match e with EvToSession t => [t] | _ => [] end) evs.

(** What a login pass for a first factor may do: render the password form,
    submit a password body without a session token, print. *)
Definition firstFactor (e : Event) : bool :=
  match e with
  | EvRender _ method form =>
      String.eqb method "password"
      && match form with LoginPasswordBody [] => true | _ => false end
  | EvSubmitLogin token _ body =>
      negb (nonEmpty token)
      && match WithPasswordMethodBody body, WithTotpMethodBody body with
         | Some _, None => true
         | _, _ => false
         end
  | EvPrint _ => true
  | _ => false
  end.

(** The texts of [Authenticate] and [EnsureContext]. *)
Definition alreadySignedIn (ac : AuthContext) : string :=
  "You are signed in as " ++ String dquote (Email (IdentityTraits ac))
    ++ String dquote " already. Do you wish to authenticate with another account?".

Definition signingOut : string := String.append "Ok, signing you out!" (String "010" "").

Definition yesIsSet : error := New "can not sign in or sign up when flag --yes is set.".

Definition signedInAs (c : AuthContext) : string :=
  "You are signed in as <" ++ formatIdentity (IdentityTraits c) ++ ">.".

Definition pressY : string :=
  "Press [y] to continue as that user or [n] to sign into another account.".

(** What the callers of [Authenticate] make of its outcome: an error goes
    up without a context; [EnsureContext] ([strict]) reads the session
    token of the context it is handed, nil or not. *)
Definition passOn (strict : bool) (out : Res Result * World) : Res Result * World :=
  match out with
  | (Ret (_, Some err), w) => (Ret (None, Some err), w)
  | (Ret (None, None), w) => if strict then (Stop nilDereference, w) else (Ret (None, None), w)
  | other => other
  end.

(** The context a sign-out leaves in the file. *)
Definition signedOut : AuthContext := setVersion version zeroAuthContext.

(** A disk with one node, at [path]. *)
Definition onlyFile (path : string) (n : Node) : string -> Node :=
  fun q => if String.eqb q path then n else Absent.

(** A disk without room. *)
Definition fullDisk : World :=
  mkWorld (fun _ => Absent) true None [] [] [] [] [] [] [] [].

(** The config file may not be opened. *)
Definition lockedWorld : World :=
  mkWorld (onlyFile (configLocation home) Denied) false None [] [] [] [] [] [] [] [].

(** A context whose session token is not valid UTF-8. *)
Definition garbled : AuthContext :=
  {| Version := ""; SessionToken := String (ascii_of_nat 255) "tok";
     SelectedProject := uuid.Nil;
     IdentityTraits := {| ID := uuid.Nil; Email := "a@example.com" |} |}.

Definition bob : AuthContext :=
  {| Version := version; SessionToken := "tok0"; SelectedProject := uuid.Nil;
     IdentityTraits := {| ID := uuid.Nil; Email := "b@example.com" |} |}.

(** Bob is signed in; the user will answer [answers]; a sign-in as Alice
    would succeed. *)
Definition bobsWorld (answers : list bool) : World :=
  mkWorld (onlyFile (configLocation home) (File (Document (encodeAuthContext bob))))
    false None answers
    [inr [("identifier", "a@example.com"); ("password", "right")]]
    []
    [inr flowA]
    []
    [inr (mkSuccessful (Some "tok1"))]
    [inr alice]
    [].

(** A handler run with [--yes]. *)
Definition unattended : Auth := mkAuth "/home/ory/.ory-cloud.json" true.

(** The config file holds an empty object. *)
Definition emptyDocument : World :=
  mkWorld (onlyFile (configLocation home) (File (Document (JObject []))))
    false None [] [] [] [] [] [] [] [].



(** A registration whose session exchange is refused. *)
Definition refusedSignup : World :=
  mkWorld (fun _ => Absent) false None []
    [inr [("traits.email", "a@example.com"); ("password", "right")]]
    [inr flowA]
    []
    [inr (mkSuccessful (Some "tok1"))]
    []
    [inl (invalid aal2RequiredBody ModelNil)]
    [].

(** The user fills in a TOTP code and the API accepts it. *)
Definition secondFactorWorld : World :=
  mkWorld (fun _ => Absent) false None []
    [inr [("totp_code", "123456")]]
    [] [] []
    [inr (mkSuccessful (Some "tok1"))]
    [] [].

(** Two step-ups in a row. *)
Definition twoStepUps : World :=
  mkWorld (fun _ => Absent) false None []
    [inr [("identifier", "a@example.com"); ("password", "right")];
     inr [("totp_code", "123456")];
     inr [("totp_code", "654321")]]
    []
    [inr flowA; inr flowC; inr flowC]
    []
    [inr (mkSuccessful (Some "tok1"));
     inr (mkSuccessful (Some "tok1"));
     inr (mkSuccessful (Some "tok1"))]
    [inl (invalid aal2RequiredBody ModelNil);
     inl (invalid aal2RequiredBody ModelNil);
     inr alice]
    [].

(** The API accepts a login and answers no session token. *)
Definition tokenless : World :=
  mkWorld (fun _ => Absent) false None []
    [inr [("identifier", "a@example.com"); ("password", "right")]]
    []
    [inr flowA]
    []
    [inr (mkSuccessful None)]
    []
    [].

(** Start-up: a path joiner and a URL parser to run the examples with, two
    processes, and flag sets. *)
Definition slashJoin (dir name : string) : string := dir ++ "/" ++ name.

Definition parseAny (s : string) : error + string := inr s.

Definition laptop : Process := mkProcess [] (inr "/home/ory").

Definition ci : Process :=
  mkProcess [("ORY_CLOUD_CONFIG_PATH", "/ci/ory.json")] (inr "/home/ory").

Definition rootFlags : FlagSet := mkFlagSet "ory" [].

Definition registered : FlagSet :=
  mkFlagSet "ory" [(configFlag, StringFlag ""); (quietFlag, BoolFlag false);
                   (yesFlag, BoolFlag false)].

Definition flagNames : list string := [configFlag; quietFlag; yesFlag].

(** The set defines a flag of this name. *)
Definition defines (f : FlagSet) (name : string) : bool :=
  match assoc name (formal f) with Some _ => true | None => false end.

(* ------------------------------------------------------------------ *)
(** ** Vocabulary in the words of the specification *)

(** The spec's words: a decode failure. What a field of the document does
    not take: a string field and the UUID take a string or null, the
    traits take an object or null. *)
Definition takes (k : string) (v : Json) : bool :=
  match v with
  | JNull => true
  | JString _ => negb (String.eqb k "session_identity_traits")
  | JObject _ => String.eqb k "session_identity_traits"
  | _ => false
  end.

(** A document that is no object (and not null). *)
Definition notObject (j : Json) : bool :=
  match j with
  | JObject _ | JNull => false
  | _ => true
  end.

(** The load fails, with an error that is not the sentinel and without a
    context. *)
Definition failsOtherwise (h : Auth) (w : World) : Prop :=
  exists err,
    fst (readConfig h w) = Ret (None, Some err) /\ Is_ErrNoConfig err = false.

(** A config file with a number for the session token. *)
Definition numberToken : World :=
  mkWorld (onlyFile (configLocation home)
             (File (Document (JObject [("version", JString "v0alpha0");
                                       ("session_token", JNumber "12")]))))
    false None [] [] [] [] [] [] [] [].

(** The decoder has an error in hand: it stopped with one, or it keeps
    one for its end. *)
Definition kept {T : Type} (r : error + (T * option error)) : Prop :=
  match r with
  | inl _ => True
  | inr (_, saved) => saved <> None
  end.

(** The spec's words: a structured error that carries a replacement flow.
    The error is the API's own, and the model it holds is a flow of the
    path, as a pointer or as a value. *)
Inductive Held : Type := ByPointer | ByValue.

Definition registrationRetry (body : Json) (how : Held) (m : Flow) : error :=
  OpenAPIError
    (mkGenericOpenAPIError body
       match how with
       | ByPointer => ModelRegistrationFlowPtr m
       | ByValue => ModelRegistrationFlow m
       end).

Definition loginRetry (body : Json) (how : Held) (m : Flow) : error :=
  OpenAPIError
    (mkGenericOpenAPIError body
       match how with
       | ByPointer => ModelLoginFlowPtr m
       | ByValue => ModelLoginFlow m
       end).

(** A failed submission with its replacement: the body of the error, how
    the flow is held, the flow. *)
Definition Replacement : Type := (Json * Held * Flow)%type.

Definition registrationRetries (reps : list Replacement) : list error :=
  map (fun r => registrationRetry (fst (fst r)) (snd (fst r)) (snd r)) reps.

Definition loginRetries (reps : list Replacement) : list error :=
  map (fun r => loginRetry (fst (fst r)) (snd (fst r)) (snd r)) reps.

Definition flowD : Flow := mkFlow "flow-d" passwordUi.

(** A sign-up that is sent back twice, with the flow held once as a pointer
    and once as a value. *)
Definition signupRetryWorld : World :=
  mkWorld (fun _ => Absent) false None []
    [inr [("traits.email", "a"); ("password", "short")];
     inr [("traits.email", "a@example.com"); ("password", "short")];
     inr [("traits.email", "a@example.com"); ("password", "long enough")]]
    [inr flowA]
    []
    [inl (registrationRetry JNull ByPointer flowB);
     inl (registrationRetry JNull ByValue flowD);
     inr (mkSuccessful (Some "tok1"))]
    []
    [inr alice]
    [].

(** A sign-in that is sent back once, with the flow held as a value. *)
Definition signinRetryWorld : World :=
  mkWorld (fun _ => Absent) false None []
    [inr [("identifier", "a@example.com"); ("password", "wrong")];
     inr [("identifier", "a@example.com"); ("password", "right")]]
    []
    [inr flowA]
    []
    [inl (loginRetry JNull ByValue flowB);
     inr (mkSuccessful (Some "tok1"))]
    [inr alice]
    [].

(** A sign-up that the API refuses without a flow to go on with. *)
Definition signupRefusedWorld : World :=
  mkWorld (fun _ => Absent) false None []
    [inr [("traits.email", "a@example.com"); ("password", "long enough")]]
    [inr flowA]
    []
    [inl (invalid JNull (ModelJsonError JNull))]
    []
    []
    [].





(** The spec's words: a session carries an email trait. The traits are a
    JSON object; the member that counts is the last one named [email], and
    it is neither null nor the empty string. *)
Definition lastMember (k : string) (j : Json) : option Json :=
  match j with
  | JObject ms => assoc k (rev ms)
  | _ => None
  end.

Definition carriesEmail (s : Session) : bool :=
  match lastMember "email" (Traits (session_Identity s)) with
  | None | Some JNull => false
  | Some (JString email) => nonEmpty email
  | Some _ => true
  end.

(** Every session the identity API will answer with carries an email. *)
Definition sessionsCarryEmail (w : World) : Prop :=
  forall sess, In (inr sess) (sessions w) -> carriesEmail sess = true.

(** The context a load of the config file would answer, if any, has an
    email with its session token. *)
Definition storedHasEmail (h : Auth) (w : World) : Prop :=
  forall d c,
    files w (configLocation h) = File d ->
    decodeAuthContext d = inr c ->
    hasEmailIfSession c = true.

(** The documents handed to the encoder of the config file, in order. *)
Definition encoded (evs : list Event) : list Json :=
  flat_map (fun e => match e with
                     | EvEncode _ doc => [doc]
                     | _ => []
                     end) evs.

(** Every document written so far, those of [old] apart, is the encoding
    of a context that has an email with its session token. *)
Definition savesWithEmail (old : list Json) (w : World) : Prop :=
  forall doc,
    In doc (encoded (trace w)) ->
    In doc old
    \/ exists c, doc = encodeAuthContext c /\ hasEmailIfSession c = true.

(** A result that holds a context holds one with an email for its token. *)
Definition resultHasEmail (r : Result) : Prop :=
  match r with
  | (Some ctx, _) => hasEmailIfSession ctx = true
  | _ => True
  end.

(** What the orchestration keeps true of the world, and a computation
    that keeps it while its results satisfy [Q]. *)
Definition Good (h : Auth) (old : list Json) (w : World) : Prop :=
  sessionsCarryEmail w /\ storedHasEmail h w /\ savesWithEmail old w.

Definition keeps {A : Type} (h : Auth) (old : list Json) (m : M A) (Q : A -> Prop) : Prop :=
  forall w, Good h old w ->
    Good h old (snd (m w)) /\ forall a, fst (m w) = Ret a -> Q a.

(** The config file holds a session token and nothing else. *)
Definition tokenOnly : World :=
  mkWorld (onlyFile (configLocation home)
             (File (Document (JObject [("session_token", JString "tok0")]))))
    false None [] [] [] [] [] [] [] [].

(** The thirty-two hexadecimal digits of a UUID, without dashes. *)
Definition hexText (u : uuid.UUID) : string :=
  uuid.hx (uuid.b0 u) (uuid.hx (uuid.b1 u) (uuid.hx (uuid.b2 u) (uuid.hx (uuid.b3 u)
  (uuid.hx (uuid.b4 u) (uuid.hx (uuid.b5 u) (uuid.hx (uuid.b6 u) (uuid.hx (uuid.b7 u)
  (uuid.hx (uuid.b8 u) (uuid.hx (uuid.b9 u) (uuid.hx (uuid.b10 u) (uuid.hx (uuid.b11 u)
  (uuid.hx (uuid.b12 u) (uuid.hx (uuid.b13 u) (uuid.hx (uuid.b14 u) (uuid.hx (uuid.b15 u)
    EmptyString))))))))))))))).

(** The texts of a UUID: canonical or hash-like, bare, in braces, or as a
    URN. *)
Definition uuidTexts (u : uuid.UUID) : list string :=
  [ uuid.String_ u; hexText u;
    "{" ++ uuid.String_ u ++ "}"; "{" ++ hexText u ++ "}";
    "urn:uuid:" ++ uuid.String_ u; "urn:uuid:" ++ hexText u ].

(** The lengths of the texts [uuid.FromString] looks at. *)
Definition uuidLengths : list nat := [32; 34; 36; 38; 41; 45].

(** A session whose traits hold two emails, the first of them no string,
    and whose id is in braces. *)
Definition carol : Session :=
  mkSession (mkIdentity "{6ba7b8109dad11d180b400c04fd430c8}"
               (JObject [("email", JNumber "1e2");
                         ("name", JString "Carol");
                         ("email", JString "c@example.com")])).

(** Sessions whose email trait is no string. *)
Definition numbered (raw : string) : Session :=
  mkSession (mkIdentity "" (JObject [("email", JNumber raw)])).

Definition listed : Session :=
  mkSession (mkIdentity "" (JObject [("email", JArray [JString "<a>"; JNumber "1.0"])])).





(* ================================================================== *)
(** * Properties *)

(* ------------------------------------------------------------------ *)
(** ** Coercion to valid UTF-8 *)

Lemma runeLen_1 c0 s1 s1' :
  utf8.runeLen (String c0 s1) = 1 -> utf8.runeLen (String c0 s1') = 1.
Proof.
  unfold utf8.runeLen. destruct (utf8.between 0 127 c0); [reflexivity|].
  destruct s1 as [|c1 s2]; [discriminate|].
  destruct (utf8.between 194 223 c0); [destruct (utf8.cont c1); discriminate|].
  destruct s2 as [|c2 s3]; [discriminate|].
  destruct (utf8.between 224 239 c0).
  - match goal with |- (if ?b then _ else _) = _ -> _ => destruct b end; discriminate.
  - destruct s3 as [|c3 s4]; [discriminate|].
    match goal with |- (if ?b then _ else _) = _ -> _ => destruct b end; discriminate.
Qed.

Ltac dead_branch :=
  match goal with |- (if ?b then _ else _) = _ -> _ => destruct b end; discriminate.

Lemma runeLen_2 c0 s1 :
  utf8.runeLen (String c0 s1) = 2 ->
  exists c1 s2, s1 = String c1 s2
    /\ forall s2', utf8.runeLen (String c0 (String c1 s2')) = 2.
Proof.
  unfold utf8.runeLen at 1. destruct (utf8.between 0 127 c0) eqn:A; [discriminate|].
  destruct s1 as [|c1 s2]; [discriminate|].
  destruct (utf8.between 194 223 c0) eqn:B.
  - destruct (utf8.cont c1) eqn:C; [|discriminate]. intros _. exists c1, s2.
    split; [reflexivity|]. intros s2'. unfold utf8.runeLen. now rewrite A, B, C.
  - destruct s2 as [|c2 s3]; [discriminate|].
    destruct (utf8.between 224 239 c0); [dead_branch|].
    destruct s3 as [|c3 s4]; [discriminate | dead_branch].
Qed.

Lemma runeLen_3 c0 s1 :
  utf8.runeLen (String c0 s1) = 3 ->
  exists c1 c2 s3, s1 = String c1 (String c2 s3)
    /\ forall s3', utf8.runeLen (String c0 (String c1 (String c2 s3'))) = 3.
Proof.
  unfold utf8.runeLen at 1. destruct (utf8.between 0 127 c0) eqn:A; [discriminate|].
  destruct s1 as [|c1 s2]; [discriminate|].
  destruct (utf8.between 194 223 c0) eqn:B; [destruct (utf8.cont c1); discriminate|].
  destruct s2 as [|c2 s3]; [discriminate|].
  destruct (utf8.between 224 239 c0) eqn:C.
  - match goal with |- (if ?b then _ else _) = _ -> _ => destruct b eqn:D end;
      [|discriminate].
    intros _. exists c1, c2, s3. split; [reflexivity|].
    intros s3'. unfold utf8.runeLen. now rewrite A, B, C, D.
  - destruct s3 as [|c3 s4]; [discriminate | dead_branch].
Qed.

Lemma runeLen_4 c0 s1 :
  utf8.runeLen (String c0 s1) = 4 ->
  exists c1 c2 c3 s4, s1 = String c1 (String c2 (String c3 s4))
    /\ forall s4', utf8.runeLen (String c0 (String c1 (String c2 (String c3 s4')))) = 4.
Proof.
  unfold utf8.runeLen at 1. destruct (utf8.between 0 127 c0) eqn:A; [discriminate|].
  destruct s1 as [|c1 s2]; [discriminate|].
  destruct (utf8.between 194 223 c0) eqn:B; [destruct (utf8.cont c1); discriminate|].
  destruct s2 as [|c2 s3]; [discriminate|].
  destruct (utf8.between 224 239 c0) eqn:C; [dead_branch|].
  destruct s3 as [|c3 s4]; [discriminate|].
  match goal with |- (if ?b then _ else _) = _ -> _ => destruct b eqn:D end;
    [|discriminate].
  intros _. exists c1, c2, c3, s4. split; [reflexivity|].
  intros s4'. unfold utf8.runeLen. now rewrite A, B, C, D.
Qed.

Lemma runeLen_le_4 s : utf8.runeLen s <= 4.
Proof.
  unfold utf8.runeLen. destruct s as [|c0 s1]; [lia|].
  destruct (utf8.between 0 127 c0); [lia|].
  destruct s1 as [|c1 s2]; [lia|].
  destruct (utf8.between 194 223 c0); [destruct (utf8.cont c1); lia|].
  destruct s2 as [|c2 s3]; [lia|].
  destruct (utf8.between 224 239 c0).
  - match goal with |- (if ?b then _ else _) <= _ => destruct b end; lia.
  - destruct s3 as [|c3 s4]; [lia|].
    match goal with |- (if ?b then _ else _) <= _ => destruct b end; lia.
Qed.

Lemma ToValid_step c0 s1 :
  utf8.ToValid (String c0 s1) =
    match utf8.runeLen (String c0 s1), s1 with
    | 1, _ => String c0 (utf8.ToValid s1)
    | 2, String c1 s2 => String c0 (String c1 (utf8.ToValid s2))
    | 3, String c1 (String c2 s3) =>
        String c0 (String c1 (String c2 (utf8.ToValid s3)))
    | 4, String c1 (String c2 (String c3 s4)) =>
        String c0 (String c1 (String c2 (String c3 (utf8.ToValid s4))))
    | _, _ => utf8.replacement (utf8.ToValid s1)
    end.
Proof. reflexivity. Qed.

Lemma ToValid_replacement k :
  utf8.ToValid (utf8.replacement k) = utf8.replacement (utf8.ToValid k).
Proof. reflexivity. Qed.

Lemma ToValid_idempotent_upto n : forall s,
  String.length s <= n -> utf8.ToValid (utf8.ToValid s) = utf8.ToValid s.
Proof.
  induction n as [|n IH]; intros s Hlen.
  - destruct s; [reflexivity | cbn in Hlen; lia].
  - destruct s as [|c0 s1]; [reflexivity|].
    cbn [String.length] in Hlen.
    rewrite (ToValid_step c0 s1).
    pose proof (runeLen_le_4 (String c0 s1)) as L4.
    destruct (utf8.runeLen (String c0 s1)) as [|[|[|[|[|m]]]]] eqn:R; try lia.
    + rewrite ToValid_replacement. f_equal. apply IH. lia.
    + rewrite ToValid_step, (runeLen_1 _ _ _ R). f_equal. apply IH. lia.
    + destruct (runeLen_2 _ _ R) as (c1 & s2 & -> & K).
      rewrite ToValid_step, K. do 2 f_equal. apply IH. cbn in Hlen. lia.
    + destruct (runeLen_3 _ _ R) as (c1 & c2 & s3 & -> & K).
      rewrite ToValid_step, K. do 3 f_equal. apply IH. cbn in Hlen. lia.
    + destruct (runeLen_4 _ _ R) as (c1 & c2 & c3 & s4 & -> & K).
      rewrite ToValid_step, K. do 4 f_equal. apply IH. cbn in Hlen. lia.
Qed.

Lemma ToValid_idempotent s : utf8.ToValid (utf8.ToValid s) = utf8.ToValid s.
Proof. apply (ToValid_idempotent_upto (String.length s)). lia. Qed.

(* ------------------------------------------------------------------ *)
(** ** Values on their way through the encoder and [gjson] *)

Lemma String_eqb_cons c1 s1 c2 s2 :
  String.eqb (String c1 s1) (String c2 s2) = Ascii.eqb c1 c2 && String.eqb s1 s2.
Proof. cbn. now destruct (Ascii.eqb c1 c2). Qed.

(** Coercion keeps an ASCII byte at the head and never makes one. *)
Lemma ToValid_ascii_head c0 s1 :
  utf8.between 0 127 c0 = true ->
  utf8.ToValid (String c0 s1) = String c0 (utf8.ToValid s1).
Proof.
  intros A. rewrite ToValid_step.
  assert (R : utf8.runeLen (String c0 s1) = 1) by (unfold utf8.runeLen; now rewrite A).
  now rewrite R.
Qed.

Lemma ToValid_other_head c0 s1 :
  utf8.between 0 127 c0 = false ->
  exists c r, utf8.ToValid (String c0 s1) = String c r /\ utf8.between 0 127 c = false.
Proof.
  intros A. rewrite ToValid_step.
  pose proof (runeLen_le_4 (String c0 s1)) as L4.
  destruct (utf8.runeLen (String c0 s1)) as [|[|[|[|[|m]]]]] eqn:R; try lia.
  - eexists. eexists. split; [reflexivity|]. reflexivity.
  - exfalso. unfold utf8.runeLen in R. rewrite A in R.
    destruct s1 as [|c1 s2]; [discriminate|].
    destruct (utf8.between 194 223 c0); [destruct (utf8.cont c1); discriminate|].
    destruct s2 as [|c2 s3]; [discriminate|].
    destruct (utf8.between 224 239 c0).
    + revert R. dead_branch.
    + destruct s3 as [|c3 s4]; [discriminate|]. revert R. dead_branch.
  - destruct (runeLen_2 _ _ R) as (c1 & s2 & -> & _). eauto.
  - destruct (runeLen_3 _ _ R) as (c1 & c2 & s3 & -> & _). eauto.
  - destruct (runeLen_4 _ _ R) as (c1 & c2 & c3 & s4 & -> & _). eauto.
Qed.

Lemma ToValid_nonEmpty s : nonEmpty s = true -> nonEmpty (utf8.ToValid s) = true.
Proof.
  destruct s as [|c0 s1]; [discriminate|]. intros _.
  destruct (utf8.between 0 127 c0) eqn:A.
  - now rewrite ToValid_ascii_head.
  - destruct (ToValid_other_head c0 s1 A) as (c & r & -> & _). reflexivity.
Qed.

(** A name of ASCII characters is met, after coercion, by itself only. *)
Lemma ToValid_eqb_ascii k :
  forallb (utf8.between 0 127) (list_ascii_of_string k) = true ->
  forall k', String.eqb (utf8.ToValid k') k = String.eqb k' k.
Proof.
  induction k as [|a k IH]; intros Hk k'.
  - destruct k' as [|c0 s1]; [reflexivity|].
    destruct (utf8.between 0 127 c0) eqn:A.
    + now rewrite ToValid_ascii_head.
    + destruct (ToValid_other_head c0 s1 A) as (c & r & -> & _). reflexivity.
  - cbn [list_ascii_of_string forallb] in Hk. apply andb_prop in Hk as [Ha Hk].
    destruct k' as [|c0 s1]; [reflexivity|].
    destruct (utf8.between 0 127 c0) eqn:A.
    + rewrite ToValid_ascii_head by assumption. rewrite !String_eqb_cons.
      now rewrite IH.
    + destruct (ToValid_other_head c0 s1 A) as (c & r & -> & C).
      rewrite !String_eqb_cons.
      assert (E1 : Ascii.eqb c a = false).
      { apply Ascii.eqb_neq. intros ->. congruence. }
      assert (E2 : Ascii.eqb c0 a = false).
      { apply Ascii.eqb_neq. intros ->. congruence. }
      now rewrite E1, E2.
Qed.

Lemma assoc_app {A : Type} k (a b : list (string * A)) :
  assoc k (a ++ b)%list = match assoc k a with Some v => Some v | None => assoc k b end.
Proof.
  induction a as [|[k' v'] a IH]; cbn; [reflexivity|].
  destruct (String.eqb k' k); [reflexivity | exact IH].
Qed.

Lemma assoc_map_keys {A : Type} (f : string -> string) k (l : list (string * A)) :
  (forall k', String.eqb (f k') k = String.eqb k' k) ->
  assoc k (map (fun kv => (f (fst kv), snd kv)) l) = assoc k l.
Proof.
  intros Hf. induction l as [|[k' v'] l IH]; cbn; [reflexivity|].
  rewrite Hf, IH. reflexivity.
Qed.

Lemma assoc_map_values {A B : Type} (f : A -> B) k (l : list (string * A)) :
  assoc k (map (fun kv => (fst kv, f (snd kv))) l) = option_map f (assoc k l).
Proof.
  induction l as [|[k' v'] l IH]; cbn; [reflexivity|].
  destruct (String.eqb k' k); [reflexivity | exact IH].
Qed.

Lemma leb_same s : String.leb s s = true.
Proof. now destruct (String.leb_total s s). Qed.

Lemma assoc_insertKey {A : Type} k (kv : string * A) l :
  assoc k (json.insertKey kv l)
  = if String.eqb (fst kv) k then Some (snd kv) else assoc k l.
Proof.
  destruct kv as [k0 v0]. cbn [fst snd].
  induction l as [|[k' v'] l IH]; cbn [json.insertKey fst snd].
  - reflexivity.
  - destruct (String.leb k0 k') eqn:L; [reflexivity|].
    cbn [assoc]. rewrite IH.
    destruct (String.eqb k' k) eqn:E1; [|reflexivity].
    destruct (String.eqb k0 k) eqn:E0; [|reflexivity].
    apply String.eqb_eq in E1, E0. subst. now rewrite leb_same in L.
Qed.

Lemma assoc_sortKeys {A : Type} k (l : list (string * A)) :
  assoc k (json.sortKeys l) = assoc k l.
Proof.
  induction l as [|[k' v'] l IH]; [reflexivity|].
  unfold json.sortKeys in *. cbn [fold_right]. rewrite assoc_insertKey, IH. reflexivity.
Qed.

Lemma assoc_lastWins_none {A : Type} k (l : list (string * A)) :
  assoc k l = None -> assoc k (json.lastWins l) = None.
Proof.
  induction l as [|[k' v'] l IH]; cbn; [reflexivity|].
  destruct (String.eqb k' k) eqn:E; [discriminate|]. intros H.
  destruct (assoc k' l); [auto|]. cbn. rewrite E. auto.
Qed.

Lemma assoc_lastWins_last {A : Type} k (v : A) a b :
  assoc k b = None ->
  assoc k (json.lastWins (a ++ (k, v) :: b)) = Some v.
Proof.
  intros Hb. induction a as [|[k' v'] a IH]; cbn [app json.lastWins].
  - rewrite Hb. cbn. now rewrite String.eqb_refl.
  - destruct (assoc k' (a ++ (k, v) :: b)) eqn:E; [exact IH|].
    cbn [assoc]. destruct (String.eqb k' k) eqn:E1; [|exact IH].
    apply String.eqb_eq in E1. subst k'.
    rewrite assoc_app in E. cbn in E. rewrite String.eqb_refl in E.
    destruct (assoc k a); discriminate.
Qed.




Lemma GetBytes_one ms k :
  gjson.GetBytes (JObject ms) [k]
  = option_map gjson.readBack (assoc k (map (fun kv => (utf8.ToValid (fst kv), snd kv)) ms)).
Proof.
  cbn [gjson.GetBytes]. induction ms as [|[k' v'] ms IH]; [reflexivity|].
  cbn [map assoc fst snd]. destruct (String.eqb (utf8.ToValid k') k); [reflexivity | exact IH].
Qed.

(** The email [getField] finds in traits that are a map: the value of the
    last member of the name, encoded and read back; none without such a
    member. *)
Lemma getField_member a b v :
  assoc "email" b = None ->
  getField (JObject (a ++ ("email", v) :: b)) ["email"]
  = inr (Some (gjson.readBack (json.Encode v))).
Proof.
  intros Hb. unfold getField. cbn [json.Encode]. rewrite GetBytes_one.
  rewrite assoc_map_keys by (apply ToValid_eqb_ascii; reflexivity).
  rewrite assoc_sortKeys, map_app. cbn [map fst snd].
  rewrite assoc_lastWins_last; [reflexivity|].
  rewrite assoc_map_values, Hb. reflexivity.
Qed.

Lemma getField_no_member j :
  match j with JObject ms => assoc "email" ms | _ => None end = None ->
  getField j ["email"] = inr None.
Proof.
  intros H. unfold getField. f_equal.
  destruct j as [| |raw|s|items|ms]; try reflexivity.
  cbn [json.Encode]. rewrite GetBytes_one.
  rewrite assoc_map_keys by (apply ToValid_eqb_ascii; reflexivity).
  rewrite assoc_sortKeys, assoc_lastWins_none; [reflexivity|].
  rewrite assoc_map_values, H. reflexivity.
Qed.

Lemma assoc_rev_split {A : Type} k (v : A) ms :
  assoc k (rev ms) = Some v ->
  exists a b, ms = (a ++ (k, v) :: b)%list /\ assoc k b = None.
Proof.
  induction ms as [|[k' v'] ms IH] using rev_ind; [discriminate|].
  rewrite rev_app_distr. cbn [rev app assoc].
  destruct (String.eqb k' k) eqn:E.
  - intros H. injection H as ->. apply String.eqb_eq in E. subst k'.
    exists ms, []. split; reflexivity.
  - intros H. destruct (IH H) as (a & b & -> & Hb).
    exists a, (b ++ [(k', v')])%list. split.
    + now rewrite <- app_assoc.
    + rewrite assoc_app, Hb. cbn. now rewrite E.
Qed.

(** What [gjson]'s string of a value is never: a text that starts like
    [session_aal2_required], unless the value is that string. *)
Lemma digitChar_not_s d : Ascii.eqb (strconv.digitChar d) "s" = false.
Proof.
  unfold strconv.digitChar.
  repeat match goal with
         | |- context [match ?x with _ => _ end] => destruct x
         end; reflexivity.
Qed.

Lemma FormatFloat_f_head f :
  exists c r, strconv.FormatFloat_f f = String c r /\ Ascii.eqb c "s" = false.
Proof.
  destruct f as [neg m e|neg]; cbn [strconv.FormatFloat_f].
  - destruct neg; cbn [strconv.sign]; [eauto|].
    destruct (m =? 0)%Z; [eauto|].
    destruct (strconv.shortest m e) as [ds dp]. unfold strconv.fixed.
    destruct ds as [|d ds]; [eauto|].
    destruct (dp <=? 0)%Z; [eauto|].
    destruct (_ <=? dp)%Z; eexists; eexists; (split; [reflexivity | apply digitChar_not_s]).
  - destruct neg; eauto.
Qed.


(* ------------------------------------------------------------------ *)
(** ** The config document survives the disk *)

Lemma unhex2_hex b : uuid.unhex2 (uuid.hexHi b) (uuid.hexLo b) = Some b.
Proof. destruct b as [[] [] [] [] [] [] [] []]; reflexivity. Qed.

Lemma FromString_String u : uuid.FromString (uuid.String_ u) = Some u.
Proof.
  destruct u. unfold uuid.String_, uuid.hx. cbn [uuid.b0 uuid.b1 uuid.b2 uuid.b3 uuid.b4 uuid.b5 uuid.b6 uuid.b7 uuid.b8 uuid.b9 uuid.b10 uuid.b11 uuid.b12 uuid.b13 uuid.b14 uuid.b15].
  unfold uuid.FromString. cbn [String.length].
  unfold uuid.decodeCanonical, uuid.isDash. cbn [String.get Ascii.eqb Bool.eqb andb substring append].
  unfold uuid.decodeHashLike. cbn [uuid.hexDecode].
  rewrite !unhex2_hex. reflexivity.
Qed.

Lemma decode_encode c :
  decodeAuthContext (Document (encodeAuthContext c)) = inr (coerced c).
Proof.
  destruct c as [v t p [i e]].
  unfold decodeAuthContext, encodeAuthContext, encodeAuthIdentity, decodeStruct.
  cbn [decodeMembers Version SessionToken SelectedProject IdentityTraits ID Email].
  unfold decodeContextMember, decodeIdentityMember, decodeStruct, decodeUUID, decodeString.
  cbn [findField assoc contextFields identityFields String.eqb Ascii.eqb Bool.eqb decodeMembers].
  rewrite !FromString_String.
  reflexivity.
Qed.

Ltac run := unfold bind, ret, stop, log, Fprintf in *; cbn beta iota in *.

Lemma writeNode_same p n f : writeNode p n f p = n.
Proof. unfold writeNode. now rewrite String.eqb_refl. Qed.

(* ------------------------------------------------------------------ *)
(** ** The config store (C10, C4, C5, C6) *)

(** [WriteConfig], case by case. *)
Lemma WriteConfig_run h c w :
  let p := configLocation h in
  let c' := setVersion version c in
  let opened := withTrace (trace w ++ [EvOpenFile p]) w in
  let emptied := withFiles (writeNode p (File Blank) (files w)) opened in
  let encoding := withTrace (trace emptied ++ [EvEncode p (encodeAuthContext c')]) emptied in
  WriteConfig h c w =
    match files w p with
    | Denied => (Ret (c', Some (Wrapf (PathError "open" p EACCES) openFailed)), opened)
    | Directory => (Ret (c', Some (Wrapf (PathError "open" p EISDIR) openFailed)), opened)
    | Absent | File _ =>
        if diskFull w
        then (Ret (c', Some (Wrapf (PathError "write" p ENOSPC)
                               ("unable to write configuration to file: " ++ p))),
              encoding)
        else (Ret (c', None),
              withFiles (writeNode p (File (Document (encodeAuthContext c')))
                           (files encoding)) encoding)
    end.
Proof.
  unfold WriteConfig, os_OpenFile, json_Encode. run. cbn.
  destruct (files w (configLocation h)); cbn; try reflexivity;
    destruct (diskFull w); reflexivity.
Qed.

Lemma readConfig_run h w :
  let p := configLocation h in
  let w' := withTrace (trace w ++ [EvOpen p]) w in
  readConfig h w =
    (match files w p with
     | Absent => Ret (Some zeroAuthContext, Some ErrNoConfig)
     | Denied =>
         Ret (None, Some (Wrapf (PathError "open" p EACCES)
                            ("unable to open ory config file location: " ++ p)))
     | Directory =>
         Ret (None, Some (Wrapf (PathError "read" p EISDIR)
                            ("unable to JSON decode the ory config file: " ++ p)))
     | File d =>
         match decodeAuthContext d with
         | inl err =>
             Ret (None, Some (Wrapf err
                                ("unable to JSON decode the ory config file: " ++ p)))
         | inr c => Ret (Some c, None)
         end
     end, w').
Proof.
  unfold readConfig, os_Open. run. cbn.
  destruct (files w (configLocation h)); cbn; try reflexivity.
  destruct (decodeAuthContext d); reflexivity.
Qed.

Lemma Valid_ToValid s : utf8.Valid s = true -> utf8.ToValid s = s.
Proof. unfold utf8.Valid. apply String.eqb_eq. Qed.

Lemma coerced_stamped c :
  validStrings c = true ->
  coerced (setVersion version c) = setVersion version c.
Proof.
  unfold validStrings. intros H. apply andb_prop in H as [Ht He].
  destruct c as [v t p [i e]]. unfold coerced, setVersion. cbn in *.
  now rewrite (Valid_ToValid _ Ht), (Valid_ToValid _ He).
Qed.

(** What a save leaves at the location, when it leaves a document. *)
Lemma WriteConfig_document h c w d :
  files (snd (WriteConfig h c w)) (configLocation h) = File (Document d) ->
  d = encodeAuthContext (setVersion version c)
  /\ fst (WriteConfig h c w) = Ret (setVersion version c, None).
Proof.
  rewrite WriteConfig_run. cbv zeta.
  destruct (files w (configLocation h)) eqn:E; cbn; try rewrite E;
    try discriminate;
    destruct (diskFull w); cbn; rewrite ?writeNode_same; intros H;
    inversion H; auto.
Qed.

Lemma WriteConfig_ok h c w c' w' :
  WriteConfig h c w = (Ret (c', None), w') ->
  c' = setVersion version c
  /\ files w' (configLocation h) = File (Document (encodeAuthContext c')).
Proof.
  rewrite WriteConfig_run. cbv zeta.
  destruct (files w (configLocation h)); try discriminate;
    destruct (diskFull w); try discriminate;
    intros H; inversion H; subst; cbn; rewrite writeNode_same; auto.
Qed.

Lemma WriteConfig_returns h c w :
  exists err w', WriteConfig h c w = (Ret (setVersion version c, err), w').
Proof.
  rewrite WriteConfig_run. cbv zeta.
  destruct (files w (configLocation h)); try destruct (diskFull w); eauto.
Qed.

Lemma readConfig_document h w c :
  files w (configLocation h) = File (Document (encodeAuthContext c)) ->
  fst (readConfig h w) = Ret (Some (coerced c), None).
Proof.
  intros H. rewrite readConfig_run. cbv zeta. rewrite H, decode_encode. reflexivity.
Qed.

(** C10. Every save sets the Version of the value it is handed to
    "v0alpha0", whatever the caller put there and whether or not the write
    succeeds; any document found at the location after a save, the one of
    a sign-out included, carries "version": "v0alpha0". *)
Theorem WriteConfig_stamps_version (h : Auth) (c : AuthContext) (w : World) :
  (exists err w',
      WriteConfig h c w = (Ret (setVersion "v0alpha0" c, err), w')
      /\ Version (setVersion "v0alpha0" c) = "v0alpha0")
  /\ (forall d,
        files (snd (WriteConfig h c w)) (configLocation h) = File (Document d) ->
        gjson.Get d ["version"] = Some (JString "v0alpha0"))
  /\ (forall d,
        files (snd (SignOut h w)) (configLocation h) = File (Document d) ->
        gjson.Get d ["version"] = Some (JString "v0alpha0")).
Proof.
  split; [| split].
  - destruct (WriteConfig_returns h c w) as (err & w' & E). eauto.
  - intros d H. apply WriteConfig_document in H as [-> _]. reflexivity.
  - intros d. unfold SignOut. run.
    destruct (WriteConfig h zeroAuthContext w) as [[r|why] w'] eqn:E; cbn; intros H.
    + replace w' with (snd (WriteConfig h zeroAuthContext w)) in H by now rewrite E.
      apply WriteConfig_document in H as [-> _]. reflexivity.
    + destruct (WriteConfig_returns h zeroAuthContext w) as (err & w2 & E2). congruence.
Qed.

Lemma SignOut_run h w :
  SignOut h w =
    (match fst (WriteConfig h zeroAuthContext w) with
     | Ret r => Ret (snd r)
     | Stop why => Stop why
     end, snd (WriteConfig h zeroAuthContext w)).
Proof.
  unfold SignOut. run. destruct (WriteConfig h zeroAuthContext w) as [[r|why] w']; reflexivity.
Qed.

Lemma WriteConfig_trace h c w :
  exists evs, trace (snd (WriteConfig h c w)) = (trace w ++ evs)%list /\ quiet evs = true.
Proof.
  rewrite WriteConfig_run. cbv zeta.
  destruct (files w (configLocation h)); try destruct (diskFull w); cbn;
    rewrite <- ?app_assoc; eexists; split; try reflexivity; reflexivity.
Qed.

(** C4 (as the code has it). From any state of the disk, sign-out makes no
    call to the identity API, and when its write succeeds the persisted
    AuthContext is the zero value with Version "v0alpha0". *)
Theorem SignOut_persists_stamped_zero (h : Auth) (w : World) :
  exists err w' evs,
    SignOut h w = (Ret err, w')
    /\ trace w' = (trace w ++ evs)%list /\ quiet evs = true
    /\ match err with
       | None =>
           fst (readConfig h w') = Ret (Some (setVersion "v0alpha0" zeroAuthContext), None)
       | Some _ => True
       end.
Proof.
  rewrite SignOut_run.
  destruct (WriteConfig_trace h zeroAuthContext w) as (evs & Ht & Hq).
  destruct (WriteConfig h zeroAuthContext w) as [r w'] eqn:E.
  destruct (WriteConfig_returns h zeroAuthContext w) as (err & w2 & E2).
  rewrite E in E2. inversion E2; subst. cbn in *.
  exists err, w2, evs. repeat split; auto.
  destruct err; auto.
  apply WriteConfig_ok in E as [_ Hf].
  now rewrite (readConfig_document _ _ _ Hf).
Qed.

(** C4 fails as stated: after a sign-out on an empty disk the persisted
    context has Version "v0alpha0" and is not the zero value. *)
Lemma SignOut_not_zero :
  exists w' c,
    SignOut home emptyWorld = (Ret None, w')
    /\ fst (readConfig home w') = Ret (Some c, None)
    /\ Version c = "v0alpha0"
    /\ c <> zeroAuthContext.
Proof.
  eexists. eexists. split; [reflexivity|]. split; [vm_compute; reflexivity|].
  split; [reflexivity | discriminate].
Qed.

(** C5 fails as stated: a context saved with an empty Version loads with
    Version "v0alpha0". *)
Lemma save_load_changes_version :
  exists c' w' loaded,
    WriteConfig home tok1 emptyWorld = (Ret (c', None), w')
    /\ fst (readConfig home w') = Ret (Some loaded, None)
    /\ Version loaded = "v0alpha0"
    /\ loaded <> tok1.
Proof.
  eexists. eexists. eexists. split; [reflexivity|]. split; [vm_compute; reflexivity|].
  split; [reflexivity | discriminate].
Qed.

(** C5 (as the code has it). For a value whose strings are valid UTF-8, a
    successful save followed by a load of the same location yields the
    saved value with Version "v0alpha0", which is what the caller's value
    holds after the save; it is the value handed in when that already had
    this version. *)
Theorem save_load_round_trip (h : Auth) (c c' : AuthContext) (w w' : World) :
  validStrings c = true ->
  WriteConfig h c w = (Ret (c', None), w') ->
  c' = setVersion "v0alpha0" c
  /\ fst (readConfig h w') = Ret (Some c', None)
  /\ (Version c = "v0alpha0" -> fst (readConfig h w') = Ret (Some c, None)).
Proof.
  intros Hv E. apply WriteConfig_ok in E as [-> Hf].
  assert (R : fst (readConfig h w') = Ret (Some (setVersion version c), None)).
  { rewrite (readConfig_document _ _ _ Hf). now rewrite coerced_stamped. }
  repeat split; auto.
  intros Hver. rewrite R. destruct c; cbn in *; subst; reflexivity.
Qed.

(** C5 (as the code has it) on a signed-in context without a version. *)
Lemma save_load_round_trip_witness :
  exists w',
    WriteConfig home tok1 emptyWorld = (Ret (setVersion "v0alpha0" tok1, None), w')
    /\ fst (readConfig home w') = Ret (Some (setVersion "v0alpha0" tok1), None).
Proof.
  eexists. split; [reflexivity|].
  apply (save_load_round_trip home tok1 _ emptyWorld _); reflexivity.
Defined.

Lemma saveError_good saved field :
  goodSaved saved -> goodSaved (saveError saved (UnmarshalTypeError field)).
Proof. destruct saved; cbn; auto. Qed.

Lemma decodeString_good field v old saved :
  goodSaved saved -> goodSaved (snd (decodeString field v old saved)).
Proof. destruct v; cbn; auto using saveError_good. Qed.

Lemma decodeUUID_good field v old saved :
  goodSaved saved -> goodOut (decodeUUID field v old saved).
Proof.
  destruct v; cbn; auto using saveError_good.
  destruct (uuid.FromString s); cbn; auto.
Qed.

Section DecodeGood.
Context {T : Type}.
Variable step : string -> Json -> T -> option error -> error + (T * option error).
Hypothesis step_good :
  forall k v t saved, goodSaved saved -> goodOut (step k v t saved).

Lemma decodeMembers_good ms : forall t saved,
  goodSaved saved -> goodOut (decodeMembers step ms t saved).
Proof.
  induction ms as [|[k v] ms IH]; intros t saved H; cbn; auto.
  specialize (step_good k v t saved H).
  destruct (step k v t saved) as [e|[t' saved']]; cbn in *; auto.
Qed.

Lemma decodeStruct_good field v t saved :
  goodSaved saved -> goodOut (decodeStruct step field v t saved).
Proof.
  destruct v; cbn; auto using saveError_good, decodeMembers_good.
Qed.
End DecodeGood.

Lemma decodeIdentityMember_good k v i saved :
  goodSaved saved -> goodOut (decodeIdentityMember k v i saved).
Proof.
  intros H. unfold decodeIdentityMember.
  destruct (findField identityFields k) as [[]|]; cbn; auto.
  - pose proof (decodeUUID_good "ID" v (ID i) saved H) as G.
    destruct (decodeUUID "ID" v (ID i) saved) as [e|[u s]]; cbn in *; auto.
  - pose proof (decodeString_good "email" v (Email i) saved H) as G.
    destruct (decodeString "email" v (Email i) saved); cbn in *; auto.
Qed.

Lemma decodeContextMember_good k v c saved :
  goodSaved saved -> goodOut (decodeContextMember k v c saved).
Proof.
  intros H. unfold decodeContextMember.
  destruct (findField contextFields k) as [[]|]; cbn; auto.
  - pose proof (decodeString_good "version" v (Version c) saved H) as G.
    destruct (decodeString "version" v (Version c) saved); cbn in *; auto.
  - pose proof (decodeString_good "session_token" v (SessionToken c) saved H) as G.
    destruct (decodeString "session_token" v (SessionToken c) saved); cbn in *; auto.
  - pose proof (decodeUUID_good "selected_project" v (SelectedProject c) saved H) as G.
    destruct (decodeUUID "selected_project" v (SelectedProject c) saved)
      as [e|[u s]]; cbn in *; auto.
  - pose proof (decodeStruct_good decodeIdentityMember decodeIdentityMember_good
                  "session_identity_traits" v (IdentityTraits c) saved H) as G.
    destruct (decodeStruct decodeIdentityMember "session_identity_traits" v
                (IdentityTraits c) saved) as [e|[u s]]; cbn in *; auto.
Qed.

Lemma decodeAuthContext_error d e :
  decodeAuthContext d = inl e -> Is_ErrNoConfig e = false.
Proof.
  destruct d as [| |j]; cbn.
  - intros H; inversion H; reflexivity.
  - intros H; inversion H; reflexivity.
  - pose proof (decodeStruct_good decodeContextMember decodeContextMember_good
                  "AuthContext" j zeroAuthContext None I) as G.
    destruct (decodeStruct decodeContextMember "AuthContext" j zeroAuthContext None)
      as [e'|[c [e'|]]]; cbn in *; intros H; inversion H; subst; auto.
Qed.

Lemma saveError_kept saved e : saveError saved e <> None.
Proof. destruct saved; cbn; congruence. Qed.

Lemma decodeString_kept field v old saved :
  saved <> None -> snd (decodeString field v old saved) <> None.
Proof. destruct v; cbn; auto using saveError_kept. Qed.

Lemma decodeUUID_kept field v old saved :
  saved <> None -> kept (decodeUUID field v old saved).
Proof.
  destruct v; cbn; auto using saveError_kept.
  destruct (uuid.FromString s); cbn; auto.
Qed.

Section DecodeKept.
Context {T : Type}.
Variable step : string -> Json -> T -> option error -> error + (T * option error).
Hypothesis step_kept : forall k v t saved, saved <> None -> kept (step k v t saved).

Lemma decodeMembers_kept ms : forall t saved,
  saved <> None -> kept (decodeMembers step ms t saved).
Proof.
  induction ms as [|[k v] ms IH]; intros t saved H; cbn; auto.
  specialize (step_kept k v t saved H).
  destruct (step k v t saved) as [e|[t' saved']]; cbn in *; auto.
Qed.

Lemma decodeStruct_kept field v t saved :
  saved <> None -> kept (decodeStruct step field v t saved).
Proof.
  destruct v; cbn; auto using saveError_kept, decodeMembers_kept.
Qed.

Lemma decodeMembers_app a b : forall t saved,
  decodeMembers step (a ++ b) t saved
  = match decodeMembers step a t saved with
    | inl e => inl e
    | inr (t', saved') => decodeMembers step b t' saved'
    end.
Proof.
  induction a as [|[k v] a IH]; intros t saved; cbn; [reflexivity|].
  destruct (step k v t saved) as [e|[t' saved']]; auto.
Qed.
End DecodeKept.

Lemma decodeIdentityMember_kept k v i saved :
  saved <> None -> kept (decodeIdentityMember k v i saved).
Proof.
  intros H. unfold decodeIdentityMember.
  destruct (findField identityFields k) as [[]|]; cbn; auto.
  - pose proof (decodeUUID_kept "ID" v (ID i) saved H) as G.
    destruct (decodeUUID "ID" v (ID i) saved) as [e|[u s]]; cbn in *; auto.
  - pose proof (decodeString_kept "email" v (Email i) saved H) as G.
    destruct (decodeString "email" v (Email i) saved); cbn in *; auto.
Qed.

Lemma decodeContextMember_kept k v c saved :
  saved <> None -> kept (decodeContextMember k v c saved).
Proof.
  intros H. unfold decodeContextMember.
  destruct (findField contextFields k) as [[]|]; cbn; auto.
  - pose proof (decodeString_kept "version" v (Version c) saved H) as G.
    destruct (decodeString "version" v (Version c) saved); cbn in *; auto.
  - pose proof (decodeString_kept "session_token" v (SessionToken c) saved H) as G.
    destruct (decodeString "session_token" v (SessionToken c) saved); cbn in *; auto.
  - pose proof (decodeUUID_kept "selected_project" v (SelectedProject c) saved H) as G.
    destruct (decodeUUID "selected_project" v (SelectedProject c) saved)
      as [e|[u s]]; cbn in *; auto.
  - pose proof (decodeStruct_kept decodeIdentityMember decodeIdentityMember_kept
                  "session_identity_traits" v (IdentityTraits c) saved H) as G.
    destruct (decodeStruct decodeIdentityMember "session_identity_traits" v
                (IdentityTraits c) saved) as [e|[u s]]; cbn in *; auto.
Qed.

(** A member the decoder cannot store makes the whole decode fail,
    whatever comes before and after it. *)
Lemma bad_member_fails a k v b :
  (forall c saved, kept (decodeContextMember k v c saved)) ->
  exists e, decodeAuthContext (Document (JObject (a ++ (k, v) :: b))) = inl e.
Proof.
  intros Hbad. unfold decodeAuthContext, decodeStruct.
  rewrite decodeMembers_app.
  destruct (decodeMembers decodeContextMember a zeroAuthContext None)
    as [e|[c saved]]; [eauto|].
  cbn [decodeMembers]. specialize (Hbad c saved).
  destruct (decodeContextMember k v c saved) as [e|[c' saved']]; [eauto|].
  cbn in Hbad.
  pose proof (decodeMembers_kept decodeContextMember decodeContextMember_kept
                b c' saved' Hbad) as G.
  destruct (decodeMembers decodeContextMember b c' saved') as [e|[c'' [e|]]];
    cbn in G; eauto. congruence.
Qed.

Lemma readConfig_decode_failure h w d e :
  files w (configLocation h) = File d ->
  decodeAuthContext d = inl e ->
  failsOtherwise h w.
Proof.
  intros F D. unfold failsOtherwise. rewrite readConfig_run. cbv zeta. cbn [fst].
  rewrite F, D. eexists. split; [reflexivity|]. cbn.
  eapply decodeAuthContext_error; eauto.
Qed.

Lemma FromString_length s :
  ~ In (String.length s) [32; 34; 36; 38; 41; 45] -> uuid.FromString s = None.
Proof.
  unfold uuid.FromString. generalize (String.length s) as n. intros n H.
  do 46 (destruct n as [|n]; [try reflexivity; exfalso; apply H; cbn; tauto|]).
  reflexivity.
Qed.

(** C6. With no file at the location, the load answers the NoConfig
    sentinel (with an empty context). Every other failure yields an error
    that is not the sentinel, and no context: a file that may not be
    opened, a directory that cannot be read, an empty or malformed file,
    a document that is no object, a member of the wrong kind for its
    field, a selected project that is no UUID. And whatever error a load
    of an existing node answers, it is not the sentinel. *)
Theorem readConfig_NoConfig (h : Auth) (w : World) :
  (files w (configLocation h) = Absent ->
   fst (readConfig h w) = Ret (Some zeroAuthContext, Some ErrNoConfig))
  /\ (files w (configLocation h) <> Absent ->
      forall c err,
        fst (readConfig h w) = Ret (c, Some err) ->
        c = None /\ Is_ErrNoConfig err = false)
  /\ (files w (configLocation h) = Denied -> failsOtherwise h w)
  /\ (files w (configLocation h) = Directory -> failsOtherwise h w)
  /\ (files w (configLocation h) = File Blank -> failsOtherwise h w)
  /\ (files w (configLocation h) = File Malformed -> failsOtherwise h w)
  /\ (forall j,
        files w (configLocation h) = File (Document j) ->
        notObject j = true -> failsOtherwise h w)
  /\ (forall a k v b,
        files w (configLocation h) = File (Document (JObject (a ++ (k, v) :: b))) ->
        In k ["version"; "session_token"; "selected_project"; "session_identity_traits"] ->
        takes k v = false -> failsOtherwise h w)
  /\ (forall a s b,
        files w (configLocation h)
        = File (Document (JObject (a ++ ("selected_project", JString s) :: b))) ->
        ~ In (String.length s) [32; 34; 36; 38; 41; 45] ->
        failsOtherwise h w).
Proof.
  split; [| split; [| split; [| split; [| split; [| split; [| split; [| split]]]]]]].
  - rewrite readConfig_run. cbv zeta. cbn [fst]. intros ->. reflexivity.
  - rewrite readConfig_run. cbv zeta. cbn [fst]. intros Hn c err.
    destruct (files w (configLocation h)) as [| | |d]; try congruence.
    + intros H; inversion H; auto.
    + intros H; inversion H; auto.
    + destruct (decodeAuthContext d) as [e|c'] eqn:E.
      * intros H; inversion H; subst. split; auto. cbn.
        eapply decodeAuthContext_error; eauto.
      * intros H; inversion H.
  - intros F. unfold failsOtherwise. rewrite readConfig_run. cbv zeta. cbn [fst].
    rewrite F. eexists. split; reflexivity.
  - intros F. unfold failsOtherwise. rewrite readConfig_run. cbv zeta. cbn [fst].
    rewrite F. eexists. split; reflexivity.
  - intros F. eapply readConfig_decode_failure; [exact F | reflexivity].
  - intros F. eapply readConfig_decode_failure; [exact F | reflexivity].
  - intros j F N. destruct j; try discriminate;
      (eapply readConfig_decode_failure; [exact F | reflexivity]).
  - intros a k v b F Hk Hv.
    destruct (bad_member_fails a k v b) as (e & E);
      [| eapply readConfig_decode_failure; eassumption].
    intros c saved. unfold decodeContextMember.
    cbn in Hk. destruct Hk as [<-|[<-|[<-|[<-|[]]]]];
      cbn [findField assoc contextFields String.eqb Ascii.eqb Bool.eqb];
      destruct v; try discriminate; cbn; apply saveError_kept.
  - intros a s0 b F Hs.
    destruct (bad_member_fails a "selected_project" (JString s0) b) as (e & E);
      [| eapply readConfig_decode_failure; eassumption].
    intros c saved. unfold decodeContextMember.
    cbn [findField assoc contextFields String.eqb Ascii.eqb Bool.eqb].
    unfold decodeUUID. rewrite (FromString_length _ Hs). exact I.
Qed.

(** C6 on a machine without a config file, and on one whose config file
    holds a number for the session token. *)
Lemma readConfig_NoConfig_witness :
  fst (readConfig home emptyWorld) = Ret (Some zeroAuthContext, Some ErrNoConfig)
  /\ failsOtherwise home numberToken.
Proof.
  split.
  - apply (readConfig_NoConfig home emptyWorld). reflexivity.
  - apply (proj1 (proj2 (proj2 (proj2 (proj2 (proj2 (proj2 (proj2
             (readConfig_NoConfig home numberToken))))))))
             [("version", JString "v0alpha0")] "session_token" (JNumber "12") []);
      [reflexivity | cbn; tauto | reflexivity].
Defined.

(* ------------------------------------------------------------------ *)
(** ** The loops of the registration and login paths (C9, C1, C2, C3) *)

Lemma scanNodes_fold nodes : forall foundTOTP foundLookup,
  fold_left
    (fun (found : bool * bool) (n : UiNode) =>
       let (foundTOTP, foundLookup) := found in
       if String.eqb (Group n) "totp" then (true, foundLookup)
       else if String.eqb (Group n) "lookup_secret" then (foundTOTP, true)
       else (foundTOTP, foundLookup))
    nodes (foundTOTP, foundLookup)
  = (foundTOTP || existsb (fun n => String.eqb (Group n) "totp") nodes,
     foundLookup || existsb (fun n => String.eqb (Group n) "lookup_secret") nodes).
Proof.
  induction nodes as [|n nodes IH]; intros a b; cbn [fold_left existsb].
  - now rewrite !orb_false_r.
  - destruct (String.eqb (Group n) "totp") eqn:Et.
    + apply String.eqb_eq in Et. rewrite IH, Et. cbn.
      now rewrite orb_true_r.
    + destruct (String.eqb (Group n) "lookup_secret"); rewrite IH; cbn;
        now rewrite ?orb_true_r.
Qed.

Lemma scanNodes_hasGroup flow :
  scanNodes (Nodes (Ui flow)) = (hasGroup "totp" flow, hasGroup "lookup_secret" flow).
Proof. unfold scanNodes. now rewrite scanNodes_fold. Qed.

Lemma negotiate_form tok flow method form :
  negotiate tok flow = inr (method, form) ->
  form = LoginPasswordBody [] \/ form = LoginTotpBody [].
Proof.
  unfold negotiate. destruct (nonEmpty tok).
  - destruct (scanNodes (Nodes (Ui flow))) as [[] []]; cbn;
      intros H; inversion H; auto.
  - intros H; inversion H; auto.
Qed.

Lemma retryRegistration_attempt n flow (isRetry : bool) (w : World) :
  let w0 := if isRetry then say registrationNotice w else w in
  let w1 := logged (EvRender (Ui flow) "password" (RegistrationPasswordBody [])) w0 in
  retryRegistration (S n) flow isRetry w =
    match forms w with
    | [] => (Ret (inl (New "EOF")), w1)
    | inl e :: rest => (Ret (inl e), withForms rest w1)
    | inr v :: rest =>
        let w2 := withForms rest w1 in
        let w3 := logged (EvSubmitRegistration (Id flow)
                            (mkRegistrationFlowBody (Some v))) w2 in
        match registrations w with
        | [] => (Ret (inl (WithStack unreachable)), w3)
        | inr signup :: rest' => (Ret (inr signup), withRegistrations rest' w3)
        | inl err :: rest' =>
            match registrationModel err with
            | Some m => retryRegistration n m true (withRegistrations rest' w3)
            | None => (Ret (inl (WithStack err)), withRegistrations rest' w3)
            end
        end
    end.
Proof.
  cbn [retryRegistration].
  unfold renderForm, SubmitSelfServiceRegistrationFlow, say, logged. 
  unfold bind, ret, stop, log, Fprintf.
  destruct isRetry; cbn;
    (destruct (forms w) as [|[e|v] rest]; cbn; try reflexivity;
     destruct (registrations w) as [|[err|s] rest']; cbn; try reflexivity;
     destruct (registrationModel err); reflexivity).
Qed.

Lemma retryLogin_attempt n flow (isRetry : bool) tok (w : World) :
  let w0 := if isRetry then say loginNotice w else w in
  retryLogin (S n) flow isRetry tok w =
    match negotiate tok flow with
    | inl err => (Ret (inl err), w0)
    | inr (method, form) =>
        let w1 := logged (EvRender (Ui flow) method form) w0 in
        match forms w with
        | [] => (Ret (inl (New "EOF")), w1)
        | inl e :: rest => (Ret (inl e), withForms rest w1)
        | inr v :: rest =>
            let w2 := withForms rest w1 in
            let w3 := logged (EvSubmitLogin tok (Id flow) (bodyOf (fill form v))) w2 in
            match logins w with
            | [] => (Ret (inl (WithStack unreachable)), w3)
            | inr login :: rest' => (Ret (inr login), withLogins rest' w3)
            | inl err :: rest' =>
                match loginModel err with
                | Some m => retryLogin n m true tok (withLogins rest' w3)
                | None => (Ret (inl (WithStack err)), withLogins rest' w3)
                end
            end
        end
    end.
Proof.
  cbn [retryLogin].
  destruct (negotiate tok flow) as [err|[method form]] eqn:E.
  - unfold bind, ret, stop, log, Fprintf, say. destruct isRetry; reflexivity.
  - unfold renderForm, SubmitSelfServiceLoginFlow, say, logged. 
    unfold bind, ret, stop, log, Fprintf.
    destruct (negotiate_form _ _ _ _ E) as [-> | ->];
    destruct isRetry; cbn;
    (destruct (forms w) as [|[e|v] rest]; cbn; try reflexivity;
     destruct (logins w) as [|[err|s] rest']; cbn; try reflexivity;
     destruct (loginModel err); reflexivity).
Qed.

Lemma signin_pass fuel h c tok (w : World) :
  let w1 := logged (EvInitLogin tok (if nonEmpty tok then "aal2" else "")) w in
  signin (S fuel) h c tok w =
    match loginFlows w with
    | [] => (Ret (None, Some unreachable), w1)
    | inl err :: rest => (Ret (None, Some err), withLoginFlows rest w1)
    | inr flow :: rest =>
        match retryLogin (S fuel) flow false tok (withLoginFlows rest w1) with
        | (Stop why, w2) => (Stop why, w2)
        | (Ret (inl err), w2) => (Ret (None, Some err), w2)
        | (Ret (inr login), w2) =>
            match successful_SessionToken login with
            | None => (Stop nilDereference, w2)
            | Some token =>
                let tok' := Coalesce [token; tok] in
                let w3 := logged (EvToSession tok') w2 in
                match sessions w2 with
                | [] => (Ret (None, Some unreachable), w3)
                | inr sess :: rest' =>
                    (Ret (sessionToContext sess tok'), withSessions rest' w3)
                | inl err :: rest' =>
                    if aal2Required err
                    then signin fuel h c tok' (withSessions rest' w3)
                    else (Ret (None, Some err), withSessions rest' w3)
                end
            end
        end
    end.
Proof.
  cbn [signin].
  unfold InitializeSelfServiceLoginFlowWithoutBrowser, ToSession, logged, aal2Required.
  unfold bind, ret, stop, log. cbn -[retryLogin].
  destruct (loginFlows w) as [|[err|flow] rest]; cbn -[retryLogin]; try reflexivity.
  match goal with
  | |- context [retryLogin ?a ?b ?c ?d ?e] =>
      destruct (retryLogin a b c d e) as [[[err|login]|why] w2]
  end; try reflexivity.
  destruct (successful_SessionToken login) as [token|]; try reflexivity.
  cbn. destruct (sessions w2) as [|[err|sess] rest']; cbn; try reflexivity.
  destruct (errorId err) as [id|]; try reflexivity.
  destruct (String.eqb id "session_aal2_required"); reflexivity.
Qed.

Lemma retryLogin_no_panic fuel : forall flow isRetry tok w msg,
  fst (retryLogin fuel flow isRetry tok w) <> Stop (Panicked msg).
Proof.
  induction fuel as [|n IH]; intros flow isRetry tok w msg.
  - cbn. discriminate.
  - rewrite retryLogin_attempt. cbv zeta.
    destruct (negotiate tok flow) as [err|[method form]]; [cbn; discriminate|].
    destruct (forms w) as [|[e|v] rest]; try (cbn; discriminate).
    destruct (logins w) as [|[err|s] rest']; try (cbn; discriminate).
    destruct (loginModel err); [apply IH | cbn; discriminate].
Qed.

Lemma signin_no_unexpected_type fuel : forall h c tok w,
  fst (signin fuel h c tok w) <> Stop (Panicked "unexpected type").
Proof.
  induction fuel as [|n IH]; intros h c tok w.
  - cbn. discriminate.
  - rewrite signin_pass. cbv zeta.
    destruct (loginFlows w) as [|[err|flow] rest]; try (cbn; discriminate).
    match goal with
    | |- context [retryLogin ?a ?b ?c ?d ?e] =>
        pose proof (retryLogin_no_panic a b c d e "unexpected type") as NP;
        destruct (retryLogin a b c d e) as [[[err|login]|why] w2]
    end; try (cbn; discriminate);
      [| cbn in *; intros H; apply NP; inversion H; reflexivity].
    destruct (successful_SessionToken login);
      [| cbn; unfold nilDereference; intros H; inversion H].
    destruct (sessions w2) as [|[err|sess] rest']; try (cbn; discriminate).
    destruct (aal2Required err); [apply IH | cbn; discriminate].
Qed.

(** C9. The default branch of the type switch in the login path is never
    taken: the form chosen at the head of an attempt is the password body or
    the TOTP body, rendering keeps it so, and neither the loop nor [signin]
    ever stops with the panic of that branch. *)
Theorem type_switch_default_unreachable :
  (forall tok flow method form v,
      negotiate tok flow = inr (method, form) ->
      fill form v = LoginPasswordBody v \/ fill form v = LoginTotpBody v)
  /\ (forall fuel flow isRetry tok w msg,
        fst (retryLogin fuel flow isRetry tok w) <> Stop (Panicked msg))
  /\ (forall fuel h c tok w,
        fst (signin fuel h c tok w) <> Stop (Panicked "unexpected type")).
Proof.
  split; [| split].
  - intros tok flow method form v E.
    destruct (negotiate_form _ _ _ _ E) as [-> | ->]; cbn; auto.
  - intros. apply retryLogin_no_panic.
  - intros. apply signin_no_unexpected_type.
Qed.

Lemma submissions_app a b : submissions (a ++ b) = (submissions a ++ submissions b)%list.
Proof. apply flat_map_app. Qed.
Lemma renderings_app a b : renderings (a ++ b) = (renderings a ++ renderings b)%list.
Proof. apply flat_map_app. Qed.
Lemma initLogins_app a b : initLogins (a ++ b) = (initLogins a ++ initLogins b)%list.
Proof. apply flat_map_app. Qed.

(** A loop only appends to the trace, and asks for no new flow. *)
Lemma retryLogin_extends fuel : forall flow isRetry tok w,
  exists evs,
    trace (snd (retryLogin fuel flow isRetry tok w)) = (trace w ++ evs)%list
    /\ initLogins evs = [].
Proof.
  induction fuel as [|n IH]; intros flow isRetry tok w.
  - exists []. cbn. now rewrite app_nil_r.
  - rewrite retryLogin_attempt. cbv zeta.
    remember (if isRetry then say loginNotice w else w) as w0 eqn:W0.
    assert (B : exists e0, trace w0 = (trace w ++ e0)%list /\ initLogins e0 = []).
    { subst w0. destruct isRetry; cbn; [eexists; split; reflexivity|].
      exists []. now rewrite app_nil_r. }
    clear W0. destruct B as (e0 & B & B0).
    destruct (negotiate tok flow) as [nerr|[method form]]; [cbn; eauto|].
    destruct (forms w) as [|[e|v] rest];
      try (cbn; rewrite B, <- app_assoc; eexists; split;
           [reflexivity | now rewrite initLogins_app, B0]).
    destruct (logins w) as [|[err|s] rest'];
      try (cbn; rewrite B, <- !app_assoc; eexists; split;
           [reflexivity | now rewrite initLogins_app, B0]).
    destruct (loginModel err);
      try (cbn; rewrite B, <- !app_assoc; eexists; split;
           [reflexivity | now rewrite initLogins_app, B0]).
    match goal with
    | |- context [retryLogin n ?a ?b ?c ?d] =>
        destruct (IH a b c d) as (evs & E & E0); rewrite E
    end.
    cbn. rewrite B, <- !app_assoc. eexists; split; [reflexivity|].
    now rewrite !initLogins_app, B0, E0.
Qed.

(** C1. In the login path with a prior session token, the method comes
    from the groups of the flow's nodes alone: [totp] when some node has
    that group, whether or not [lookup_secret] is there too; otherwise
    [lookup_secret] when some node has that group; the form is rendered for
    that method. With neither group, sign-in fails with the
    unsupported-second-factor error: nothing is rendered or submitted. *)
Theorem step_up_negotiation (tok : string) (flow : Flow) :
  nonEmpty tok = true ->
  (hasGroup "totp" flow = true ->
   negotiate tok flow = inr ("totp", LoginTotpBody []))
  /\ (hasGroup "totp" flow = false -> hasGroup "lookup_secret" flow = true ->
      negotiate tok flow = inr ("lookup_secret", LoginPasswordBody []))
  /\ (forall method form fuel w,
        negotiate tok flow = inr (method, form) ->
        exists evs,
          trace (snd (retryLogin (S fuel) flow false tok w))
          = (trace w ++ EvRender (Ui flow) method form :: evs)%list)
  /\ (hasGroup "totp" flow = false -> hasGroup "lookup_secret" flow = false ->
      negotiate tok flow = inl unsupportedSecondFactor
      /\ (forall fuel w,
            retryLogin (S fuel) flow false tok w = (Ret (inl unsupportedSecondFactor), w))
      /\ (forall fuel h c w rest,
            loginFlows w = inr flow :: rest ->
            signin (S fuel) h c tok w
            = (Ret (None, Some unsupportedSecondFactor),
               withLoginFlows rest (logged (EvInitLogin tok "aal2") w)))).
Proof.
  intros Htok.
  assert (N : negotiate tok flow =
              if negb (hasGroup "lookup_secret" flow) && negb (hasGroup "totp" flow)
              then inl unsupportedSecondFactor
              else if hasGroup "totp" flow then inr ("totp", LoginTotpBody [])
                   else inr ("lookup_secret", LoginPasswordBody [])).
  { unfold negotiate. now rewrite Htok, scanNodes_hasGroup. }
  repeat split.
  - intros Ht. rewrite N, Ht. now rewrite andb_false_r.
  - intros Ht Hl. now rewrite N, Ht, Hl.
  - intros method form fuel w E.
    rewrite retryLogin_attempt. cbv zeta. rewrite E.
    destruct (forms w) as [|[e|v] rest]; try solve [cbn; eauto].
    destruct (logins w) as [|[err|s] rest'];
      try solve [cbn; rewrite <- app_assoc; cbn; eauto].
    destruct (loginModel err); try solve [cbn; rewrite <- app_assoc; cbn; eauto].
    match goal with
    | |- context [retryLogin fuel ?a ?b ?c ?d] =>
        destruct (retryLogin_extends fuel a b c d) as (evs & Ev & _); rewrite Ev
    end.
    cbn. rewrite <- !app_assoc. cbn. eauto.
  - now rewrite N, H, H0.
  - intros fuel w. rewrite retryLogin_attempt. cbv zeta. now rewrite N, H, H0.
  - intros fuel h c w rest Hf. rewrite signin_pass. cbv zeta. rewrite Hf, Htok.
    rewrite retryLogin_attempt. cbv zeta. now rewrite N, H, H0.
Qed.

(** C1 on a flow that offers both second factors. *)
Lemma step_up_negotiation_witness :
  negotiate "tok1" flowC = inr ("totp", LoginTotpBody []).
Proof.
  exact (proj1 (step_up_negotiation "tok1" flowC eq_refl) eq_refl).
Defined.

Lemma retryRegistration_retries flows : forall errs vals signup fuel flow0 isRetry w restF restR,
  length flows < fuel ->
  map registrationModel errs = map Some flows ->
  length vals = S (length flows) ->
  forms w = (map inr vals ++ restF)%list ->
  registrations w = (map inl errs ++ inr signup :: restR)%list ->
  exists w' evs,
    retryRegistration fuel flow0 isRetry w = (Ret (inr signup), w')
    /\ trace w' = (trace w ++ evs)%list
    /\ submissions evs = map Id (flow0 :: flows)
    /\ renderings evs = map Ui (flow0 :: flows)
    /\ forms w' = restF /\ registrations w' = restR
    /\ sessions w' = sessions w.
Proof.
  induction flows as [|m flows IH];
    intros errs vals signup fuel flow0 isRetry w restF restR Hfuel Herrs Hvals Hforms Hregs;
    (destruct fuel as [|n]; [cbn in Hfuel; lia|]);
    (destruct vals as [|v vals]; [discriminate|]);
    rewrite retryRegistration_attempt; cbv zeta; rewrite Hforms; cbn [map app].
  - destruct errs; [|discriminate]. rewrite Hregs. cbn [map app].
    destruct vals; [|discriminate].
    destruct isRetry; eexists; eexists; (split; [reflexivity|]);
      cbn; rewrite <- !app_assoc; repeat split; reflexivity.
  - destruct errs as [|err errs]; [discriminate|].
    cbn in Herrs. inversion Herrs as [[Hm Herrs']].
    rewrite Hregs. cbn [map app]. rewrite Hm.
    injection Hvals as Hvals.
    match goal with
    | |- context [retryRegistration n m true ?w1] =>
        destruct (IH errs vals signup n m true w1 restF restR)
          as (w' & evs & R & T & S1 & S2 & F & G & K);
          [cbn in Hfuel; lia | assumption | assumption | reflexivity | reflexivity |]
    end.
    destruct isRetry; exists w'; eexists; (split; [exact R|]);
      rewrite T; cbn; rewrite <- !app_assoc;
      (split; [reflexivity|]); rewrite ?submissions_app, ?renderings_app;
      cbn; rewrite S1, S2; repeat split; auto.
Qed.

Lemma retryLogin_retries flows : forall errs vals login fuel flow0 isRetry tok w restF restL,
  length flows < fuel ->
  map loginModel errs = map Some flows ->
  length vals = S (length flows) ->
  forallb (supported tok) (flow0 :: flows) = true ->
  forms w = (map inr vals ++ restF)%list ->
  logins w = (map inl errs ++ inr login :: restL)%list ->
  exists w' evs,
    retryLogin fuel flow0 isRetry tok w = (Ret (inr login), w')
    /\ trace w' = (trace w ++ evs)%list
    /\ submissions evs = map Id (flow0 :: flows)
    /\ renderings evs = map Ui (flow0 :: flows)
    /\ forms w' = restF /\ logins w' = restL
    /\ sessions w' = sessions w.
Proof.
  induction flows as [|m flows IH];
    intros errs vals login fuel flow0 isRetry tok w restF restL
           Hfuel Herrs Hvals Hsup Hforms Hlogins;
    (destruct fuel as [|n]; [cbn in Hfuel; lia|]);
    (destruct vals as [|v vals]; [discriminate|]);
    cbn [forallb] in Hsup; apply andb_prop in Hsup as [Hs0 Hsup];
    unfold supported in Hs0;
    rewrite retryLogin_attempt; cbv zeta;
    (destruct (negotiate tok flow0) as [|[method form]]; [discriminate|]);
    rewrite Hforms; cbn [map app].
  - destruct errs; [|discriminate]. rewrite Hlogins. cbn [map app].
    destruct vals; [|discriminate].
    destruct isRetry; eexists; eexists; (split; [reflexivity|]);
      cbn; rewrite <- !app_assoc; repeat split; reflexivity.
  - destruct errs as [|err errs]; [discriminate|].
    cbn in Herrs. inversion Herrs as [[Hm Herrs']].
    rewrite Hlogins. cbn [map app]. rewrite Hm.
    injection Hvals as Hvals.
    match goal with
    | |- context [retryLogin n m true tok ?w1] =>
        destruct (IH errs vals login n m true tok w1 restF restL)
          as (w' & evs & R & T & S1 & S2 & F & G & K);
          [cbn in Hfuel; lia | assumption | assumption | assumption
           | reflexivity | reflexivity |]
    end.
    destruct isRetry; exists w'; eexists; (split; [exact R|]);
      rewrite T; cbn; rewrite <- !app_assoc;
      (split; [reflexivity|]); rewrite ?submissions_app, ?renderings_app;
      cbn; rewrite S1, S2; repeat split; auto.
Qed.

Lemma signup_pass fuel h c (w : World) :
  let w1 := logged EvInitRegistration w in
  signup fuel h c w =
    match registrationFlows w with
    | [] => (Ret (None, Some unreachable), w1)
    | inl err :: rest => (Ret (None, Some err), withRegistrationFlows rest w1)
    | inr flow :: rest =>
        match retryRegistration fuel flow false (withRegistrationFlows rest w1) with
        | (Stop why, w2) => (Stop why, w2)
        | (Ret (inl err), w2) => (Ret (None, Some err), w2)
        | (Ret (inr signup), w2) =>
            match successful_SessionToken signup with
            | None => (Stop nilDereference, w2)
            | Some token =>
                let w3 := logged (EvToSession token) w2 in
                match sessions w2 with
                | [] => (Ret (None, Some unreachable), w3)
                | inl err :: rest' => (Ret (None, Some err), withSessions rest' w3)
                | inr sess :: rest' =>
                    (Ret (sessionToContext sess token), withSessions rest' w3)
                end
            end
        end
    end.
Proof.
  unfold signup, InitializeSelfServiceRegistrationFlowWithoutBrowser, ToSession, logged.
  unfold bind, ret, stop, log. cbn -[retryRegistration].
  destruct (registrationFlows w) as [|[err|flow] rest];
    cbn -[retryRegistration]; try reflexivity.
  match goal with
  | |- context [retryRegistration ?a ?b ?c ?d] =>
      destruct (retryRegistration a b c d) as [[[err|signup]|why] w2]
  end; try reflexivity.
  destruct (successful_SessionToken signup) as [token|]; try reflexivity.
  cbn. destruct (sessions w2) as [|[err|sess] rest']; reflexivity.
Qed.

(** A whole sign-up, and a whole pass of the login path whose exchange
    succeeds: the submissions are those of the loop. *)
Lemma signup_retries flows errs vals signup_ token sess fuel h c flow0 w
      restI restF restR restS :
  length flows < fuel ->
  map registrationModel errs = map Some flows ->
  length vals = S (length flows) ->
  registrationFlows w = inr flow0 :: restI ->
  forms w = (map inr vals ++ restF)%list ->
  registrations w = (map inl errs ++ inr signup_ :: restR)%list ->
  successful_SessionToken signup_ = Some token ->
  sessions w = inr sess :: restS ->
  exists w' evs,
    signup fuel h c w = (Ret (sessionToContext sess token), w')
    /\ trace w' = (trace w ++ evs)%list
    /\ submissions evs = map Id (flow0 :: flows)
    /\ renderings evs = map Ui (flow0 :: flows).
Proof.
  intros Hfuel Herrs Hvals Hi Hf Hr Ht Hs.
  rewrite signup_pass. cbv zeta. rewrite Hi.
  match goal with
  | |- context [retryRegistration fuel flow0 false ?w1] =>
      destruct (retryRegistration_retries flows errs vals signup_ fuel flow0 false w1
                  restF restR Hfuel Herrs Hvals Hf Hr)
        as (w2 & evs & R & T & S1 & S2 & _ & _ & K)
  end.
  rewrite R, Ht. cbn in K. rewrite K, Hs.
  eexists. eexists. split; [reflexivity|].
  cbn. rewrite T. cbn. rewrite <- !app_assoc. split; [reflexivity|].
  cbn. rewrite submissions_app, renderings_app, S1, S2. cbn.
  now rewrite !app_nil_r.
Qed.

Lemma signin_retries flows errs vals login token sess fuel h c tok flow0 w
      restI restF restL restS :
  length flows < fuel ->
  map loginModel errs = map Some flows ->
  length vals = S (length flows) ->
  forallb (supported tok) (flow0 :: flows) = true ->
  loginFlows w = inr flow0 :: restI ->
  forms w = (map inr vals ++ restF)%list ->
  logins w = (map inl errs ++ inr login :: restL)%list ->
  successful_SessionToken login = Some token ->
  sessions w = inr sess :: restS ->
  exists w' evs,
    signin fuel h c tok w = (Ret (sessionToContext sess (Coalesce [token; tok])), w')
    /\ trace w' = (trace w ++ evs)%list
    /\ submissions evs = map Id (flow0 :: flows)
    /\ renderings evs = map Ui (flow0 :: flows).
Proof.
  intros Hfuel Herrs Hvals Hsup Hi Hf Hl Ht Hs.
  destruct fuel as [|n]; [cbn in Hfuel; lia|].
  rewrite signin_pass. cbv zeta. rewrite Hi.
  match goal with
  | |- context [retryLogin (S n) flow0 false tok ?w1] =>
      destruct (retryLogin_retries flows errs vals login (S n) flow0 false tok w1
                  restF restL Hfuel Herrs Hvals Hsup Hf Hl)
        as (w2 & evs & R & T & S1 & S2 & _ & _ & K)
  end.
  rewrite R, Ht. cbn in K. rewrite K, Hs.
  eexists. eexists. split; [reflexivity|].
  cbn. rewrite T. cbn. rewrite <- !app_assoc. split; [reflexivity|].
  cbn. rewrite submissions_app, renderings_app, S1, S2. cbn.
  now rewrite !app_nil_r.
Qed.

Lemma registrationModel_retries reps :
  map registrationModel (registrationRetries reps) = map Some (map snd reps).
Proof.
  induction reps as [|[[body how] m] reps IH]; [reflexivity|].
  unfold registrationRetries in *. cbn [map fst snd]. rewrite IH. now destruct how.
Qed.

Lemma loginModel_retries reps :
  map loginModel (loginRetries reps) = map Some (map snd reps).
Proof.
  induction reps as [|[[body how] m] reps IH]; [reflexivity|].
  unfold loginRetries in *. cbn [map fst snd]. rewrite IH. now destruct how.
Qed.

Lemma registrationModel_other err :
  (forall body how m, err <> registrationRetry body how m) ->
  registrationModel err = None.
Proof.
  intros H. destruct err as [| | | | | | | |[body mo]|]; try reflexivity.
  destruct mo; try reflexivity; exfalso.
  - apply (H body ByPointer m). reflexivity.
  - apply (H body ByValue m). reflexivity.
Qed.

Lemma loginModel_other err :
  (forall body how m, err <> loginRetry body how m) ->
  loginModel err = None.
Proof.
  intros H. destruct err as [| | | | | | | |[body mo]|]; try reflexivity.
  destruct mo; try reflexivity; exfalso.
  - apply (H body ByPointer m). reflexivity.
  - apply (H body ByValue m). reflexivity.
Qed.

(** The context of a session is always made, with the token handed in. *)
Lemma sessionToContext_made sess token :
  exists ctx, sessionToContext sess token = (Some ctx, None) /\ SessionToken ctx = token.
Proof. unfold sessionToContext, getField. eexists. split; reflexivity. Qed.

(** C2. When the submissions of a sign-up, or of a pass of the login path,
    fail N times with a structured error that carries a replacement flow
    (held as a pointer or as a value) and then succeed, the sign-up or
    sign-in succeeds after exactly N+1 submissions: the first with the
    original flow's identifier, each retry with the identifier of the
    replacement just received, after rendering that replacement's UI
    description. A submission error that is no structured error with a
    flow of the path ends the loop as a fatal error, which is what the
    caller gets. *)
Theorem retry_on_replacement_flow :
  (* registration: N replacement flows, then success *)
  (forall reps vals signup_ token sess fuel h c flow0 w restI restF restR restS,
      length reps < fuel ->
      length vals = S (length reps) ->
      registrationFlows w = inr flow0 :: restI ->
      forms w = (map inr vals ++ restF)%list ->
      registrations w
      = (map inl (registrationRetries reps) ++ inr signup_ :: restR)%list ->
      successful_SessionToken signup_ = Some token ->
      sessions w = inr sess :: restS ->
      exists w' evs ctx,
        signup fuel h c w = (Ret (Some ctx, None), w')
        /\ SessionToken ctx = token
        /\ sessionToContext sess token = (Some ctx, None)
        /\ trace w' = (trace w ++ evs)%list
        /\ length (submissions evs) = S (length reps)
        /\ submissions evs = map Id (flow0 :: map snd reps)
        /\ renderings evs = map Ui (flow0 :: map snd reps))
  (* one pass of the login path: the same *)
  /\ (forall reps vals login token sess fuel h c tok flow0 w
             restI restF restL restS,
        length reps < fuel ->
        length vals = S (length reps) ->
        forallb (supported tok) (flow0 :: map snd reps) = true ->
        loginFlows w = inr flow0 :: restI ->
        forms w = (map inr vals ++ restF)%list ->
        logins w = (map inl (loginRetries reps) ++ inr login :: restL)%list ->
        successful_SessionToken login = Some token ->
        sessions w = inr sess :: restS ->
        exists w' evs ctx,
          signin fuel h c tok w = (Ret (Some ctx, None), w')
          /\ SessionToken ctx = Coalesce [token; tok]
          /\ sessionToContext sess (Coalesce [token; tok]) = (Some ctx, None)
          /\ trace w' = (trace w ++ evs)%list
          /\ length (submissions evs) = S (length reps)
          /\ submissions evs = map Id (flow0 :: map snd reps)
          /\ renderings evs = map Ui (flow0 :: map snd reps))
  (* any other error of a submission is fatal *)
  /\ (forall fuel flow isRetry w v restF err restR,
        forms w = inr v :: restF ->
        registrations w = inl err :: restR ->
        (forall body how m, err <> registrationRetry body how m) ->
        fst (retryRegistration (S fuel) flow isRetry w) = Ret (inl (WithStack err)))
  /\ (forall fuel flow isRetry tok w v restF err restL,
        supported tok flow = true ->
        forms w = inr v :: restF ->
        logins w = inl err :: restL ->
        (forall body how m, err <> loginRetry body how m) ->
        fst (retryLogin (S fuel) flow isRetry tok w) = Ret (inl (WithStack err)))
  (* and the error the loop ends with is what the caller gets *)
  /\ (forall fuel h c w flow restI err w2,
        registrationFlows w = inr flow :: restI ->
        retryRegistration fuel flow false
          (withRegistrationFlows restI (logged EvInitRegistration w))
        = (Ret (inl err), w2) ->
        signup fuel h c w = (Ret (None, Some err), w2))
  /\ (forall fuel h c tok w flow restI err w2,
        loginFlows w = inr flow :: restI ->
        retryLogin (S fuel) flow false tok
          (withLoginFlows restI (logged (EvInitLogin tok (aalFor tok)) w))
        = (Ret (inl err), w2) ->
        signin (S fuel) h c tok w = (Ret (None, Some err), w2)).
Proof.
  split; [| split; [| split; [| split; [| split]]]].
  - intros reps vals signup_ token sess fuel h c flow0 w restI restF restR restS
           Hfuel Hvals Hi Hf Hr Ht Hs.
    destruct (signup_retries (map snd reps) (registrationRetries reps) vals signup_ token
                sess fuel h c flow0 w restI restF restR restS)
      as (w' & evs & R & T & S1 & S2);
      try assumption;
      [now rewrite length_map | apply registrationModel_retries
       | now rewrite length_map |].
    destruct (sessionToContext_made sess token) as (ctx & C & Tk).
    exists w', evs, ctx. rewrite R, C. repeat split; auto.
    rewrite S1. cbn. now rewrite !length_map.
  - intros reps vals login token sess fuel h c tok flow0 w restI restF restL restS
           Hfuel Hvals Hsup Hi Hf Hl Ht Hs.
    destruct (signin_retries (map snd reps) (loginRetries reps) vals login token
                sess fuel h c tok flow0 w restI restF restL restS)
      as (w' & evs & R & T & S1 & S2);
      try assumption;
      [now rewrite length_map | apply loginModel_retries
       | now rewrite length_map |].
    destruct (sessionToContext_made sess (Coalesce [token; tok])) as (ctx & C & Tk).
    exists w', evs, ctx. rewrite R, C. repeat split; auto.
    rewrite S1. cbn. now rewrite !length_map.
  - intros fuel flow isRetry w v restF err restR Hf Hr Hm.
    apply registrationModel_other in Hm.
    rewrite retryRegistration_attempt. cbv zeta. now rewrite Hf, Hr, Hm.
  - intros fuel flow isRetry tok w v restF err restL Hs Hf Hl Hm.
    apply loginModel_other in Hm.
    rewrite retryLogin_attempt. cbv zeta. unfold supported in Hs.
    destruct (negotiate tok flow) as [|[method form]]; [discriminate|].
    now rewrite Hf, Hl, Hm.
  - intros fuel h c w flow restI err w2 Hi Hloop.
    rewrite signup_pass. cbv zeta. now rewrite Hi, Hloop.
  - intros fuel h c tok w flow restI err w2 Hi Hloop.
    rewrite signin_pass. cbv zeta. fold (aalFor tok). now rewrite Hi, Hloop.
Qed.

(** C2 on a sign-up that is sent back twice, on a sign-in that is sent
    back once, and on a sign-up that is refused for good. *)
Lemma retry_on_replacement_flow_witness :
  (exists w' evs ctx,
      signup 3 home client signupRetryWorld = (Ret (Some ctx, None), w')
      /\ SessionToken ctx = "tok1"
      /\ sessionToContext alice "tok1" = (Some ctx, None)
      /\ trace w' = (trace signupRetryWorld ++ evs)%list
      /\ length (submissions evs) = 3
      /\ submissions evs = ["flow-a"; "flow-b"; "flow-d"]
      /\ renderings evs = [passwordUi; passwordUi; passwordUi])
  /\ (exists w' evs ctx,
        signin 2 home client "" signinRetryWorld = (Ret (Some ctx, None), w')
        /\ SessionToken ctx = "tok1"
        /\ sessionToContext alice "tok1" = (Some ctx, None)
        /\ trace w' = (trace signinRetryWorld ++ evs)%list
        /\ length (submissions evs) = 2
        /\ submissions evs = ["flow-a"; "flow-b"]
        /\ renderings evs = [passwordUi; passwordUi])
  /\ fst (retryRegistration 1 flowA false
            (withRegistrationFlows [] (logged EvInitRegistration signupRefusedWorld)))
     = Ret (inl (WithStack (invalid JNull (ModelJsonError JNull)))).
Proof.
  split; [| split].
  - apply (proj1 retry_on_replacement_flow
             [(JNull, ByPointer, flowB); (JNull, ByValue, flowD)]
             [[("traits.email", "a"); ("password", "short")];
              [("traits.email", "a@example.com"); ("password", "short")];
              [("traits.email", "a@example.com"); ("password", "long enough")]]
             (mkSuccessful (Some "tok1")) "tok1" alice 3 home client flowA
             signupRetryWorld [] [] [] []);
      first [lia | vm_compute; reflexivity].
  - apply (proj1 (proj2 retry_on_replacement_flow)
             [(JNull, ByValue, flowB)]
             [[("identifier", "a@example.com"); ("password", "wrong")];
              [("identifier", "a@example.com"); ("password", "right")]]
             (mkSuccessful (Some "tok1")) "tok1" alice 2 home client "" flowA
             signinRetryWorld [] [] [] []);
      first [lia | vm_compute; reflexivity].
  - apply (proj1 (proj2 (proj2 retry_on_replacement_flow))
             0 flowA false _ [("traits.email", "a@example.com"); ("password", "long enough")]
             [] (invalid JNull (ModelJsonError JNull)) []);
      [reflexivity | reflexivity |].
    intros body how m. destruct how; discriminate.
Defined.

Lemma signin_trace_head fuel h c tok w :
  exists evs,
    trace (snd (signin (S fuel) h c tok w))
    = (trace w ++ EvInitLogin tok (aalFor tok) :: evs)%list.
Proof.
  revert h c tok w. induction fuel as [|n IH]; intros h c tok w;
    rewrite signin_pass; cbv zeta; fold (aalFor tok);
    (destruct (loginFlows w) as [|[err|flow] rest]; try solve [cbn; eauto]);
    match goal with
    | |- context [retryLogin ?a ?b ?c ?d ?e] =>
        destruct (retryLogin_extends a b c d e) as (evs & E & _);
        destruct (retryLogin a b c d e) as [[[err|login]|why] w2]
    end; cbn in E; try solve [cbn; rewrite E, <- app_assoc; cbn; eauto];
    (destruct (successful_SessionToken login) as [token|];
       [| solve [cbn; rewrite E, <- app_assoc; cbn; eauto]]);
    (destruct (sessions w2) as [|[err|sess] rest'];
       try solve [cbn; rewrite E, <- !app_assoc; cbn; eauto]);
    (destruct (aal2Required err);
       [| solve [cbn; rewrite E, <- !app_assoc; cbn; eauto]]).
  - cbn. rewrite E, <- !app_assoc. cbn. eauto.
  - match goal with
    | |- context [signin (S n) ?a ?b ?c ?d] =>
        destruct (IH a b c d) as (evs' & E'); rewrite E'
    end.
    cbn. rewrite E, <- !app_assoc. cbn. eauto.
Qed.








(* ------------------------------------------------------------------ *)
(** ** The top-level orchestration (C7, C8) *)

Lemma extends_refl w : extends w w.
Proof. exists []. now rewrite app_nil_r. Qed.

Lemma extends_trans w1 w2 w3 : extends w1 w2 -> extends w2 w3 -> extends w1 w3.
Proof.
  intros [a A] [b B]. exists (a ++ b)%list. now rewrite B, A, app_assoc.
Qed.

Lemma appending_ret {A} (a : A) : appending (ret a).
Proof. intros w. apply extends_refl. Qed.

Lemma appending_stop {A} why : appending (@stop A why).
Proof. intros w. apply extends_refl. Qed.

Lemma appending_log e : appending (log e).
Proof. intros w. cbn. eexists. reflexivity. Qed.

Lemma appending_bind {A B} (m : M A) (k : A -> M B) :
  appending m -> (forall a, appending (k a)) -> appending (bind m k).
Proof.
  intros Hm Hk w. unfold bind. specialize (Hm w).
  destruct (m w) as [[a|why] w1]; cbn in *; auto.
  eapply extends_trans; [exact Hm | apply Hk].
Qed.

Lemma bind_extends {A B} (m : M A) (k : A -> M B) w :
  (forall a, appending (k a)) -> extends (snd (m w)) (snd (bind m k w)).
Proof.
  intros Hk. unfold bind. destruct (m w) as [[a|why] w1]; cbn.
  - apply Hk.
  - apply extends_refl.
Qed.

Lemma appending_WriteConfig h c : appending (WriteConfig h c).
Proof. intros w. destruct (WriteConfig_trace h c w) as (evs & T & _). now exists evs. Qed.

Lemma appending_Fprintf text : appending (Fprintf text).
Proof. apply appending_log. Qed.

Ltac appended :=
  unfold extends; cbn; rewrite <- ?app_assoc; eexists; reflexivity.

Lemma retryRegistration_extends fuel : forall flow isRetry,
  appending (retryRegistration fuel flow isRetry).
Proof.
  induction fuel as [|n IH]; intros flow isRetry w.
  - apply extends_refl.
  - rewrite retryRegistration_attempt. cbv zeta.
    remember (if isRetry then say registrationNotice w else w) as w0 eqn:W0.
    assert (B : extends w w0).
    { subst w0. destruct isRetry; [appended | apply extends_refl]. }
    clear W0. eapply extends_trans; [exact B|].
    destruct (forms w) as [|[e|v] rest]; try solve [appended].
    destruct (registrations w) as [|[err|s] rest']; try solve [appended].
    destruct (registrationModel err); try solve [appended].
    eapply extends_trans; [| apply IH]. appended.
Qed.

Lemma signup_trace_head fuel h c w :
  exists evs,
    trace (snd (signup fuel h c w)) = (trace w ++ EvInitRegistration :: evs)%list.
Proof.
  rewrite signup_pass. cbv zeta.
  destruct (registrationFlows w) as [|[err|flow] rest]; try solve [cbn; eauto].
  match goal with
  | |- context [retryRegistration ?a ?b ?c ?d] =>
      destruct (retryRegistration_extends a b c d) as (evs & E);
      destruct (retryRegistration a b c d) as [[[err|signup_]|why] w2]
  end; cbn in E; try solve [cbn; rewrite E, <- app_assoc; cbn; eauto].
  destruct (successful_SessionToken signup_) as [token|];
    [| solve [cbn; rewrite E, <- app_assoc; cbn; eauto]].
  destruct (sessions w2) as [|[err|sess] rest'];
    cbn; rewrite E, <- !app_assoc; cbn; eauto.
Qed.

Lemma bind_run {A B} (m : M A) (k : A -> M B) w :
  bind m k w =
    match m w with
    | (Ret a, w') => k a w'
    | (Stop why, w') => (Stop why, w')
    end.
Proof. reflexivity. Qed.

(** C7 (what the code does). With no file at the location, [EnsureContext]
    and [Authenticate] ask nothing and call nothing: they return no context
    and no error. *)
Theorem no_config_no_authentication fuel h w :
  files w (configLocation h) = Absent ->
  EnsureContext fuel h w = (Ret (None, None), logged (EvOpen (configLocation h)) w)
  /\ (noConfirm h = false ->
      Authenticate fuel h w = (Ret (None, None), logged (EvOpen (configLocation h)) w)).
Proof.
  intros Hf. split; [| intros Hn; unfold Authenticate; rewrite Hn];
    unfold EnsureContext; rewrite bind_run, readConfig_run; cbv zeta;
    rewrite Hf; reflexivity.
Qed.

(** C7 on a machine without a config file. *)
Lemma no_config_no_authentication_witness :
  EnsureContext 3 home emptyWorld
  = (Ret (None, None), logged (EvOpen "/home/ory/.ory-cloud.json") emptyWorld).
Proof. exact (proj1 (no_config_no_authentication 3 home emptyWorld eq_refl)). Defined.

Lemma appending_persist h (r : Result) :
  appending
    (match r with
     | (_, Some err) => ret (None, Some err)
     | (None, None) => stop nilDereference
     | (Some ac, None) =>
         w <- WriteConfig h ac ;;
         match w with
         | (_, Some err) => ret (None, Some err)
         | (ac, None) =>
             Fprintf ("You are now signed in as: "
                        ++ Email (IdentityTraits ac) ++ String "010" "") ;;
             ret (Some ac, None)
         end
     end).
Proof.
  destruct r as [[ac|] [err|]]; try apply appending_ret; try apply appending_stop.
  apply appending_bind; [apply appending_WriteConfig|].
  intros [ac' [err|]]; [apply appending_ret|].
  apply appending_bind; [apply appending_Fprintf|]. intros _. apply appending_ret.
Qed.

(** The sibling path: a file that holds no session token. The user is asked
    whether there is an account, and the answer picks the login or the
    registration path. *)
Lemma empty_token_asks fuel h w d ac a rest :
  noConfirm h = false ->
  files w (configLocation h) = File d ->
  decodeAuthContext d = inr ac ->
  nonEmpty (SessionToken ac) = false ->
  clientError w = None ->
  answers w = a :: rest ->
  exists evs,
    trace (snd (Authenticate (S fuel) h w))
    = (trace w ++ [EvOpen (configLocation h); EvNewClient "public"; EvAsk haveAccount;
                   if a then EvInitLogin "" "" else EvInitRegistration] ++ evs)%list.
Proof.
  intros Hn Hf Hd Ht Hc Ha.
  unfold Authenticate. rewrite Hn, bind_run, readConfig_run. cbv zeta.
  rewrite Hf, Hd, Ht. rewrite bind_run. cbn [ret].
  rewrite bind_run. unfold newConsoleClient at 1. rewrite bind_run. cbn [log].
  cbn [clientError withTrace]. rewrite Hc.
  rewrite bind_run. unfold AskForConfirmation at 1. rewrite bind_run. cbn [log].
  cbn [answers withTrace]. rewrite Ha.
  match goal with
  | |- context [bind ?m ?k ?w1] =>
      destruct (bind_extends m k w1 (appending_persist h)) as (evs2 & E2)
  end.
  destruct a.
  - match type of E2 with
    | context [signin (S fuel) ?a ?b ?c ?d] =>
        destruct (signin_trace_head fuel a b c d) as (evs1 & E1); rewrite E1 in E2
    end.
    eexists. etransitivity; [exact E2|].
    cbn. rewrite <- !app_assoc. cbn. reflexivity.
  - match type of E2 with
    | context [signup (S fuel) ?a ?b ?c] =>
        destruct (signup_trace_head (S fuel) a b c) as (evs1 & E1); rewrite E1 in E2
    end.
    eexists. etransitivity; [exact E2|].
    cbn. rewrite <- !app_assoc. cbn. reflexivity.
Qed.

Lemma retryLogin_sessions fuel : forall flow isRetry tok w,
  sessions (snd (retryLogin fuel flow isRetry tok w)) = sessions w.
Proof.
  induction fuel as [|n IH]; intros flow isRetry tok w; [reflexivity|].
  rewrite retryLogin_attempt. cbv zeta.
  destruct (negotiate tok flow) as [nerr|[method form]];
    [destruct isRetry; reflexivity|].
  destruct (forms w) as [|[e|v] rest]; try solve [destruct isRetry; reflexivity].
  destruct (logins w) as [|[err|s] rest']; try solve [destruct isRetry; reflexivity].
  destruct (loginModel err); try solve [destruct isRetry; reflexivity].
  rewrite IH. destruct isRetry; reflexivity.
Qed.

Lemma retryRegistration_sessions fuel : forall flow isRetry w,
  sessions (snd (retryRegistration fuel flow isRetry w)) = sessions w.
Proof.
  induction fuel as [|n IH]; intros flow isRetry w; [reflexivity|].
  rewrite retryRegistration_attempt. cbv zeta.
  destruct (forms w) as [|[e|v] rest]; try solve [destruct isRetry; reflexivity].
  destruct (registrations w) as [|[err|s] rest'];
    try solve [destruct isRetry; reflexivity].
  destruct (registrationModel err); try solve [destruct isRetry; reflexivity].
  rewrite IH. destruct isRetry; reflexivity.
Qed.

(** A context that comes out of sign-in or sign-up was made by
    [sessionToContext] from a session the API answered with. *)
Lemma signin_context fuel : forall h c tok w r w',
  signin fuel h c tok w = (Ret r, w') ->
  fst r <> None ->
  exists sess token,
    In (inr sess) (sessions w) /\ sessionToContext sess token = r.
Proof.
  induction fuel as [|n IH]; intros h c tok w r w'; [discriminate|].
  rewrite signin_pass. cbv zeta.
  destruct (loginFlows w) as [|[err|flow] rest];
    try solve [intros H; inversion H; cbn; congruence].
  match goal with
  | |- context [retryLogin ?a ?b ?c ?d ?e] =>
      pose proof (retryLogin_sessions a b c d e) as K;
      destruct (retryLogin a b c d e) as [[[err|login]|why] w2]
  end; try solve [intros H; inversion H; cbn; congruence].
  cbn in K.
  destruct (successful_SessionToken login) as [token|]; [|discriminate].
  destruct (sessions w2) as [|[err|sess] rest'] eqn:S2;
    try solve [intros H; inversion H; cbn; congruence].
  - destruct (aal2Required err);
      [| solve [intros H; inversion H; cbn; congruence]].
    intros H Hr. destruct (IH _ _ _ _ _ _ H Hr) as (sess & token' & Hin & Hc).
    exists sess, token'. split; auto. rewrite <- K. right. exact Hin.
  - intros H Hr. inversion H; subst. eexists. eexists. split; [|reflexivity].
    rewrite <- K. now left.
Qed.

Lemma signup_context fuel h c w r w' :
  signup fuel h c w = (Ret r, w') ->
  fst r <> None ->
  exists sess token,
    In (inr sess) (sessions w) /\ sessionToContext sess token = r.
Proof.
  rewrite signup_pass. cbv zeta.
  destruct (registrationFlows w) as [|[err|flow] rest];
    try solve [intros H; inversion H; cbn; congruence].
  match goal with
  | |- context [retryRegistration ?a ?b ?c ?d] =>
      pose proof (retryRegistration_sessions a b c d) as K;
      destruct (retryRegistration a b c d) as [[[err|signup_]|why] w2]
  end; try solve [intros H; inversion H; cbn; congruence].
  cbn in K.
  destruct (successful_SessionToken signup_) as [token|]; [|discriminate].
  destruct (sessions w2) as [|[err|sess] rest'] eqn:S2;
    try solve [intros H; inversion H; cbn; congruence].
  intros H Hr. inversion H; subst. eexists. eexists. split; [|reflexivity].
  rewrite <- K. now left.
Qed.

Lemma WriteConfig_sessions h c w :
  sessions (snd (WriteConfig h c w)) = sessions w.
Proof.
  rewrite WriteConfig_run. cbv zeta.
  destruct (files w (configLocation h)); try destruct (diskFull w); reflexivity.
Qed.

Lemma authenticateAnew_context fuel h w ctx w' :
  authenticateAnew fuel h w = (Ret (Some ctx, None), w') ->
  exists sess token c0,
    In (inr sess) (sessions w)
    /\ sessionToContext sess token = (Some c0, None)
    /\ ctx = setVersion version c0
    /\ files w' (configLocation h) = File (Document (encodeAuthContext ctx)).
Proof.
  unfold authenticateAnew. rewrite bind_run.
  unfold newConsoleClient at 1. rewrite bind_run. cbn [log].
  cbn [clientError withTrace]. destruct (clientError w); [discriminate|].
  rewrite bind_run. unfold AskForConfirmation at 1. rewrite bind_run. cbn [log].
  cbn [answers withTrace]. destruct (answers w) as [|signIn rest]; [discriminate|].
  rewrite bind_run.
  match goal with
  | |- context [(if signIn then ?a else ?b) ?w1] =>
      assert (C : forall r w2, (if signIn then a else b) w1 = (Ret r, w2) -> fst r <> None ->
                  exists sess token, In (inr sess) (sessions w) /\ sessionToContext sess token = r);
      [ intros r w2 E Hr; destruct signIn;
        [apply signin_context in E | apply signup_context in E]; auto
      | destruct ((if signIn then a else b) w1) as [[[[ac|] [err|]]|why] w2] eqn:E ]
  end; try discriminate.
  rewrite bind_run.
  destruct (WriteConfig h ac w2) as [[[c' [err|]]|why] w3] eqn:Ew; try discriminate.
  apply WriteConfig_ok in Ew as [-> Hf].
  rewrite bind_run. intros H. cbn in H. inversion H; subst.
  destruct (C _ _ eq_refl) as (sess & token & Hin & Hc); [discriminate|].
  exists sess, token, ac. repeat split; auto.
Qed.

Lemma SignOut_sessions h w : sessions (snd (SignOut h w)) = sessions w.
Proof. rewrite SignOut_run. apply WriteConfig_sessions. Qed.

(** A context [Authenticate] returns is the stored one, kept by the user,
    or a fresh one, which is then what the file holds. *)
Lemma Authenticate_context fuel h w ctx w' :
  Authenticate fuel h w = (Ret (Some ctx, None), w') ->
  (exists d, files w (configLocation h) = File d /\ decodeAuthContext d = inr ctx)
  \/ (exists sess token c0,
        In (inr sess) (sessions w)
        /\ sessionToContext sess token = (Some c0, None)
        /\ ctx = setVersion version c0
        /\ files w' (configLocation h) = File (Document (encodeAuthContext ctx))).
Proof.
  unfold Authenticate. fold (authenticateAnew fuel h).
  destruct (noConfirm h); [discriminate|].
  rewrite bind_run, readConfig_run. cbv zeta.
  destruct (files w (configLocation h)) as [| | |d] eqn:Hf; try discriminate.
  destruct (decodeAuthContext d) as [e|ac] eqn:Hd.
  { destruct (Is_ErrNoConfig _); discriminate. }
  rewrite bind_run.
  destruct (nonEmpty (SessionToken ac)).
  - rewrite bind_run. unfold AskForConfirmation at 1. rewrite bind_run. cbn [log].
    cbn [answers withTrace]. destruct (answers w) as [|keep rest]; [discriminate|].
    destruct keep; cbn [negb].
    + rewrite bind_run. cbn [Fprintf log]. rewrite bind_run.
      match goal with
      | |- context [SignOut h ?w1] =>
          pose proof (SignOut_sessions h w1) as K;
          destruct (SignOut h w1) as [[[err|]|why] w2]
      end; try discriminate.
      intros H. apply authenticateAnew_context in H.
      right. cbn in K. rewrite K in H. exact H.
    + intros H. inversion H; subst. left. eauto.
  - intros H. apply authenticateAnew_context in H. right. exact H.
Qed.

(** The text of a number is never empty. *)
Lemma FormatFloat_e_head f : exists c r, strconv.FormatFloat_e f = String c r.
Proof.
  destruct f as [neg m e|neg]; cbn [strconv.FormatFloat_e].
  - destruct neg; cbn [strconv.sign]; [eauto|].
    destruct (m =? 0)%Z; [eauto|].
    destruct (strconv.shortest m e) as [ds dp]. unfold strconv.scientific.
    destruct ds as [|d ds]; eauto.
  - destruct neg; eauto.
Qed.

Lemma cleanExponent_nonEmpty s :
  nonEmpty s = true -> nonEmpty (json.cleanExponent s) = true.
Proof.
  intros H. unfold json.cleanExponent.
  destruct (rev (list_ascii_of_string s)) as [|d [|z [|sgn [|e more]]]]; auto.
  destruct (_ && _ && _); auto.
  cbn [rev]. destruct (rev more) as [|x xs]; reflexivity.
Qed.

Lemma encodeFloat_nonEmpty f : nonEmpty (json.encodeFloat f) = true.
Proof.
  assert (F : nonEmpty (strconv.FormatFloat_f f) = true).
  { destruct (FormatFloat_f_head f) as (c & r & -> & _). reflexivity. }
  assert (E : nonEmpty (json.cleanExponent (strconv.FormatFloat_e f)) = true).
  { apply cleanExponent_nonEmpty. destruct (FormatFloat_e_head f) as (c & r & ->).
    reflexivity. }
  unfold json.encodeFloat. destruct f as [neg m e|neg]; [destruct m|];
    try exact F; destruct (_ || _); assumption.
Qed.

Lemma String_number raw :
  nonEmpty (gjson.String_ (Some (JNumber (json.encodeFloat (strconv.ParseFloat raw))))) = true.
Proof.
  cbn [gjson.String_]. destruct (gjson.plainInteger _).
  - apply encodeFloat_nonEmpty.
  - destruct (FormatFloat_f_head (strconv.ParseFloat (json.encodeFloat (strconv.ParseFloat raw))))
      as (c & r & -> & _). reflexivity.
Qed.

(** The email of the context is empty exactly when the session carries
    none. *)
Lemma sessionToContext_email sess token :
  exists ctx,
    sessionToContext sess token = (Some ctx, None)
    /\ SessionToken ctx = token
    /\ nonEmpty (Email (IdentityTraits ctx)) = carriesEmail sess.
Proof.
  unfold carriesEmail, lastMember, sessionToContext.
  destruct (Traits (session_Identity sess)) as [| | | | |ms] eqn:T;
    try (rewrite getField_no_member by reflexivity; eexists; repeat split).
  destruct (assoc "email" (rev ms)) as [v|] eqn:A.
  - destruct (assoc_rev_split _ _ _ A) as (a & b & -> & Hb).
    rewrite (getField_member a b _ Hb). eexists. split; [reflexivity|].
    split; [reflexivity|]. cbn [Email IdentityTraits].
    destruct v as [|[]|raw|s|items|members]; cbn [json.Encode gjson.readBack]; try reflexivity.
    + apply String_number.
    + cbn [gjson.String_]. destruct s as [|c s]; [reflexivity|].
      now rewrite ToValid_nonEmpty.
  - rewrite getField_no_member.
    + eexists. repeat split.
    + destruct (assoc "email" ms) as [v|] eqn:B; [|reflexivity].
      exfalso. clear T. induction ms as [|[k' v'] ms IH]; [discriminate|].
      cbn [rev] in A. rewrite assoc_app in A. cbn [assoc] in B.
      destruct (String.eqb k' "email") eqn:E.
      * cbn [assoc] in A. rewrite E in A. destruct (assoc "email" (rev ms)); discriminate.
      * destruct (assoc "email" (rev ms)); [discriminate|]. now apply IH.
Qed.

Lemma sessionToContext_carries sess token :
  carriesEmail sess = true -> resultHasEmail (sessionToContext sess token).
Proof.
  intros H. destruct (sessionToContext_email sess token) as (ctx & -> & _ & E).
  cbn [resultHasEmail]. unfold hasEmailIfSession. rewrite E, H. apply implb_true_r.
Qed.

Lemma hasEmail_stamped c :
  hasEmailIfSession (setVersion version c) = hasEmailIfSession c.
Proof. destruct c. reflexivity. Qed.

Lemma hasEmail_coerced c :
  hasEmailIfSession c = true -> hasEmailIfSession (coerced c) = true.
Proof.
  unfold hasEmailIfSession, coerced. cbn [SessionToken Email IdentityTraits].
  destruct (SessionToken c) as [|a t]; [reflexivity|].
  cbn [nonEmpty implb]. intros E.
  rewrite (ToValid_nonEmpty _ E). apply implb_true_r.
Qed.

Lemma encoded_app a b : encoded (a ++ b) = (encoded a ++ encoded b)%list.
Proof. apply flat_map_app. Qed.

Section Invariant.

Variable h : Auth.
Variable old : list Json.

(** A step that leaves the files alone, answers from the scripts and writes
    no document keeps the world good. *)
Lemma Good_frame w w' :
  Good h old w ->
  (forall s, In s (sessions w') -> In s (sessions w)) ->
  files w' = files w ->
  encoded (trace w') = encoded (trace w) ->
  Good h old w'.
Proof.
  intros (S & F & E) Hs Hf He. repeat split.
  - intros sess Hin. apply S, Hs, Hin.
  - intros d c. rewrite Hf. apply F.
  - intros doc. rewrite He. apply E.
Qed.

Lemma keeps_ret {A} (a : A) (Q : A -> Prop) : Q a -> keeps h old (ret a) Q.
Proof. intros q w G. split; [exact G|]. intros a' E. inversion E. now subst. Qed.

Lemma keeps_stop {A} why (Q : A -> Prop) : keeps h old (stop why) Q.
Proof. intros w G. split; [exact G | discriminate]. Qed.

Lemma keeps_bind {A B} (m : M A) (k : A -> M B) (Q : A -> Prop) (R : B -> Prop) :
  keeps h old m Q -> (forall a, Q a -> keeps h old (k a) R) -> keeps h old (bind m k) R.
Proof.
  intros Hm Hk w G. unfold bind. destruct (Hm w G) as [G1 Q1].
  destruct (m w) as [[a|why] w1]; cbn [fst snd] in *.
  - apply Hk; auto.
  - split; [exact G1 | discriminate].
Qed.

Lemma keeps_frame {A} (m : M A) :
  (forall w, (forall s, In s (sessions (snd (m w))) -> In s (sessions w))
             /\ files (snd (m w)) = files w
             /\ encoded (trace (snd (m w))) = encoded (trace w)) ->
  keeps h old m (fun _ => True).
Proof.
  intros H w G. destruct (H w) as (Hs & Hf & He). split; [|auto].
  eapply Good_frame; eauto.
Qed.

Lemma keeps_Fprintf text : keeps h old (Fprintf text) (fun _ => True).
Proof.
  apply keeps_frame. intros w. cbn. rewrite encoded_app. cbn.
  rewrite app_nil_r. auto.
Qed.

Lemma keeps_AskForConfirmation q : keeps h old (AskForConfirmation q) (fun _ => True).
Proof.
  apply keeps_frame. intros w. unfold AskForConfirmation, bind, log. cbn.
  destruct (answers w); cbn; rewrite encoded_app; cbn; rewrite app_nil_r; auto.
Qed.

Lemma keeps_newConsoleClient name : keeps h old (newConsoleClient name) (fun _ => True).
Proof.
  apply keeps_frame. intros w. unfold newConsoleClient, bind, log. cbn.
  destruct (clientError w); cbn; rewrite encoded_app; cbn; rewrite app_nil_r; auto.
Qed.

Lemma keeps_renderForm ui method form :
  keeps h old (renderForm ui method form) (fun _ => True).
Proof.
  apply keeps_frame. intros w. unfold renderForm, bind, log. cbn.
  destruct (forms w) as [|[e|v] rest]; cbn; rewrite encoded_app; cbn;
    rewrite app_nil_r; auto.
Qed.

Lemma keeps_InitRegistration :
  keeps h old InitializeSelfServiceRegistrationFlowWithoutBrowser (fun _ => True).
Proof.
  apply keeps_frame. intros w.
  unfold InitializeSelfServiceRegistrationFlowWithoutBrowser, bind, log. cbn.
  destruct (registrationFlows w); cbn; rewrite encoded_app; cbn;
    rewrite app_nil_r; auto.
Qed.

Lemma keeps_InitLogin token aal :
  keeps h old (InitializeSelfServiceLoginFlowWithoutBrowser token aal) (fun _ => True).
Proof.
  apply keeps_frame. intros w.
  unfold InitializeSelfServiceLoginFlowWithoutBrowser, bind, log. cbn.
  destruct (loginFlows w); cbn; rewrite encoded_app; cbn; rewrite app_nil_r; auto.
Qed.

Lemma keeps_SubmitRegistration flow body :
  keeps h old (SubmitSelfServiceRegistrationFlow flow body) (fun _ => True).
Proof.
  apply keeps_frame. intros w. unfold SubmitSelfServiceRegistrationFlow, bind, log. cbn.
  destruct (registrations w); cbn; rewrite encoded_app; cbn; rewrite app_nil_r; auto.
Qed.

Lemma keeps_SubmitLogin token flow body :
  keeps h old (SubmitSelfServiceLoginFlow token flow body) (fun _ => True).
Proof.
  apply keeps_frame. intros w. unfold SubmitSelfServiceLoginFlow, bind, log. cbn.
  destruct (logins w); cbn; rewrite encoded_app; cbn; rewrite app_nil_r; auto.
Qed.

(** The session the exchange answers with is one of the script. *)
Lemma keeps_ToSession token :
  keeps h old (ToSession token)
    (fun r => match r with
              | inr sess => carriesEmail sess = true
              | inl _ => True
              end).
Proof.
  intros w G. unfold ToSession, bind, log. cbn.
  destruct (sessions w) as [|r rest] eqn:S; cbn.
  - split.
    + eapply Good_frame; [exact G | cbn; rewrite S; auto | reflexivity |].
      cbn. rewrite encoded_app. cbn. now rewrite app_nil_r.
    + intros a E. inversion E. exact I.
  - split.
    + eapply Good_frame; [exact G | cbn; rewrite S; intros s Hin; now right
                         | reflexivity |].
      cbn. rewrite encoded_app. cbn. now rewrite app_nil_r.
    + intros a E. inversion E. subst a. destruct r as [e|sess]; [exact I|].
      destruct G as (Gs & _). apply Gs. rewrite S. now left.
Qed.

(** A load answers the stored context. *)
Lemma keeps_readConfig :
  keeps h old (readConfig h)
    (fun r => match r with
              | (Some c, None) => hasEmailIfSession c = true
              | _ => True
              end).
Proof.
  intros w G. rewrite readConfig_run. cbv zeta. cbn [fst snd]. split.
  - eapply Good_frame; [exact G | auto | reflexivity |].
    cbn. rewrite encoded_app. cbn. now rewrite app_nil_r.
  - intros a E. destruct G as (_ & F & _).
    destruct (files w (configLocation h)) as [| | |d] eqn:Hf;
      try (inversion E; exact I).
    destruct (decodeAuthContext d) as [err|c] eqn:Hd; inversion E; [exact I|].
    eapply F; eauto.
Qed.

(** A save of a context that has an email for its token. *)
Lemma keeps_WriteConfig c :
  hasEmailIfSession c = true ->
  keeps h old (WriteConfig h c) (fun r => fst r = setVersion version c).
Proof.
  intros Hc w G. rewrite WriteConfig_run. cbv zeta.
  assert (New : forall evs doc,
             encoded evs = [] \/ encoded evs = [encodeAuthContext (setVersion version c)] ->
             In doc (encoded (trace w ++ evs)) ->
             In doc old
             \/ exists c', doc = encodeAuthContext c' /\ hasEmailIfSession c' = true).
  { intros evs doc Hev. rewrite encoded_app. intros Hin.
    apply in_app_or in Hin as [Hin|Hin].
    - destruct G as (_ & _ & E). apply E, Hin.
    - destruct Hev as [Hev|Hev]; rewrite Hev in Hin; [destruct Hin|].
      destruct Hin as [<-|[]]. right. eexists. split; [reflexivity|].
      now rewrite hasEmail_stamped. }
  destruct G as (Gs & Gf & Ge).
  destruct (files w (configLocation h)) as [| | |d] eqn:Hf.
  - destruct (diskFull w); cbn [fst snd]; (split; [| intros a E; now inversion E]).
    + repeat split.
      * exact Gs.
      * intros d' c'. cbn. rewrite writeNode_same. intros D. inversion D; subst d'.
        discriminate.
      * intros doc. cbn. rewrite <- app_assoc. apply New. right. reflexivity.
    + repeat split.
      * exact Gs.
      * intros d' c'. cbn. rewrite writeNode_same. intros D. inversion D; subst d'.
        rewrite decode_encode. intros C. inversion C.
        apply hasEmail_coerced. now rewrite hasEmail_stamped.
      * intros doc. cbn. rewrite <- app_assoc. apply New. right. reflexivity.
  - cbn [fst snd]. split; [| intros a E; now inversion E]. repeat split.
    + exact Gs.
    + intros d' c'. cbn. apply Gf.
    + intros doc. cbn. apply New. left. reflexivity.
  - cbn [fst snd]. split; [| intros a E; now inversion E]. repeat split.
    + exact Gs.
    + intros d' c'. cbn. apply Gf.
    + intros doc. cbn. apply New. left. reflexivity.
  - destruct (diskFull w); cbn [fst snd]; (split; [| intros a E; now inversion E]).
    + repeat split.
      * exact Gs.
      * intros d' c'. cbn. rewrite writeNode_same. intros D. inversion D; subst d'.
        discriminate.
      * intros doc. cbn. rewrite <- app_assoc. apply New. right. reflexivity.
    + repeat split.
      * exact Gs.
      * intros d' c'. cbn. rewrite writeNode_same. intros D. inversion D; subst d'.
        rewrite decode_encode. intros C. inversion C.
        apply hasEmail_coerced. now rewrite hasEmail_stamped.
      * intros doc. cbn. rewrite <- app_assoc. apply New. right. reflexivity.
Qed.

Lemma keeps_SignOut : keeps h old (SignOut h) (fun _ => True).
Proof.
  unfold SignOut. eapply keeps_bind; [apply keeps_WriteConfig; reflexivity|].
  intros r _. now apply keeps_ret.
Qed.

Lemma keeps_retryRegistration fuel : forall flow isRetry,
  keeps h old (retryRegistration fuel flow isRetry) (fun _ => True).
Proof.
  induction fuel as [|n IH]; intros flow isRetry; [apply keeps_stop|].
  cbn [retryRegistration].
  apply keeps_bind with (Q := fun _ => True).
  { destruct isRetry; [apply keeps_Fprintf | now apply keeps_ret]. }
  intros _ _. eapply keeps_bind; [apply keeps_renderForm|].
  intros [form [err|]] _; [now apply keeps_ret|].
  eapply keeps_bind; [apply keeps_SubmitRegistration|].
  intros [err|s] _; [| now apply keeps_ret].
  destruct (registrationModel err); [apply IH | now apply keeps_ret].
Qed.

Lemma keeps_retryLogin fuel : forall flow isRetry tok,
  keeps h old (retryLogin fuel flow isRetry tok) (fun _ => True).
Proof.
  induction fuel as [|n IH]; intros flow isRetry tok; [apply keeps_stop|].
  cbn [retryLogin].
  apply keeps_bind with (Q := fun _ => True).
  { destruct isRetry; [apply keeps_Fprintf | now apply keeps_ret]. }
  intros _ _. destruct (negotiate tok flow) as [err|[method form]];
    [now apply keeps_ret|].
  eapply keeps_bind; [apply keeps_renderForm|].
  intros [form' [err|]] _; [now apply keeps_ret|].
  apply keeps_bind with (Q := fun _ => True).
  { destruct form'; try apply keeps_stop; now apply keeps_ret. }
  intros body _. eapply keeps_bind; [apply keeps_SubmitLogin|].
  intros [err|s] _; [| now apply keeps_ret].
  destruct (loginModel err); [apply IH | now apply keeps_ret].
Qed.

Lemma keeps_signup fuel c : keeps h old (signup fuel h c) resultHasEmail.
Proof.
  unfold signup. eapply keeps_bind; [apply keeps_InitRegistration|].
  intros [err|flow] _; [now apply keeps_ret|].
  eapply keeps_bind; [apply keeps_retryRegistration|].
  intros [err|s] _; [now apply keeps_ret|].
  destruct (successful_SessionToken s) as [token|]; [| apply keeps_stop].
  eapply keeps_bind; [apply keeps_ToSession|].
  intros [err|sess] Hq; [now apply keeps_ret|].
  apply keeps_ret. now apply sessionToContext_carries.
Qed.

Lemma keeps_signin fuel : forall c tok,
  keeps h old (signin fuel h c tok) resultHasEmail.
Proof.
  induction fuel as [|n IH]; intros c tok; [apply keeps_stop|].
  cbn [signin].
  eapply keeps_bind; [apply keeps_InitLogin|].
  intros [err|flow] _; [now apply keeps_ret|].
  eapply keeps_bind; [apply keeps_retryLogin|].
  intros [err|s] _; [now apply keeps_ret|].
  destruct (successful_SessionToken s) as [token|]; [| apply keeps_stop].
  eapply keeps_bind; [apply keeps_ToSession|].
  intros [err|sess] Hq.
  - destruct (errorId err) as [id|]; [| now apply keeps_ret].
    destruct (String.eqb id "session_aal2_required"); [apply IH | now apply keeps_ret].
  - apply keeps_ret. now apply sessionToContext_carries.
Qed.

Lemma keeps_Authenticate fuel : keeps h old (Authenticate fuel h) resultHasEmail.
Proof.
  unfold Authenticate. destruct (noConfirm h); [now apply keeps_ret|].
  eapply keeps_bind; [apply keeps_readConfig|].
  intros [[ac|] [err|]] Hq; cbv beta iota;
    try (destruct (Is_ErrNoConfig err); now apply keeps_ret);
    try apply keeps_stop.
  apply keeps_bind
    with (Q := fun early => match early with Some r => resultHasEmail r | None => True end).
  { destruct (nonEmpty (SessionToken ac)); [| now apply keeps_ret].
    eapply keeps_bind; [apply keeps_AskForConfirmation|].
    intros keep _. destruct (negb keep); [now apply keeps_ret|].
    eapply keeps_bind; [apply keeps_Fprintf|]. intros _ _.
    eapply keeps_bind; [apply keeps_SignOut|].
    intros [err|] _; now apply keeps_ret. }
  intros [result|] Hr; [now apply keeps_ret|].
  eapply keeps_bind; [apply keeps_newConsoleClient|].
  intros [err|c] _; [now apply keeps_ret|].
  eapply keeps_bind; [apply keeps_AskForConfirmation|]. intros signIn _.
  apply keeps_bind with (Q := resultHasEmail).
  { destruct signIn; [apply keeps_signin | apply keeps_signup]. }
  intros [[ac'|] [err|]] Hr'; cbv beta iota;
    try (now apply keeps_ret); try apply keeps_stop.
  eapply keeps_bind; [apply keeps_WriteConfig; exact Hr'|].
  intros [ac'' [err|]] Hw; [now apply keeps_ret|].
  eapply keeps_bind; [apply keeps_Fprintf|]. intros _ _.
  apply keeps_ret. cbn [fst] in Hw. subst ac''. cbn [resultHasEmail].
  now rewrite hasEmail_stamped.
Qed.

Lemma keeps_EnsureContext fuel : keeps h old (EnsureContext fuel h) resultHasEmail.
Proof.
  unfold EnsureContext.
  eapply keeps_bind; [apply keeps_readConfig|].
  intros [[c|] [err|]] Hq; cbv beta iota;
    try (destruct (Is_ErrNoConfig err); now apply keeps_ret);
    try apply keeps_stop.
  destruct (nonEmpty (SessionToken c)).
  - eapply keeps_bind; [apply keeps_Fprintf|]. intros _ _.
    apply keeps_bind with (Q := fun _ => True).
    { destruct (negb (noConfirm h)); [| now apply keeps_ret].
      eapply keeps_bind; [apply keeps_AskForConfirmation|].
      intros keep _. now apply keeps_ret. }
    intros [|] _; [| now apply keeps_ret].
    eapply keeps_bind; [apply keeps_SignOut|].
    intros [err|] _; [now apply keeps_ret|].
    eapply keeps_bind; [apply keeps_Authenticate|].
    intros [c' [err|]] Hr; [now apply keeps_ret|].
    apply keeps_ret. destruct c'; exact Hr.
  - eapply keeps_bind; [apply keeps_Authenticate|].
    intros [[c'|] [err|]] Hr; cbv beta iota;
      try (now apply keeps_ret); apply keeps_stop.
Qed.

End Invariant.

(** C8 (as the code has it). The context made from a session has an empty
    email exactly when the session carries no [email] trait (none, null or
    the empty string). A context that sign-in or sign-up hands out
    has an email with its session token when every session the identity API
    answers with carries an [email] trait. When, besides,
    the context stored at the config location, if any, has an email with
    its token, the same holds of every context that [Authenticate] or
    [EnsureContext] returns, of every context they hand to the encoder of
    the config file, and of the context a load finds there afterwards,
    however the run ends. *)
Theorem fresh_context_email (fuel : nat) (h : Auth) (w : World) :
  (forall sess token,
      exists ctx,
        sessionToContext sess token = (Some ctx, None)
        /\ SessionToken ctx = token
        /\ (Email (IdentityTraits ctx) = "" <-> carriesEmail sess = false))
  /\ (sessionsCarryEmail w ->
      (forall c tok ctx e w',
          signin fuel h c tok w = (Ret (Some ctx, e), w') -> hasEmailIfSession ctx = true)
      /\ (forall c ctx e w',
            signup fuel h c w = (Ret (Some ctx, e), w') -> hasEmailIfSession ctx = true)
      /\ (storedHasEmail h w ->
          (forall ctx e w',
              Authenticate fuel h w = (Ret (Some ctx, e), w') ->
              hasEmailIfSession ctx = true)
          /\ (forall ctx e w',
                EnsureContext fuel h w = (Ret (Some ctx, e), w') ->
                hasEmailIfSession ctx = true)
          /\ savesWithEmail (encoded (trace w)) (snd (Authenticate fuel h w))
          /\ savesWithEmail (encoded (trace w)) (snd (EnsureContext fuel h w))
          /\ storedHasEmail h (snd (Authenticate fuel h w))
          /\ storedHasEmail h (snd (EnsureContext fuel h w)))).
Proof.
  split; [| intros Hs; split; [| split]].
  - intros sess token. destruct (sessionToContext_email sess token) as (ctx & C & T & E).
    exists ctx. split; [exact C|]. split; [exact T|]. rewrite <- E.
    destruct (Email (IdentityTraits ctx)); cbn; split; congruence.
  - intros c tok ctx e w' H.
    apply signin_context in H as (sess & token & Hin & Hc); [|discriminate].
    pose proof (sessionToContext_carries sess token (Hs _ Hin)) as R.
    rewrite Hc in R. exact R.
  - intros c ctx e w' H.
    apply signup_context in H as (sess & token & Hin & Hc); [|discriminate].
    pose proof (sessionToContext_carries sess token (Hs _ Hin)) as R.
    rewrite Hc in R. exact R.
  - intros Hf.
    assert (G : Good h (encoded (trace w)) w).
    { repeat split; auto. intros doc Hin. now left. }
    destruct (keeps_Authenticate h _ fuel w G) as ((_ & Fa & Ea) & Qa).
    destruct (keeps_EnsureContext h _ fuel w G) as ((_ & Fe & Ee) & Qe).
    repeat split; auto.
    + intros ctx e w' H. apply (Qa (Some ctx, e)). now rewrite H.
    + intros ctx e w' H. apply (Qe (Some ctx, e)). now rewrite H.
Qed.

(** C8 (as the code has it) where Bob is signed in and the user signs in as
    Alice instead: the context answered has Alice's token and email, the
    documents written are those of the sign-out and of that context, and a
    load finds it. *)
Lemma fresh_context_email_witness :
  (exists ctx w',
      Authenticate 1 home (bobsWorld [true; true]) = (Ret (Some ctx, None), w')
      /\ SessionToken ctx = "tok1"
      /\ Email (IdentityTraits ctx) = "a@example.com"
      /\ hasEmailIfSession ctx = true
      /\ encoded (trace w') = [encodeAuthContext signedOut; encodeAuthContext ctx]
      /\ fst (readConfig home w') = Ret (Some ctx, None))
  /\ savesWithEmail [] (snd (Authenticate 1 home (bobsWorld [true; true])))
  /\ storedHasEmail home (snd (Authenticate 1 home (bobsWorld [true; true]))).
Proof.
  assert (S : sessionsCarryEmail (bobsWorld [true; true])).
  { intros sess [E|[]]. inversion E. reflexivity. }
  assert (F : storedHasEmail home (bobsWorld [true; true])).
  { intros d c Hf Hd. vm_compute in Hf. inversion Hf; subst d.
    vm_compute in Hd. inversion Hd. reflexivity. }
  destruct (proj2 (fresh_context_email 1 home (bobsWorld [true; true])) S)
    as (_ & _ & Hstored).
  destruct (Hstored F) as (Ha & _ & Ea & _ & Fa & _).
  split; [| split; [exact Ea | exact Fa]].
  eexists. eexists. split; [vm_compute; reflexivity|].
  split; [reflexivity|]. split; [reflexivity|].
  split; [eapply Ha; vm_compute; reflexivity|].
  split; vm_compute; reflexivity.
Defined.

(** C8 fails as stated. The API answers the exchange with a session whose
    traits hold no email: the context that is returned, and persisted, has
    a session token and an empty email. And a config file that holds a
    session token and no email is answered as it is, with no call to the
    identity API. *)
Lemma session_without_email :
  (exists ctx w',
      Authenticate 1 home namelessWorld = (Ret (Some ctx, None), w')
      /\ SessionToken ctx = "tok1"
      /\ Email (IdentityTraits ctx) = ""
      /\ hasEmailIfSession ctx = false
      /\ fst (readConfig home w') = Ret (Some ctx, None))
  /\ (exists ctx w',
        EnsureContext 1 unattended tokenOnly = (Ret (Some ctx, None), w')
        /\ SessionToken ctx = "tok0"
        /\ Email (IdentityTraits ctx) = ""
        /\ hasEmailIfSession ctx = false
        /\ quiet (trace w') = true).
Proof.
  split; (eexists; eexists; split; [vm_compute; reflexivity|]);
    repeat split; vm_compute; reflexivity.
Qed.

(* ------------------------------------------------------------------ *)
(** ** Start-up: where the config file is, and the handler *)

Lemma assoc_app_new {A} k n (v : A) l :
  assoc k (l ++ [(n, v)])%list =
  match assoc k l with
  | Some x => Some x
  | None => if String.eqb n k then Some v else None
  end.
Proof.
  induction l as [|[k' x] l IH]; cbn.
  - reflexivity.
  - destruct (String.eqb k' k); [reflexivity | exact IH].
Qed.

Lemma define_new name v f :
  define name v f =
  if defines f name then Stop (Panicked (setName f ++ " flag redefined: " ++ name))
  else Ret (mkFlagSet (setName f) (formal f ++ [(name, v)])).
Proof. unfold define, defines. now destruct (assoc name (formal f)). Qed.

Lemma defines_after n l name (v : FlagValue) k :
  defines (mkFlagSet n (l ++ [(name, v)])) k
  = defines (mkFlagSet n l) k || String.eqb name k.
Proof.
  unfold defines. cbn [formal]. rewrite assoc_app_new.
  destruct (assoc k l); [reflexivity|]. now destruct (String.eqb name k).
Qed.

(** X3. RegisterFlags panics when the set already defines one of
    cloud-config, quiet and yes; otherwise it appends the three to the set,
    in this order, and on a command with that set the three look-ups of
    NewHandler succeed with the defaults: an empty path, not quiet, not
    yes. *)
Theorem RegisterFlags_defines_its_flags f :
  (existsb (defines f) flagNames = true ->
   exists msg, RegisterFlags f = Stop (Panicked msg))
  /\ (existsb (defines f) flagNames = false ->
      exists f',
        RegisterFlags f = Ret f'
        /\ formal f' = (formal f ++ formal registered)%list
        /\ setName f' = setName f
        /\ MustGetString (mkCommand f') configFlag = Ret ""
        /\ MustGetBool (mkCommand f') quietFlag = Ret false
        /\ MustGetBool (mkCommand f') yesFlag = Ret false).
Proof.
  unfold flagNames, existsb, RegisterFlags. rewrite define_new.
  destruct (defines f configFlag) eqn:A; cbn [orb].
  { split; [eauto | discriminate]. }
  rewrite define_new. cbn [formal setName]. rewrite defines_after.
  change (String.eqb configFlag quietFlag) with false. rewrite orb_false_r.
  replace (mkFlagSet (setName f) (formal f)) with f by now destruct f.
  destruct (defines f quietFlag) eqn:B; cbn [orb].
  { split; [eauto | discriminate]. }
  rewrite define_new. cbn [formal setName]. rewrite !defines_after.
  change (String.eqb configFlag yesFlag) with false.
  change (String.eqb quietFlag yesFlag) with false. rewrite !orb_false_r.
  replace (mkFlagSet (setName f) (formal f)) with f by now destruct f.
  destruct (defines f yesFlag) eqn:C.
  { split; [eauto | discriminate]. }
  split; [discriminate|]. intros _.
  eexists; split; [reflexivity|].
  unfold defines in A, B, C.
  unfold MustGetString, MustGetBool. cbn [formal setName Flags].
  rewrite !assoc_app_new.
  destruct (assoc configFlag (formal f)); [discriminate|].
  destruct (assoc quietFlag (formal f)); [discriminate|].
  destruct (assoc yesFlag (formal f)); [discriminate|].
  rewrite <- !app_assoc.
  repeat split.
Qed.

(** X3 on an empty flag set. *)
Lemma RegisterFlags_defines_its_flags_witness :
  exists f',
    RegisterFlags rootFlags = Ret f'
    /\ formal f' = (formal rootFlags ++ formal registered)%list
    /\ setName f' = setName rootFlags
    /\ MustGetString (mkCommand f') configFlag = Ret ""
    /\ MustGetBool (mkCommand f') quietFlag = Ret false
    /\ MustGetBool (mkCommand f') yesFlag = Ret false.
Proof. apply (proj2 (RegisterFlags_defines_its_flags rootFlags)). reflexivity. Defined.

Section StartupProperties.

Variable filepath_Join : string -> string -> string.
Variable URL : Type.
Variable url_Parse : string -> error + URL.

(** X1. Where the config file is looked for. With a home directory and the
    cloud-config flag defined as a string, getConfigPath answers a path and
    no error: the value of ORY_CLOUD_CONFIG_PATH when that is non-empty,
    else the value of the flag when that is non-empty, else the file
    .ory-cloud.json in the home directory. *)
Theorem config_path_priority p cmd dir flag :
  UserHomeDir p = inr dir ->
  assoc configFlag (formal (Flags cmd)) = Some (StringFlag flag) ->
  exists path,
    getConfigPath filepath_Join p cmd = Ret (path, None)
    /\ (nonEmpty (Getenv p osEnvVar) = true -> path = Getenv p osEnvVar)
    /\ (nonEmpty (Getenv p osEnvVar) = false -> nonEmpty flag = true -> path = flag)
    /\ (nonEmpty (Getenv p osEnvVar) = false -> nonEmpty flag = false ->
        path = filepath_Join dir fileName).
Proof.
  intros Hh Hf. unfold getConfigPath, MustGetString. rewrite Hh, Hf.
  eexists; split; [reflexivity|].
  cbn [Coalesce].
  destruct (nonEmpty (Getenv p osEnvVar)), (nonEmpty flag); repeat split;
    try discriminate; intros; try reflexivity.
  all: destruct (filepath_Join dir fileName); reflexivity.
Qed.

(** X2. The home directory is asked for first: when it cannot be
    determined, getConfigPath and NewHandler answer that error, wrapped,
    whatever ORY_CLOUD_CONFIG_PATH and the flags hold; when it is known
    and the look-up of the cloud-config flag exits, they exit with it,
    whatever ORY_CLOUD_CONFIG_PATH holds. *)
Theorem home_directory_comes_first p cmd :
  (forall e, UserHomeDir p = inl e ->
     getConfigPath filepath_Join p cmd
       = Ret ("", Some (Wrapf e "unable to guess your home directory"))
     /\ NewHandler filepath_Join URL url_Parse p cmd
       = Ret (None, Some (Wrapf e "unable to guess your home directory")))
  /\ (forall dir, UserHomeDir p = inr dir ->
        MustGetString cmd configFlag = Stop (Exited 1) ->
        getConfigPath filepath_Join p cmd = Stop (Exited 1)
        /\ NewHandler filepath_Join URL url_Parse p cmd = Stop (Exited 1)).
Proof.
  split.
  - intros e He. unfold NewHandler, getConfigPath. now rewrite He.
  - intros dir Hd Hf. unfold NewHandler, getConfigPath. now rewrite Hd, Hf.
Qed.

(** X4. A handler is built only when the home directory is known, the
    three flags are defined with their types and the endpoint parses. Its
    location is the first non-empty of ORY_CLOUD_CONFIG_PATH, the
    cloud-config flag and .ory-cloud.json in the home directory; its
    writer discards as the quiet flag says; noConfirm is the yes flag; the
    API domain is the parse of ORY_CLOUD_URL, and of
    https://project.console.ory.sh when that is unset or empty. *)
Theorem NewHandler_built p cmd b :
  NewHandler filepath_Join URL url_Parse p cmd = Ret (Some b, None) ->
  exists dir flag,
    UserHomeDir p = inr dir
    /\ MustGetString cmd configFlag = Ret flag
    /\ configLocation (auth b)
       = Coalesce [Getenv p osEnvVar; flag; filepath_Join dir fileName]
    /\ MustGetBool cmd quietFlag = Ret (discard b)
    /\ MustGetBool cmd yesFlag = Ret (noConfirm (auth b))
    /\ url_Parse (Coalesce [Getenv p cloudUrl; defaultEndpoint]) = inr (apiDomain b)
    /\ (nonEmpty (Getenv p cloudUrl) = false ->
        url_Parse defaultEndpoint = inr (apiDomain b)).
Proof.
  unfold NewHandler, getConfigPath.
  destruct (UserHomeDir p) as [e|dir]; [discriminate|].
  destruct (MustGetString cmd configFlag) as [flag|]; [|discriminate].
  destruct (MustGetBool cmd quietFlag) as [q|]; [|discriminate].
  destruct (url_Parse _) as [e|d] eqn:P; [discriminate|].
  destruct (MustGetBool cmd yesFlag) as [y|]; [|discriminate].
  intros H; inversion H; subst b. cbn.
  exists dir, flag. repeat split.
  intros E. cbn in P. now rewrite E in P.
Qed.

End StartupProperties.

(** X1 with the variable set, and with neither variable nor flag. *)
Lemma config_path_priority_witness :
  getConfigPath slashJoin ci (mkCommand registered) = Ret ("/ci/ory.json", None)
  /\ getConfigPath slashJoin laptop (mkCommand registered)
     = Ret ("/home/ory/.ory-cloud.json", None).
Proof.
  split.
  - destruct (config_path_priority slashJoin ci (mkCommand registered) "/home/ory" ""
                eq_refl eq_refl) as (path & E & P & _).
    rewrite E, (P eq_refl). reflexivity.
  - destruct (config_path_priority slashJoin laptop (mkCommand registered) "/home/ory" ""
                eq_refl eq_refl) as (path & E & _ & _ & P).
    rewrite E, (P eq_refl eq_refl). reflexivity.
Defined.

(** X4 with the flags at their defaults and an empty environment. *)
Lemma NewHandler_built_witness :
  exists dir flag,
    UserHomeDir laptop = inr dir
    /\ MustGetString (mkCommand registered) configFlag = Ret flag
    /\ "/home/ory/.ory-cloud.json"
       = Coalesce [Getenv laptop osEnvVar; flag; slashJoin dir fileName]
    /\ MustGetBool (mkCommand registered) quietFlag = Ret false
    /\ MustGetBool (mkCommand registered) yesFlag = Ret false
    /\ parseAny (Coalesce [Getenv laptop cloudUrl; defaultEndpoint])
       = inr "https://project.console.ory.sh"
    /\ (nonEmpty (Getenv laptop cloudUrl) = false ->
        parseAny defaultEndpoint = inr "https://project.console.ory.sh").
Proof.
  apply (NewHandler_built slashJoin string parseAny laptop (mkCommand registered)
           (mkBuilt (mkAuth "/home/ory/.ory-cloud.json" false) false
              "https://project.console.ory.sh")).
  vm_compute. reflexivity.
Defined.

(* ------------------------------------------------------------------ *)
(** ** More on the config store *)

(** X5. A save touches one file: every other path, the room on the disk
    and all that the user and the API have yet to answer are as before,
    and it makes no call to the identity API. *)
Theorem WriteConfig_touches_only_its_file (h : Auth) (c : AuthContext) (w : World) :
  (forall q, q <> configLocation h ->
             files (snd (WriteConfig h c w)) q = files w q)
  /\ diskFull (snd (WriteConfig h c w)) = diskFull w
  /\ scripts (snd (WriteConfig h c w)) = scripts w
  /\ exists evs,
       trace (snd (WriteConfig h c w)) = (trace w ++ evs)%list /\ quiet evs = true.
Proof.
  split; [| split; [| split]].
  - intros q Hq. rewrite WriteConfig_run. cbv zeta.
    assert (E : String.eqb q (configLocation h) = false) by now apply String.eqb_neq.
    destruct (files w (configLocation h)); try destruct (diskFull w); cbn;
      unfold writeNode; rewrite ?E; reflexivity.
  - rewrite WriteConfig_run. cbv zeta.
    destruct (files w (configLocation h)); try destruct (diskFull w) eqn:D; cbn; auto.
  - rewrite WriteConfig_run. cbv zeta.
    destruct (files w (configLocation h)); try destruct (diskFull w); reflexivity.
  - apply WriteConfig_trace.
Qed.

(** X6. A save truncates before it writes. When the location can be opened
    and the write fails for lack of room, the save answers the error, the
    file is left empty, a load then fails with an error that is not the
    NoConfig sentinel, and EnsureContext answers that error instead of
    authenticating. *)
Theorem failed_write_loses_config (fuel : nat) (h : Auth) (c : AuthContext) (w : World) :
  diskFull w = true ->
  files w (configLocation h) <> Denied ->
  files w (configLocation h) <> Directory ->
  exists err w' e,
    WriteConfig h c w = (Ret (setVersion version c, Some err), w')
    /\ files w' (configLocation h) = File Blank
    /\ fst (readConfig h w') = Ret (None, Some e)
    /\ Is_ErrNoConfig e = false
    /\ fst (EnsureContext fuel h w') = Ret (None, Some e).
Proof.
  intros D N1 N2. rewrite WriteConfig_run. cbv zeta. rewrite D.
  destruct (files w (configLocation h)) eqn:F; try congruence;
    (eexists; eexists; eexists; split; [reflexivity|];
     split; [cbn; apply writeNode_same|];
     unfold EnsureContext; rewrite bind_run, readConfig_run; cbv zeta; cbn [files withTrace withFiles];
     rewrite writeNode_same; cbn; repeat split).
Qed.

(** X6 on a disk without room. *)
(* witnesses *)
Lemma failed_write_loses_config_witness :
  exists err w' e,
    WriteConfig home tok1 fullDisk = (Ret (setVersion version tok1, Some err), w')
    /\ files w' (configLocation home) = File Blank
    /\ fst (readConfig home w') = Ret (None, Some e)
    /\ Is_ErrNoConfig e = false
    /\ fst (EnsureContext 1 home w') = Ret (None, Some e).
Proof.
  apply (failed_write_loses_config 1 home tok1 fullDisk);
    vm_compute; [reflexivity | discriminate | discriminate].
Defined.

(** X7. When the location cannot be opened for writing (permission denied,
    or a directory), the save answers the wrapped path error of the open,
    and all it has done is the attempt to open: no file is changed. *)
Theorem failed_open_keeps_disk (h : Auth) (c : AuthContext) (w : World) :
  files w (configLocation h) = Denied \/ files w (configLocation h) = Directory ->
  exists err e,
    WriteConfig h c w
    = (Ret (setVersion version c, Some (Wrapf (PathError "open" (configLocation h) e) err)),
       logged (EvOpenFile (configLocation h)) w)
    /\ (e = EACCES \/ e = EISDIR).
Proof.
  intros [F | F]; rewrite WriteConfig_run; cbv zeta; rewrite F;
    eexists; eexists; (split; [reflexivity | auto]).
Qed.

(** X7 on a config file that may not be opened. *)
Lemma failed_open_keeps_disk_witness :
  exists err e,
    WriteConfig home tok1 lockedWorld
    = (Ret (setVersion version tok1,
            Some (Wrapf (PathError "open" (configLocation home) e) err)),
       logged (EvOpenFile (configLocation home)) lockedWorld)
    /\ (e = EACCES \/ e = EISDIR).
Proof.
  apply (failed_open_keeps_disk home tok1 lockedWorld). left. vm_compute. reflexivity.
Defined.

Lemma WriteConfig_succeeds_again h c1 c1' c2 w w1 :
  WriteConfig h c1 w = (Ret (c1', None), w1) ->
  exists w2,
    WriteConfig h c2 w1 = (Ret (setVersion version c2, None), w2)
    /\ files w2 (configLocation h)
       = File (Document (encodeAuthContext (setVersion version c2))).
Proof.
  intros E. rewrite WriteConfig_run in E. cbv zeta in E.
  destruct (files w (configLocation h)) eqn:F; try discriminate;
    destruct (diskFull w) eqn:D; try discriminate;
    injection E as _ <-; rewrite WriteConfig_run; cbv zeta;
    cbn [files diskFull withFiles withTrace]; rewrite writeNode_same, D;
    (eexists; split; [reflexivity | cbn; apply writeNode_same]).
Qed.

(** X8. After a save that succeeded, a second save by the same handler
    succeeds, and a load answers the second value (with the version set),
    for a second value whose strings are valid UTF-8: the file is
    replaced, nothing of the first value is left. *)
Theorem last_save_wins (h : Auth) (c1 c1' c2 : AuthContext) (w w1 : World) :
  validStrings c2 = true ->
  WriteConfig h c1 w = (Ret (c1', None), w1) ->
  exists w2,
    WriteConfig h c2 w1 = (Ret (setVersion version c2, None), w2)
    /\ fst (readConfig h w2) = Ret (Some (setVersion version c2), None).
Proof.
  intros V E.
  destruct (WriteConfig_succeeds_again h c1 c1' c2 w w1 E) as (w2 & E2 & F2).
  exists w2. split; [exact E2|].
  rewrite (readConfig_document _ _ _ F2). now rewrite coerced_stamped.
Qed.

(** X8: Bob's context saved, then a context of Alice. *)
Lemma last_save_wins_witness :
  exists w2,
    WriteConfig home tok1 (snd (WriteConfig home bob emptyWorld))
    = (Ret (setVersion version tok1, None), w2)
    /\ fst (readConfig home w2) = Ret (Some (setVersion version tok1), None).
Proof.
  apply (last_save_wins home bob bob tok1 emptyWorld (snd (WriteConfig home bob emptyWorld)));
    vm_compute; reflexivity.
Defined.










Lemma N_eqb_ascii k n c :
  (N_of_ascii k =? n)%N = true -> N_of_ascii c <> n -> Ascii.eqb k c = false.
Proof.
  intros H Hc. apply N.eqb_eq in H. apply Ascii.eqb_neq. intros ->. congruence.
Qed.






(** X10. Saving and loading settles after one round. For every value, the
    load after a successful save answers the saved value with the version
    set and its strings coerced to valid UTF-8; saving what was loaded,
    anywhere, and loading again answers the same value. *)
Theorem round_trip_settles (h : Auth) (c c1 : AuthContext) (w w1 : World) :
  WriteConfig h c w = (Ret (c1, None), w1) ->
  exists loaded,
    fst (readConfig h w1) = Ret (Some loaded, None)
    /\ loaded = coerced (setVersion version c)
    /\ forall w' c2 w2,
         WriteConfig h loaded w' = (Ret (c2, None), w2) ->
         fst (readConfig h w2) = Ret (Some loaded, None).
Proof.
  intros E. apply WriteConfig_ok in E as [-> F].
  exists (coerced (setVersion version c)). split; [|split; [reflexivity|]].
  - now rewrite (readConfig_document _ _ _ F).
  - intros w' c2 w2 E2. apply WriteConfig_ok in E2 as [-> F2].
    rewrite (readConfig_document _ _ _ F2).
    assert (S : setVersion version (coerced (setVersion version c))
                = coerced (setVersion version c)) by reflexivity.
    rewrite S. do 2 f_equal.
    unfold coerced. cbn [Version SessionToken SelectedProject IdentityTraits ID Email].
    now rewrite !ToValid_idempotent.
Qed.

(** X10 on a context whose session token is not valid UTF-8. *)
Lemma round_trip_settles_witness :
  exists loaded,
    fst (readConfig home (snd (WriteConfig home garbled emptyWorld)))
    = Ret (Some loaded, None)
    /\ loaded = coerced (setVersion version garbled)
    /\ forall w' c2 w2,
         WriteConfig home loaded w' = (Ret (c2, None), w2) ->
         fst (readConfig home w2) = Ret (Some loaded, None).
Proof.
  apply (round_trip_settles home garbled (setVersion version garbled) emptyWorld
           (snd (WriteConfig home garbled emptyWorld))).
  vm_compute. reflexivity.
Defined.

(* ------------------------------------------------------------------ *)
(** ** More on the loops of the registration and login paths *)

Lemma retryLogin_desk fuel : forall flow isRetry tok w,
  desk (snd (retryLogin fuel flow isRetry tok w)) = desk w.
Proof.
  induction fuel as [|n IH]; intros flow isRetry tok w; [reflexivity|].
  rewrite retryLogin_attempt. cbv zeta.
  destruct (negotiate tok flow) as [nerr|[method form]];
    [destruct isRetry; reflexivity|].
  destruct (forms w) as [|[e|v] rest]; try solve [destruct isRetry; reflexivity].
  destruct (logins w) as [|[err|s] rest']; try solve [destruct isRetry; reflexivity].
  destruct (loginModel err); try solve [destruct isRetry; reflexivity].
  rewrite IH. destruct isRetry; reflexivity.
Qed.

Lemma retryRegistration_desk fuel : forall flow isRetry w,
  desk (snd (retryRegistration fuel flow isRetry w)) = desk w.
Proof.
  induction fuel as [|n IH]; intros flow isRetry w; [reflexivity|].
  rewrite retryRegistration_attempt. cbv zeta.
  destruct (forms w) as [|[e|v] rest]; try solve [destruct isRetry; reflexivity].
  destruct (registrations w) as [|[err|s] rest'];
    try solve [destruct isRetry; reflexivity].
  destruct (registrationModel err); try solve [destruct isRetry; reflexivity].
  rewrite IH. destruct isRetry; reflexivity.
Qed.

Lemma signin_desk fuel : forall h c tok w,
  desk (snd (signin fuel h c tok w)) = desk w.
Proof.
  induction fuel as [|n IH]; intros h c tok w; [reflexivity|].
  rewrite signin_pass. cbv zeta.
  destruct (loginFlows w) as [|[err|flow] rest]; try reflexivity.
  match goal with
  | |- context [retryLogin ?a ?b ?c ?d ?e] =>
      pose proof (retryLogin_desk a b c d e) as K;
      destruct (retryLogin a b c d e) as [[[err|login]|why] w2]
  end; cbn [snd] in K |- *; try exact K.
  destruct (successful_SessionToken login) as [token|]; [|exact K].
  destruct (sessions w2) as [|[err|sess] rest']; try exact K.
  destruct (aal2Required err); [|exact K].
  rewrite IH. exact K.
Qed.

Lemma signup_desk fuel h c w :
  desk (snd (signup fuel h c w)) = desk w.
Proof.
  rewrite signup_pass. cbv zeta.
  destruct (registrationFlows w) as [|[err|flow] rest]; try reflexivity.
  match goal with
  | |- context [retryRegistration ?a ?b ?c ?d] =>
      pose proof (retryRegistration_desk a b c d) as K;
      destruct (retryRegistration a b c d) as [[[err|signup_]|why] w2]
  end; cbn [snd] in K |- *; try exact K.
  destruct (successful_SessionToken signup_) as [token|]; [|exact K].
  destruct (sessions w2) as [|[err|sess] rest']; exact K.
Qed.

(** X19. Sign-in and sign-up leave the disk and the confirmations alone:
    the files, the room on the disk, the client and the answers the user
    has yet to give are after them as before, however they end. *)
(* theorems *)
Theorem flows_leave_the_disk_alone :
  (forall fuel h c tok w, desk (snd (signin fuel h c tok w)) = desk w)
  /\ (forall fuel h c w, desk (snd (signup fuel h c w)) = desk w).
Proof.
  split.
  - intros. apply signin_desk.
  - intros. apply signup_desk.
Qed.

(** Worlds built with the setters, with their fields read off. *)
Ltac normal_worlds :=
  cbn [withFiles withAnswers withForms withRegistrationFlows withLoginFlows
       withRegistrations withLogins withSessions withTrace
       files diskFull clientError answers forms registrationFlows loginFlows
       registrations logins sessions trace].

(** X11. When the flow cannot be initialised, sign-in and sign-up answer
    that error after this one call. When the form cannot be rendered, they
    answer the error of the renderer, unwrapped, with nothing submitted
    and no session exchanged. *)
Theorem early_failure_submits_nothing :
  (forall fuel h c tok w e rest,
      loginFlows w = inl e :: rest ->
      signin (S fuel) h c tok w
      = (Ret (None, Some e), withLoginFlows rest (logged (EvInitLogin tok (aalFor tok)) w)))
  /\ (forall fuel h c w e rest,
        registrationFlows w = inl e :: rest ->
        signup fuel h c w
        = (Ret (None, Some e), withRegistrationFlows rest (logged EvInitRegistration w)))
  /\ (forall fuel h c tok w flow rest e restF,
        loginFlows w = inr flow :: rest ->
        supported tok flow = true ->
        forms w = inl e :: restF ->
        exists w' evs,
          signin (S fuel) h c tok w = (Ret (None, Some e), w')
          /\ trace w' = (trace w ++ evs)%list
          /\ submissions evs = [] /\ exchanges evs = [])
  /\ (forall fuel h c w flow rest e restF,
        registrationFlows w = inr flow :: rest ->
        forms w = inl e :: restF ->
        exists w' evs,
          signup (S fuel) h c w = (Ret (None, Some e), w')
          /\ trace w' = (trace w ++ evs)%list
          /\ submissions evs = [] /\ exchanges evs = []).
Proof.
  split; [| split; [| split]].
  - intros fuel h c tok w e rest Hi. rewrite signin_pass. cbv zeta.
    fold (aalFor tok). now rewrite Hi.
  - intros fuel h c w e rest Hi. rewrite signup_pass. cbv zeta. now rewrite Hi.
  - intros fuel h c tok w flow rest e restF Hi Hs Hf.
    rewrite signin_pass. cbv zeta. rewrite Hi, retryLogin_attempt. cbv zeta.
    unfold supported in Hs.
    destruct (negotiate tok flow) as [|[method form]]; [discriminate|].
    cbn [forms withLoginFlows logged withTrace]. rewrite Hf.
    eexists. eexists. split; [reflexivity|]. cbn. rewrite <- app_assoc.
    split; [reflexivity|]. split; reflexivity.
  - intros fuel h c w flow rest e restF Hi Hf.
    rewrite signup_pass. cbv zeta. rewrite Hi, retryRegistration_attempt. cbv zeta.
    cbn [forms withRegistrationFlows logged withTrace]. rewrite Hf.
    eexists. eexists. split; [reflexivity|]. cbn. rewrite <- app_assoc.
    split; [reflexivity|]. split; reflexivity.
Qed.

(** X12. A submission the API accepts without a session token stops
    sign-in and sign-up with a nil dereference, before any session
    exchange. *)
Theorem missing_session_token_panics :
  (forall fuel h c tok w flow rest v restF restL,
      loginFlows w = inr flow :: rest ->
      supported tok flow = true ->
      forms w = inr v :: restF ->
      logins w = inr (mkSuccessful None) :: restL ->
      exists w' evs,
        signin (S fuel) h c tok w = (Stop nilDereference, w')
        /\ trace w' = (trace w ++ evs)%list /\ exchanges evs = [])
  /\ (forall fuel h c w flow rest v restF restR,
        registrationFlows w = inr flow :: rest ->
        forms w = inr v :: restF ->
        registrations w = inr (mkSuccessful None) :: restR ->
        exists w' evs,
          signup (S fuel) h c w = (Stop nilDereference, w')
          /\ trace w' = (trace w ++ evs)%list /\ exchanges evs = []).
Proof.
  split.
  - intros fuel h c tok w flow rest v restF restL Hi Hs Hf Hl.
    rewrite signin_pass. cbv zeta. rewrite Hi, retryLogin_attempt. cbv zeta.
    unfold supported in Hs.
    destruct (negotiate tok flow) as [|[method form]]; [discriminate|].
    cbn [forms logins withLoginFlows logged withTrace]. rewrite Hf, Hl.
    eexists. eexists. split; [reflexivity|]. cbn. rewrite <- !app_assoc.
    split; reflexivity.
  - intros fuel h c w flow rest v restF restR Hi Hf Hr.
    rewrite signup_pass. cbv zeta. rewrite Hi, retryRegistration_attempt. cbv zeta.
    cbn [forms registrations withRegistrationFlows logged withTrace]. rewrite Hf, Hr.
    eexists. eexists. split; [reflexivity|]. cbn. rewrite <- !app_assoc.
    split; reflexivity.
Qed.

(** X12 on a login the API accepts without a token. *)
Lemma missing_session_token_panics_witness :
  exists w' evs,
    signin 1 home client "" tokenless = (Stop nilDereference, w')
    /\ trace w' = (trace tokenless ++ evs)%list /\ exchanges evs = [].
Proof.
  apply (proj1 missing_session_token_panics 0 home client "" tokenless flowA []
           [("identifier", "a@example.com"); ("password", "right")] [] []);
    vm_compute; reflexivity.
Defined.

(** X13. Sign-up has no step-up: when the exchange of the new token is
    refused, whatever the error, sign-up answers that error as it is,
    after exactly four calls: initialise, render, submit, exchange. *)
Theorem signup_does_not_step_up fuel h c w flow rest v restF token restR err restS :
  registrationFlows w = inr flow :: rest ->
  forms w = inr v :: restF ->
  registrations w = inr (mkSuccessful (Some token)) :: restR ->
  sessions w = inl err :: restS ->
  exists w',
    signup (S fuel) h c w = (Ret (None, Some err), w')
    /\ trace w'
       = (trace w ++ [EvInitRegistration;
                      EvRender (Ui flow) "password" (RegistrationPasswordBody []);
                      EvSubmitRegistration (Id flow) (mkRegistrationFlowBody (Some v));
                      EvToSession token])%list.
Proof.
  intros Hi Hf Hr Hs.
  rewrite signup_pass. cbv zeta. rewrite Hi, retryRegistration_attempt. cbv zeta.
  cbn [forms registrations withRegistrationFlows logged withTrace]. rewrite Hf, Hr.
  cbn [successful_SessionToken]. unfold logged.
  cbn [sessions withRegistrations withRegistrationFlows withForms withTrace].
  rewrite Hs. eexists. split; [reflexivity|]. cbn. now rewrite <- !app_assoc.
Qed.

(** X13 with an exchange refused for session_aal2_required. *)
Lemma signup_does_not_step_up_witness :
  exists w',
    signup 1 home client refusedSignup
    = (Ret (None, Some (invalid aal2RequiredBody ModelNil)), w')
    /\ trace w'
       = (trace refusedSignup
            ++ [EvInitRegistration;
                EvRender (Ui flowA) "password" (RegistrationPasswordBody []);
                EvSubmitRegistration (Id flowA)
                  (mkRegistrationFlowBody
                     (Some [("traits.email", "a@example.com"); ("password", "right")]));
                EvToSession "tok1"])%list.
Proof.
  apply (signup_does_not_step_up 0 home client refusedSignup flowA [] _ [] "tok1" []
           _ []); vm_compute; reflexivity.
Defined.

Lemma signin_ends_with_exchange fuel : forall h c tok w ctx e w',
  signin fuel h c tok w = (Ret (Some ctx, e), w') ->
  exists evs, trace w' = (trace w ++ evs ++ [EvToSession (SessionToken ctx)])%list.
Proof.
  induction fuel as [|n IH]; intros h c tok w ctx e w'; [discriminate|].
  rewrite signin_pass. cbv zeta.
  destruct (loginFlows w) as [|[err|flow] rest]; try discriminate.
  match goal with
  | |- context [retryLogin ?a ?b ?c ?d ?e] =>
      destruct (retryLogin_extends a b c d e) as (evs1 & E1 & _);
      destruct (retryLogin a b c d e) as [[[err|login]|why] w2]
  end; try discriminate.
  cbn [snd] in E1.
  destruct (successful_SessionToken login) as [token|]; [|discriminate].
  destruct (sessions w2) as [|[err|sess] rest']; try discriminate.
  - destruct (aal2Required err); [|discriminate].
    intros H. apply IH in H as (evs & T). rewrite T. cbn. rewrite E1. cbn.
    exists (EvInitLogin tok (aalFor tok) :: evs1
              ++ EvToSession (Coalesce [token; tok]) :: evs)%list.
    rewrite <- !app_assoc. cbn. rewrite <- !app_assoc. reflexivity.
  - intros H. injection H as <- <- <-. cbn. rewrite E1. cbn.
    exists (EvInitLogin tok (aalFor tok) :: evs1)%list.
    rewrite <- !app_assoc. reflexivity.
Qed.

Lemma signup_ends_with_exchange fuel h c w ctx e w' :
  signup fuel h c w = (Ret (Some ctx, e), w') ->
  exists evs, trace w' = (trace w ++ evs ++ [EvToSession (SessionToken ctx)])%list.
Proof.
  rewrite signup_pass. cbv zeta.
  destruct (registrationFlows w) as [|[err|flow] rest]; try discriminate.
  match goal with
  | |- context [retryRegistration ?a ?b ?c ?d] =>
      destruct (retryRegistration_extends a b c d) as (evs1 & E1);
      destruct (retryRegistration a b c d) as [[[err|signup_]|why] w2]
  end; try discriminate.
  cbn [snd] in E1.
  destruct (successful_SessionToken signup_) as [token|]; [|discriminate].
  destruct (sessions w2) as [|[err|sess] rest']; try discriminate.
  intros H. injection H as <- <- <-. cbn. rewrite E1. cbn.
  exists (EvInitRegistration :: evs1)%list.
  rewrite <- !app_assoc. reflexivity.
Qed.

(** X14. Whenever sign-in or sign-up answers a context, the last call it
    made is the session exchange, with the session token of that
    context. *)
Theorem stored_token_is_the_exchanged_one :
  (forall fuel h c tok w ctx e w',
      signin fuel h c tok w = (Ret (Some ctx, e), w') ->
      exists evs, trace w' = (trace w ++ evs ++ [EvToSession (SessionToken ctx)])%list)
  /\ (forall fuel h c w ctx e w',
        signup fuel h c w = (Ret (Some ctx, e), w') ->
        exists evs, trace w' = (trace w ++ evs ++ [EvToSession (SessionToken ctx)])%list).
Proof.
  split; intros.
  - eapply signin_ends_with_exchange; eauto.
  - eapply signup_ends_with_exchange; eauto.
Qed.

(** X14 on a sign-in that succeeds at the second attempt. *)
Lemma stored_token_is_the_exchanged_one_witness :
  exists evs,
    trace (snd (signin 2 home client "" retryWorld))
    = (trace retryWorld ++ evs ++ [EvToSession "tok1"])%list.
Proof.
  apply (proj1 stored_token_is_the_exchanged_one 2 home client "" retryWorld
           (mkAuthContext version "tok1" uuid.Nil
              (mkAuthIdentity (uuid.FromStringOrNil "6ba7b810-9dad-11d1-80b4-00c04fd430c8")
                 "a@example.com")) None).
  vm_compute. reflexivity.
Defined.

(** X15. Without a prior session token, all that a login pass does is
    first-factor: every form is rendered for the method password with an
    empty password body, every submission carries a password body, no
    TOTP body and no session token. *)
Theorem first_factor_is_password fuel : forall flow isRetry w,
  exists evs,
    trace (snd (retryLogin fuel flow isRetry "" w)) = (trace w ++ evs)%list
    /\ forallb firstFactor evs = true.
Proof.
  induction fuel as [|n IH]; intros flow isRetry w.
  - exists []. cbn. now rewrite app_nil_r.
  - rewrite retryLogin_attempt. cbv zeta.
    change (negotiate "" flow) with (@inr error _ ("password", LoginPasswordBody [])).
    cbv iota.
    remember (if isRetry then say loginNotice w else w) as w0 eqn:W0.
    assert (B : exists e0, trace w0 = (trace w ++ e0)%list /\ forallb firstFactor e0 = true).
    { subst w0. destruct isRetry; cbn; [eexists; split; reflexivity|].
      exists []. now rewrite app_nil_r. }
    clear W0. destruct B as (e0 & B & B0).
    destruct (forms w) as [|[e|v] rest];
      try solve [cbn; rewrite B, <- app_assoc; eexists; split;
                 [reflexivity | rewrite forallb_app, B0; reflexivity]].
    destruct (logins w) as [|[err|s] rest'];
      try solve [cbn; rewrite B, <- !app_assoc; eexists; split;
                 [reflexivity | rewrite forallb_app, B0; reflexivity]].
    destruct (loginModel err);
      try solve [cbn; rewrite B, <- !app_assoc; eexists; split;
                 [reflexivity | rewrite forallb_app, B0; reflexivity]].
    match goal with
    | |- context [retryLogin n ?a ?b "" ?d] =>
        destruct (IH a b d) as (evs & E & E0); rewrite E
    end.
    cbn. rewrite B, <- !app_assoc. eexists; split; [reflexivity|].
    rewrite !forallb_app, B0, E0. reflexivity.
Qed.

(** X16. With a prior session token, a flow that offers TOTP is rendered
    for totp and what the user fills in is submitted as the TOTP body; a
    flow that offers lookup secrets only is rendered for lookup_secret
    with the password body, and what the user fills in is submitted as
    the password body. *)
Theorem second_factor_bodies (tok : string) (flow : Flow) fuel w v restF r restL :
  nonEmpty tok = true ->
  forms w = inr v :: restF ->
  logins w = r :: restL ->
  (hasGroup "totp" flow = true ->
   exists evs,
     trace (snd (retryLogin (S fuel) flow false tok w))
     = (trace w ++ [EvRender (Ui flow) "totp" (LoginTotpBody []);
                    EvSubmitLogin tok (Id flow) (mkLoginFlowBody None (Some v))]
          ++ evs)%list)
  /\ (hasGroup "totp" flow = false -> hasGroup "lookup_secret" flow = true ->
      exists evs,
        trace (snd (retryLogin (S fuel) flow false tok w))
        = (trace w ++ [EvRender (Ui flow) "lookup_secret" (LoginPasswordBody []);
                       EvSubmitLogin tok (Id flow) (mkLoginFlowBody (Some v) None)]
             ++ evs)%list).
Proof.
  intros Htok Hf Hl.
  assert (N : negotiate tok flow =
              if negb (hasGroup "lookup_secret" flow) && negb (hasGroup "totp" flow)
              then inl unsupportedSecondFactor
              else if hasGroup "totp" flow then inr ("totp", LoginTotpBody [])
                   else inr ("lookup_secret", LoginPasswordBody [])).
  { unfold negotiate. now rewrite Htok, scanNodes_hasGroup. }
  assert (T : forall method form,
             negotiate tok flow = inr (method, form) ->
             exists evs,
               trace (snd (retryLogin (S fuel) flow false tok w))
               = (trace w ++ [EvRender (Ui flow) method form;
                              EvSubmitLogin tok (Id flow) (bodyOf (fill form v))]
                    ++ evs)%list).
  { intros method form E. rewrite retryLogin_attempt. cbv zeta. rewrite E, Hf, Hl.
    destruct r as [err|s]; [destruct (loginModel err)|];
      try solve [cbn; rewrite <- !app_assoc; cbn; exists []; reflexivity].
    match goal with
    | |- context [retryLogin fuel ?a ?b ?c ?d] =>
        destruct (retryLogin_extends fuel a b c d) as (evs & Ev & _); rewrite Ev
    end.
    cbn. rewrite <- !app_assoc. cbn. eauto. }
  split.
  - intros Ht. apply (T "totp" (LoginTotpBody [])).
    rewrite N, Ht. now rewrite andb_false_r.
  - intros Ht Hk. apply (T "lookup_secret" (LoginPasswordBody [])).
    now rewrite N, Ht, Hk.
Qed.

(** X16 on a flow that offers both. *)
Lemma second_factor_bodies_witness :
  exists evs,
    trace (snd (retryLogin 1 flowC false "tok1" secondFactorWorld))
    = (trace secondFactorWorld
         ++ [EvRender (Ui flowC) "totp" (LoginTotpBody []);
             EvSubmitLogin "tok1" (Id flowC)
               (mkLoginFlowBody None (Some [("totp_code", "123456")]))]
         ++ evs)%list.
Proof.
  refine (proj1 (second_factor_bodies "tok1" flowC 0 secondFactorWorld
                   [("totp_code", "123456")] [] (inr (mkSuccessful (Some "tok1"))) []
                   _ _ _) _); vm_compute; reflexivity.
Defined.

(** X17. After an accepted login the session is exchanged with the token
    the login answered when that is non-empty and with the prior token
    otherwise, and the context answered carries this token. *)
Theorem exchange_token_is_new_or_prior fuel h c tok w flow restI login w2 t sess restS :
  loginFlows w = inr flow :: restI ->
  retryLogin (S fuel) flow false tok
    (withLoginFlows restI (logged (EvInitLogin tok (aalFor tok)) w))
  = (Ret (inr login), w2) ->
  successful_SessionToken login = Some t ->
  sessions w2 = inr sess :: restS ->
  exists ctx,
    signin (S fuel) h c tok w
    = (Ret (Some ctx, None),
       withSessions restS (logged (EvToSession (if nonEmpty t then t else tok)) w2))
    /\ SessionToken ctx = (if nonEmpty t then t else tok).
Proof.
  intros Hi Hloop Ht Hs. rewrite signin_pass. cbv zeta. fold (aalFor tok).
  rewrite Hi, Hloop, Ht, Hs.
  assert (C : Coalesce [t; tok] = if nonEmpty t then t else tok).
  { cbn. destruct (nonEmpty t); [reflexivity|]. destruct tok; reflexivity. }
  rewrite C. eexists. split; reflexivity.
Qed.

(** X17 on a first-factor sign-in. *)
Lemma exchange_token_is_new_or_prior_witness :
  exists ctx,
    fst (signin 2 home client "" retryWorld) = Ret (Some ctx, None)
    /\ SessionToken ctx = "tok1".
Proof.
  destruct (exchange_token_is_new_or_prior 1 home client "" retryWorld flowA []
              (mkSuccessful (Some "tok1"))
              (snd (retryLogin 2 flowA false ""
                      (withLoginFlows [] (logged (EvInitLogin "" (aalFor "")) retryWorld))))
              "tok1" alice []) as (ctx & E & T); try (vm_compute; reflexivity).
  exists ctx. split; [now rewrite E | exact T].
Defined.

(** X18. One more login flow for every demand of a second factor. When the
    exchange is answered session_aal2_required k times and then with a
    session, every pass being accepted at its first submission with the
    same non-empty token, sign-in succeeds with the context of that
    session; it has initialised k+1 login flows, the first for the token
    it was called with and the others for the new token at aal2, and has
    submitted k+1 times. *)
Theorem one_flow_per_escalation fs :
  forall f0 tok t vals errs sess fuel h c w restI restF restL restS,
  length fs < fuel ->
  nonEmpty t = true ->
  supported tok f0 = true ->
  forallb (supported t) fs = true ->
  length vals = S (length fs) ->
  length errs = length fs ->
  forallb aal2Required errs = true ->
  loginFlows w = (map inr (f0 :: fs) ++ restI)%list ->
  forms w = (map inr vals ++ restF)%list ->
  logins w = (repeat (inr (mkSuccessful (Some t))) (S (length fs)) ++ restL)%list ->
  sessions w = (map inl errs ++ inr sess :: restS)%list ->
  exists w' evs,
    signin fuel h c tok w = (Ret (sessionToContext sess t), w')
    /\ trace w' = (trace w ++ evs)%list
    /\ initLogins evs = (tok, aalFor tok) :: repeat (t, "aal2") (length fs)
    /\ length (submissions evs) = S (length fs).
Proof.
  induction fs as [|f1 fs IH];
    intros f0 tok t vals errs sess fuel h c w restI restF restL restS
           Hfuel Ht Hs0 Hs Hvals Herrs Haal Hi Hf Hl Hse;
    (destruct fuel as [|n]; [cbn in Hfuel; lia|]);
    (destruct vals as [|v vals]; [discriminate|]);
    rewrite signin_pass; cbv zeta; fold (aalFor tok); rewrite Hi; cbn [map app];
    rewrite retryLogin_attempt; cbv zeta; unfold supported in Hs0;
    (destruct (negotiate tok f0) as [|[method form]]; [discriminate|]);
    unfold logged; normal_worlds; rewrite Hf, Hl; cbn [map app repeat];
    cbn [successful_SessionToken Coalesce]; rewrite Ht;
    normal_worlds; rewrite Hse.
  - destruct errs; [|discriminate]. cbn [map app].
    eexists. eexists. split; [reflexivity|]. normal_worlds.
    rewrite <- !app_assoc. split; [reflexivity|]. split; reflexivity.
  - destruct errs as [|err errs]; [discriminate|]. cbn [map app].
    cbn [forallb] in Haal, Hs.
    apply andb_prop in Haal as [Ha Haal]. apply andb_prop in Hs as [Hs1 Hs].
    rewrite Ha.
    match goal with
    | |- context [signin n h c t ?w3] =>
        destruct (IH f1 t t vals errs sess n h c w3 restI restF restL restS)
          as (w' & evs & R & T & I1 & S1);
          try assumption; try reflexivity;
          [cbn in Hfuel; lia | now injection Hvals | now injection Herrs |]
    end.
    exists w'. eexists. split; [exact R|].
    rewrite T. normal_worlds. rewrite <- !app_assoc. split; [reflexivity|].
    cbn [app]. split.
    + cbn [initLogins flat_map app]. fold (initLogins evs). rewrite I1.
      unfold aalFor at 2. rewrite Ht. reflexivity.
    + cbn [submissions flat_map app length]. fold (submissions evs). now rewrite S1.
Qed.

(** X18 with two demands in a row. *)
Lemma one_flow_per_escalation_witness :
  exists w' evs,
    signin 3 home client "" twoStepUps = (Ret (sessionToContext alice "tok1"), w')
    /\ trace w' = (trace twoStepUps ++ evs)%list
    /\ initLogins evs = [("", ""); ("tok1", "aal2"); ("tok1", "aal2")]
    /\ length (submissions evs) = 3.
Proof.
  apply (one_flow_per_escalation [flowC; flowC] flowA "" "tok1"
           [[("identifier", "a@example.com"); ("password", "right")];
            [("totp_code", "123456")]; [("totp_code", "654321")]]
           [invalid aal2RequiredBody ModelNil; invalid aal2RequiredBody ModelNil]
           alice 3 home client twoStepUps [] [] [] []);
    first [lia | vm_compute; reflexivity].
Defined.

Lemma FromString_texts u id : In id (uuidTexts u) -> uuid.FromString id = Some u.
Proof.
  intros H. destruct u.
  unfold uuidTexts, hexText, uuid.String_, uuid.hx in H.
  cbn [uuid.b0 uuid.b1 uuid.b2 uuid.b3 uuid.b4 uuid.b5 uuid.b6 uuid.b7 uuid.b8 uuid.b9
       uuid.b10 uuid.b11 uuid.b12 uuid.b13 uuid.b14 uuid.b15 append] in H.
  cbn [In] in H.
  repeat (destruct H as [<-|H]); [ .. | destruct H];
    unfold uuid.FromString; cbn [String.length];
    unfold uuid.decodeBraced, uuid.decodeURN;
    cbn [String.length String.get substring append Nat.sub String.eqb Ascii.eqb Bool.eqb];
    unfold uuid.decodePlain; cbn [String.length];
    unfold uuid.decodeCanonical, uuid.isDash;
    cbn [String.get Ascii.eqb Bool.eqb andb substring append];
    unfold uuid.decodeHashLike; cbn [uuid.hexDecode];
    rewrite !unhex2_hex; reflexivity.
Qed.

(** X20. The context made from a session whose traits are an object with
    an [email] member, the last of which is a string: the version is
    v0alpha0, the token is the one handed in, no project is selected, the
    email is that string coerced to valid UTF-8, and the id is the UUID
    that the identity's id is a text of (canonical or hash-like, bare, in
    braces or as a URN), the nil UUID when the id has none of the lengths
    of such a text. *)
Theorem session_becomes_context u a b email token :
  assoc "email" b = None ->
  let traits := JObject (a ++ ("email", JString email) :: b) in
  (forall id,
      In id (uuidTexts u) ->
      sessionToContext (mkSession (mkIdentity id traits)) token
      = (Some (mkAuthContext version token uuid.Nil
                 (mkAuthIdentity u (utf8.ToValid email))), None))
  /\ (forall id,
        ~ In (String.length id) uuidLengths ->
        sessionToContext (mkSession (mkIdentity id traits)) token
        = (Some (mkAuthContext version token uuid.Nil
                   (mkAuthIdentity uuid.Nil (utf8.ToValid email))), None)).
Proof.
  intros Hb traits. split; intros id Hid;
    unfold sessionToContext, traits, uuid.FromStringOrNil;
    cbn [session_Identity Traits identity_Id];
    rewrite (getField_member a b _ Hb); cbn [json.Encode gjson.readBack gjson.String_].
  - now rewrite (FromString_texts u id Hid).
  - now rewrite (FromString_length id Hid).
Qed.

(** X20 on Carol's session: the later email, the id in braces. *)
Lemma session_becomes_context_witness :
  sessionToContext carol "tok1"
  = (Some (mkAuthContext version "tok1" uuid.Nil
             (mkAuthIdentity (uuid.FromStringOrNil "6ba7b810-9dad-11d1-80b4-00c04fd430c8")
                "c@example.com")), None).
Proof.
  refine (proj1 (session_becomes_context
                   (uuid.FromStringOrNil "6ba7b810-9dad-11d1-80b4-00c04fd430c8")
                   [("email", JNumber "1e2"); ("name", JString "Carol")] []
                   "c@example.com" "tok1" _)
            "{6ba7b8109dad11d180b400c04fd430c8}" _).
  - reflexivity.
  - vm_compute. tauto.
Defined.

(** An email trait that is no string comes out as the text the encoder
    writes for it: a number in the encoder's format, an array with its
    strings escaped (a byte that is no UTF-8 as the escape of U+FFFD); a
    missing or null email comes out empty. *)
Lemma email_of_other_kinds :
  map (fun s => match sessionToContext s "" with
                | (Some c, _) => Email (IdentityTraits c)
                | _ => "?"
                end)
      [numbered "1e2"; numbered "1.0"; numbered "12"; numbered "1e21"; numbered "0.5";
       listed; nameless;
       mkSession (mkIdentity "" (JObject [("email", JArray [JString (String (ascii_of_nat 255) "")])]));
       mkSession (mkIdentity "" (JObject [("email", JNull)]));
       mkSession (mkIdentity "" (JString "email"))]
  = ["100"; "1"; "12"; "1000000000000000000000"; "0.5";
     "[" ++ String dquote (String backslash "u003ca" ++ String backslash "u003e")
         ++ String dquote ",1]";
     "";
     "[" ++ String dquote (String backslash "ufffd") ++ String dquote "]";
     ""; ""].
Proof. vm_compute. reflexivity. Qed.

(* ------------------------------------------------------------------ *)
(** ** More on the top-level orchestration *)

(** [Authenticate] on a readable config. *)
Lemma Authenticate_stored fuel h w d ac :
  noConfirm h = false ->
  files w (configLocation h) = File d ->
  decodeAuthContext d = inr ac ->
  let w1 := logged (EvOpen (configLocation h)) w in
  Authenticate fuel h w =
    if nonEmpty (SessionToken ac) then
      let w2 := logged (EvAsk (alreadySignedIn ac)) w1 in
      match answers w with
      | [] => (Stop (Exited 1), w2)
      | false :: rest => (Ret (Some ac, None), withAnswers rest w2)
      | true :: rest =>
          match SignOut h (say signingOut (withAnswers rest w2)) with
          | (Ret (Some err), w3) => (Ret (None, Some err), w3)
          | (Ret None, w3) => authenticateAnew fuel h w3
          | (Stop why, w3) => (Stop why, w3)
          end
      end
    else authenticateAnew fuel h w1.
Proof.
  intros Hn Hf Hd w1. unfold Authenticate. fold (authenticateAnew fuel h).
  rewrite Hn, bind_run, readConfig_run. cbv zeta. rewrite Hf, Hd.
  rewrite bind_run. fold w1.
  destruct (nonEmpty (SessionToken ac)); [|reflexivity].
  rewrite bind_run. unfold AskForConfirmation at 1. rewrite bind_run. cbn [log].
  cbn [answers withTrace]. fold (alreadySignedIn ac).
  destruct (answers w) as [|[] rest]; try reflexivity.
  cbn [negb]. rewrite bind_run. cbn [Fprintf log]. rewrite bind_run.
  unfold say, logged, signingOut. subst w1. unfold logged. normal_worlds.
  match goal with
  | |- context [SignOut h ?x] => destruct (SignOut h x) as [[[err|]|why] w3]
  end; reflexivity.
Qed.

(** [EnsureContext] on a readable config. *)
Lemma EnsureContext_stored fuel h w d c :
  files w (configLocation h) = File d ->
  decodeAuthContext d = inr c ->
  let w1 := logged (EvOpen (configLocation h)) w in
  EnsureContext fuel h w =
    if nonEmpty (SessionToken c) then
      let w2 := say (signedInAs c) w1 in
      if noConfirm h then (Ret (Some c, None), w2)
      else
        let w3 := logged (EvAsk pressY) w2 in
        match answers w with
        | [] => (Stop (Exited 1), w3)
        | true :: rest => (Ret (Some c, None), withAnswers rest w3)
        | false :: rest =>
            match SignOut h (withAnswers rest w3) with
            | (Ret (Some err), w4) => (Ret (None, Some err), w4)
            | (Ret None, w4) => passOn false (Authenticate fuel h w4)
            | (Stop why, w4) => (Stop why, w4)
            end
        end
    else passOn true (Authenticate fuel h w1).
Proof.
  intros Hf Hd w1. unfold EnsureContext.
  rewrite bind_run, readConfig_run. cbv zeta. rewrite Hf, Hd. fold w1.
  destruct (nonEmpty (SessionToken c)).
  - rewrite bind_run. cbn [Fprintf log]. fold (signedInAs c).
    rewrite bind_run. destruct (noConfirm h); cbn [negb].
    + reflexivity.
    + rewrite bind_run. unfold AskForConfirmation at 1. rewrite bind_run. cbn [log].
      unfold say, logged, pressY. subst w1. unfold logged. normal_worlds.
      destruct (answers w) as [|[] rest]; try reflexivity.
      cbn [ret negb]. rewrite bind_run.
      match goal with
      | |- context [SignOut h ?x] => destruct (SignOut h x) as [[[err|]|why] w4]
      end; try reflexivity.
      rewrite bind_run. unfold passOn.
      destruct (Authenticate fuel h w4) as [[[[ctx|] [err|]]|why] w5]; reflexivity.
  - rewrite bind_run. unfold passOn. subst w1. unfold logged.
    match goal with
    | |- context [Authenticate fuel h ?x] =>
        destruct (Authenticate fuel h x) as [[[[ctx|] [err|]]|why] w5]
    end; reflexivity.
Qed.

Lemma desk_files w w' : desk w' = desk w -> files w' = files w /\ diskFull w' = diskFull w.
Proof. unfold desk. intros E. now inversion E. Qed.

(** A fresh authentication on a writable config: either it succeeds and the
    file holds the context it returns, or the file system is as before. *)
Lemma authenticateAnew_disk fuel h w d0 r w' :
  diskFull w = false ->
  files w (configLocation h) = File d0 ->
  authenticateAnew fuel h w = (r, w') ->
  (exists ctx,
      r = Ret (Some ctx, None)
      /\ files w' (configLocation h) = File (Document (encodeAuthContext ctx)))
  \/ ((forall ctx, r <> Ret (Some ctx, None)) /\ files w' = files w).
Proof.
  intros D F. unfold authenticateAnew. rewrite bind_run.
  unfold newConsoleClient at 1. rewrite bind_run. cbn [log].
  cbn [clientError withTrace]. destruct (clientError w).
  { intros H; inversion H; subst. right. split; [intros ctx; discriminate | reflexivity]. }
  rewrite bind_run. unfold AskForConfirmation at 1. rewrite bind_run. cbn [log].
  cbn [answers withTrace]. destruct (answers w) as [|signIn rest].
  { intros H; inversion H; subst. right. split; [intros ctx; discriminate | reflexivity]. }
  rewrite bind_run.
  match goal with
  | |- context [(if signIn then ?a else ?b) ?w1] =>
      assert (K : desk (snd ((if signIn then a else b) w1)) = desk w1)
        by (destruct signIn; [apply signin_desk | apply signup_desk]);
      destruct ((if signIn then a else b) w1) as [[[[ac|] [err|]]|why] w2]
  end; cbn [snd] in K; apply desk_files in K as [Kf Kd]; cbn in Kf, Kd;
    try (intros H; inversion H; subst; right;
         split; [intros ctx; discriminate | exact Kf]).
  rewrite bind_run, WriteConfig_run. cbv zeta. rewrite Kf, Kd, F, D.
  intros H; inversion H; subst.
  left. eexists. split; [reflexivity|]. cbn. now rewrite writeNode_same.
Qed.

Lemma signin_appending fuel h c tok : appending (signin fuel h c tok).
Proof.
  intros w. destruct fuel as [|n]; [apply extends_refl|].
  destruct (signin_trace_head n h c tok w) as (evs & E). eexists. exact E.
Qed.

Lemma signup_appending fuel h c : appending (signup fuel h c).
Proof.
  intros w. destruct (signup_trace_head fuel h c w) as (evs & E). eexists. exact E.
Qed.

Lemma authenticateAnew_head fuel h w :
  exists evs,
    trace (snd (authenticateAnew fuel h w)) = (trace w ++ EvNewClient "public" :: evs)%list.
Proof.
  unfold authenticateAnew.
  match goal with
  | |- context [bind ?m ?k w] =>
      assert (A : forall a, appending (k a))
  end.
  { intros [err|c]; [apply appending_ret|].
    apply appending_bind.
    - unfold AskForConfirmation. apply appending_bind; [apply appending_log|].
      intros _ w0. destruct (answers w0); cbn; exists []; cbn; now rewrite app_nil_r.
    - intros signIn. apply appending_bind.
      + destruct signIn; [apply signin_appending | apply signup_appending].
      + apply appending_persist. }
  match goal with
  | |- context [bind ?m ?k w] => destruct (bind_extends m k w A) as (evs & E)
  end.
  exists evs. etransitivity; [exact E|].
  unfold newConsoleClient. rewrite bind_run. cbn [log].
  destruct (clientError _); cbn; rewrite <- app_assoc; reflexivity.
Qed.

(** X21. A stored session is kept. With --yes EnsureContext prints who is
    signed in and answers the stored context without asking; without
    --yes it asks, and on a yes answers the stored context. In both cases
    all it has done is read the config, print and ask. *)
Theorem EnsureContext_keeps_session fuel h w d c :
  files w (configLocation h) = File d ->
  decodeAuthContext d = inr c ->
  nonEmpty (SessionToken c) = true ->
  (noConfirm h = true ->
   EnsureContext fuel h w
   = (Ret (Some c, None), say (signedInAs c) (logged (EvOpen (configLocation h)) w)))
  /\ (forall rest,
        noConfirm h = false -> answers w = true :: rest ->
        EnsureContext fuel h w
        = (Ret (Some c, None),
           withAnswers rest
             (logged (EvAsk pressY)
                (say (signedInAs c) (logged (EvOpen (configLocation h)) w))))).
Proof.
  intros Hf Hd Ht. rewrite (EnsureContext_stored fuel h w d c Hf Hd). cbv zeta.
  rewrite Ht. split.
  - intros ->. reflexivity.
  - intros rest -> ->. reflexivity.
Qed.

(** X21 with Bob signed in and a yes. *)
Lemma EnsureContext_keeps_session_witness :
  EnsureContext 3 home (bobsWorld [true])
  = (Ret (Some bob, None),
     withAnswers []
       (logged (EvAsk pressY)
          (say (signedInAs bob) (logged (EvOpen (configLocation home)) (bobsWorld [true]))))).
Proof.
  refine (proj2 (EnsureContext_keeps_session 3 home (bobsWorld [true])
                   (Document (encodeAuthContext bob)) bob _ _ _) [] _ _);
    vm_compute; reflexivity.
Defined.

(** X22. With --yes and a stored context without a session token,
    EnsureContext and Authenticate answer the error that nothing can be
    signed in or up under --yes; Authenticate has done nothing at all,
    EnsureContext has read the config. *)
Theorem yes_without_session_fails fuel h w d c :
  files w (configLocation h) = File d ->
  decodeAuthContext d = inr c ->
  nonEmpty (SessionToken c) = false ->
  noConfirm h = true ->
  EnsureContext fuel h w
  = (Ret (None, Some yesIsSet), logged (EvOpen (configLocation h)) w)
  /\ Authenticate fuel h w = (Ret (None, Some yesIsSet), w).
Proof.
  intros Hf Hd Ht Hy. rewrite (EnsureContext_stored fuel h w d c Hf Hd). cbv zeta.
  rewrite Ht. unfold Authenticate. rewrite Hy. split; reflexivity.
Qed.

(** X22 on a config file that holds an empty object. *)
Lemma yes_without_session_fails_witness :
  EnsureContext 3 unattended emptyDocument
  = (Ret (None, Some yesIsSet), logged (EvOpen (configLocation unattended)) emptyDocument)
  /\ Authenticate 3 unattended emptyDocument = (Ret (None, Some yesIsSet), emptyDocument).
Proof.
  apply (yes_without_session_fails 3 unattended emptyDocument (Document (JObject []))
           zeroAuthContext); vm_compute; reflexivity.
Defined.

(** X23. Authenticate on a stored session asks whether to authenticate
    with another account; on a no it answers the stored context, and all
    it has done is read the config and ask. *)
Theorem Authenticate_keeps_session fuel h w d ac rest :
  noConfirm h = false ->
  files w (configLocation h) = File d ->
  decodeAuthContext d = inr ac ->
  nonEmpty (SessionToken ac) = true ->
  answers w = false :: rest ->
  Authenticate fuel h w
  = (Ret (Some ac, None),
     withAnswers rest
       (logged (EvAsk (alreadySignedIn ac)) (logged (EvOpen (configLocation h)) w))).
Proof.
  intros Hn Hf Hd Ht Ha.
  rewrite (Authenticate_stored fuel h w d ac Hn Hf Hd). cbv zeta.
  now rewrite Ht, Ha.
Qed.

(** X23 with Bob signed in and a no. *)
Lemma Authenticate_keeps_session_witness :
  Authenticate 3 home (bobsWorld [false])
  = (Ret (Some bob, None),
     withAnswers []
       (logged (EvAsk (alreadySignedIn bob))
          (logged (EvOpen (configLocation home)) (bobsWorld [false])))).
Proof.
  apply (Authenticate_keeps_session 3 home (bobsWorld [false])
           (Document (encodeAuthContext bob)) bob []); vm_compute; reflexivity.
Defined.

Lemma SignOut_writable h w d :
  diskFull w = false ->
  files w (configLocation h) = File d ->
  exists w',
    SignOut h w = (Ret None, w')
    /\ files w' (configLocation h) = File (Document (encodeAuthContext signedOut))
    /\ diskFull w' = false
    /\ trace w'
       = (trace w ++ [EvOpenFile (configLocation h);
                      EvEncode (configLocation h) (encodeAuthContext signedOut)])%list
    /\ answers w' = answers w /\ clientError w' = clientError w.
Proof.
  intros D F. rewrite SignOut_run, WriteConfig_run. cbv zeta. rewrite F, D.
  eexists. split; [reflexivity|]. cbn. rewrite writeNode_same, <- app_assoc.
  repeat split; auto.
Qed.

Lemma decode_signedOut :
  decodeAuthContext (Document (encodeAuthContext signedOut)) = inr signedOut.
Proof. rewrite decode_encode. reflexivity. Qed.

(** X24. Switching accounts signs out first. When the user agrees to
    authenticate with another account, on a disk with room: if
    Authenticate answers a context the file holds that context, and in
    every other outcome the file holds the signed-out context; the stored
    session is gone either way. *)
Theorem switching_accounts_signs_out_first fuel h w d ac rest r w' :
  noConfirm h = false ->
  files w (configLocation h) = File d ->
  decodeAuthContext d = inr ac ->
  nonEmpty (SessionToken ac) = true ->
  answers w = true :: rest ->
  diskFull w = false ->
  Authenticate fuel h w = (r, w') ->
  (exists ctx,
      r = Ret (Some ctx, None)
      /\ files w' (configLocation h) = File (Document (encodeAuthContext ctx)))
  \/ ((forall ctx, r <> Ret (Some ctx, None))
      /\ files w' (configLocation h) = File (Document (encodeAuthContext signedOut))).
Proof.
  intros Hn Hf Hd Ht Ha D.
  rewrite (Authenticate_stored fuel h w d ac Hn Hf Hd). cbv zeta.
  rewrite Ht, Ha.
  match goal with
  | |- context [SignOut h ?x] =>
      destruct (SignOut_writable h x d D Hf) as (w3 & S & F3 & D3 & _)
  end.
  rewrite S. intros H.
  destruct (authenticateAnew_disk fuel h w3 _ r w' D3 F3 H)
    as [(ctx & -> & F') | (N & F')].
  - left. eauto.
  - right. split; [exact N|]. now rewrite F'.
Qed.

(** X24 with Bob signed in, who switches to Alice's account. *)
Lemma switching_accounts_signs_out_first_witness :
  (exists ctx,
      fst (Authenticate 3 home (bobsWorld [true; true])) = Ret (Some ctx, None)
      /\ files (snd (Authenticate 3 home (bobsWorld [true; true]))) (configLocation home)
         = File (Document (encodeAuthContext ctx)))
  \/ ((forall ctx, fst (Authenticate 3 home (bobsWorld [true; true])) <> Ret (Some ctx, None))
      /\ files (snd (Authenticate 3 home (bobsWorld [true; true]))) (configLocation home)
         = File (Document (encodeAuthContext signedOut))).
Proof.
  apply (switching_accounts_signs_out_first 3 home (bobsWorld [true; true])
           (Document (encodeAuthContext bob)) bob [true]); vm_compute; reflexivity.
Defined.

Lemma passOn_world strict out : snd (passOn strict out) = snd out.
Proof.
  destruct out as [[[[ctx|] [err|]]|why] w]; try reflexivity.
  destruct strict; reflexivity.
Qed.

Lemma passOn_success strict out ctx w' :
  passOn strict out = (Ret (Some ctx, None), w') -> out = (Ret (Some ctx, None), w').
Proof.
  destruct out as [[[[c|] [err|]]|why] w]; cbn; try discriminate; auto.
  destruct strict; discriminate.
Qed.

Lemma passOn_failure strict out :
  (forall ctx, fst out <> Ret (Some ctx, None)) ->
  forall ctx, fst (passOn strict out) <> Ret (Some ctx, None).
Proof.
  destruct out as [[[[c|] [err|]]|why] w]; cbn; intros N ctx; try discriminate.
  - apply N.
  - destruct strict; discriminate.
Qed.

(** X25. EnsureContext on a stored session the user declines: it reads the
    config, prints who is signed in, asks, signs out (opens the file and
    encodes the signed-out context), reads the config again and creates
    the API client, in this order; in the end the file holds the context
    answered, or the signed-out context when none is answered. *)
Theorem EnsureContext_declined fuel h w d c rest :
  files w (configLocation h) = File d ->
  decodeAuthContext d = inr c ->
  nonEmpty (SessionToken c) = true ->
  noConfirm h = false ->
  answers w = false :: rest ->
  diskFull w = false ->
  (exists evs,
      trace (snd (EnsureContext fuel h w))
      = (trace w ++ [EvOpen (configLocation h); EvPrint (signedInAs c); EvAsk pressY;
                     EvOpenFile (configLocation h);
                     EvEncode (configLocation h) (encodeAuthContext signedOut);
                     EvOpen (configLocation h); EvNewClient "public"] ++ evs)%list)
  /\ ((exists ctx,
         fst (EnsureContext fuel h w) = Ret (Some ctx, None)
         /\ files (snd (EnsureContext fuel h w)) (configLocation h)
            = File (Document (encodeAuthContext ctx)))
      \/ ((forall ctx, fst (EnsureContext fuel h w) <> Ret (Some ctx, None))
          /\ files (snd (EnsureContext fuel h w)) (configLocation h)
             = File (Document (encodeAuthContext signedOut)))).
Proof.
  intros Hf Hd Ht Hn Ha D.
  rewrite (EnsureContext_stored fuel h w d c Hf Hd). cbv zeta.
  rewrite Ht, Hn, Ha.
  match goal with
  | |- context [SignOut h ?x] =>
      destruct (SignOut_writable h x d D Hf) as (w4 & S & F4 & D4 & T4 & A4 & C4)
  end.
  rewrite S.
  rewrite (Authenticate_stored fuel h w4 _ signedOut Hn F4 decode_signedOut).
  cbv zeta. change (nonEmpty (SessionToken signedOut)) with false. cbv iota.
  rewrite !passOn_world. split.
  - destruct (authenticateAnew_head fuel h (logged (EvOpen (configLocation h)) w4))
      as (evs & E).
    exists evs. rewrite E. cbn [logged trace withTrace]. rewrite T4. cbn.
    rewrite <- !app_assoc. reflexivity.
  - destruct (authenticateAnew fuel h (logged (EvOpen (configLocation h)) w4))
      as [r w'] eqn:E.
    destruct (authenticateAnew_disk fuel h (logged (EvOpen (configLocation h)) w4)
                _ r w' D4 F4 E)
      as [(ctx & -> & F') | (N & F')].
    + left. exists ctx. split; [reflexivity | exact F'].
    + right. split.
      * apply passOn_failure. exact N.
      * cbn [snd]. rewrite F'. exact F4.
Qed.

(** X25 with Bob signed in, who declines and signs in as Alice. *)
Lemma EnsureContext_declined_witness :
  exists evs,
    trace (snd (EnsureContext 3 home (bobsWorld [false; true])))
    = (trace (bobsWorld [false; true])
         ++ [EvOpen (configLocation home); EvPrint (signedInAs bob); EvAsk pressY;
             EvOpenFile (configLocation home);
             EvEncode (configLocation home) (encodeAuthContext signedOut);
             EvOpen (configLocation home); EvNewClient "public"] ++ evs)%list.
Proof.
  apply (EnsureContext_declined 3 home (bobsWorld [false; true])
           (Document (encodeAuthContext bob)) bob [true]); vm_compute; reflexivity.
Defined.

Lemma authenticateAnew_stores fuel h w ctx w' :
  authenticateAnew fuel h w = (Ret (Some ctx, None), w') ->
  validStrings ctx = true ->
  fst (readConfig h w') = Ret (Some ctx, None).
Proof.
  intros H V.
  apply authenticateAnew_context in H as (sess & token & c0 & _ & _ & E & F).
  rewrite (readConfig_document _ _ _ F). subst ctx.
  rewrite coerced_stamped; [reflexivity | exact V].
Qed.

Lemma Authenticate_stores fuel h w ctx w' :
  Authenticate fuel h w = (Ret (Some ctx, None), w') ->
  validStrings ctx = true ->
  fst (readConfig h w') = Ret (Some ctx, None).
Proof.
  destruct (noConfirm h) eqn:Hn.
  { unfold Authenticate. rewrite Hn. discriminate. }
  destruct (files w (configLocation h)) as [| | |d] eqn:Hf;
    try solve [unfold Authenticate; rewrite Hn, bind_run, readConfig_run;
               cbv zeta; rewrite Hf; discriminate].
  destruct (decodeAuthContext d) as [e|ac] eqn:Hd.
  { unfold Authenticate. rewrite Hn, bind_run, readConfig_run. cbv zeta.
    rewrite Hf, Hd. destruct (Is_ErrNoConfig _); discriminate. }
  rewrite (Authenticate_stored fuel h w d ac Hn Hf Hd). cbv zeta.
  destruct (nonEmpty (SessionToken ac)).
  - destruct (answers w) as [|[] rest]; [discriminate| |].
    + match goal with
      | |- context [SignOut h ?x] => destruct (SignOut h x) as [[[err|]|why] w3]
      end; try discriminate.
      apply authenticateAnew_stores.
    + intros H V. injection H as <- <-.
      rewrite readConfig_run. cbv zeta. cbn [fst files withAnswers logged withTrace].
      now rewrite Hf, Hd.
  - apply authenticateAnew_stores.
Qed.

(** X26. What comes back is what the file holds: a load right after
    Authenticate or EnsureContext has answered a context whose strings are
    valid UTF-8 answers that context. *)
Theorem returned_context_is_stored fuel h w ctx w' :
  validStrings ctx = true ->
  (Authenticate fuel h w = (Ret (Some ctx, None), w') ->
   fst (readConfig h w') = Ret (Some ctx, None))
  /\ (EnsureContext fuel h w = (Ret (Some ctx, None), w') ->
      fst (readConfig h w') = Ret (Some ctx, None)).
Proof.
  intros V. split; [intros H; eapply Authenticate_stores; eauto|].
  destruct (files w (configLocation h)) as [| | |d] eqn:Hf;
    try solve [unfold EnsureContext; rewrite bind_run, readConfig_run;
               cbv zeta; rewrite Hf; discriminate].
  destruct (decodeAuthContext d) as [e|c] eqn:Hd.
  { unfold EnsureContext. rewrite bind_run, readConfig_run. cbv zeta.
    rewrite Hf, Hd. destruct (Is_ErrNoConfig _); discriminate. }
  rewrite (EnsureContext_stored fuel h w d c Hf Hd). cbv zeta.
  assert (Kept : forall w0, files w0 = files w ->
                 fst (readConfig h w0) = Ret (Some c, None)).
  { intros w0 E. rewrite readConfig_run. cbv zeta. cbn [fst]. now rewrite E, Hf, Hd. }
  destruct (nonEmpty (SessionToken c)).
  - destruct (noConfirm h).
    + intros H. injection H as <- <-. now apply Kept.
    + destruct (answers w) as [|[] rest]; [discriminate| |].
      * intros H. injection H as <- <-. now apply Kept.
      * match goal with
        | |- context [SignOut h ?x] => destruct (SignOut h x) as [[[err|]|why] w4]
        end; try discriminate.
        intros H. apply passOn_success in H. eapply Authenticate_stores; eauto.
  - intros H. apply passOn_success in H. eapply Authenticate_stores; eauto.
Qed.

(** X26 with Bob signed in, who switches to Alice's account. *)
Lemma returned_context_is_stored_witness :
  fst (readConfig home (snd (Authenticate 3 home (bobsWorld [true; true]))))
  = Ret (Some (mkAuthContext version "tok1" uuid.Nil
                 (mkAuthIdentity (uuid.FromStringOrNil "6ba7b810-9dad-11d1-80b4-00c04fd430c8")
                    "a@example.com")), None).
Proof.
  refine (proj1 (returned_context_is_stored 3 home (bobsWorld [true; true])
                   (mkAuthContext version "tok1" uuid.Nil
                      (mkAuthIdentity
                         (uuid.FromStringOrNil "6ba7b810-9dad-11d1-80b4-00c04fd430c8")
                         "a@example.com"))
                   (snd (Authenticate 3 home (bobsWorld [true; true]))) _) _);
    vm_compute; reflexivity.
Defined.
